(** * GitLab MCP server: the curl transport and the search engine

    A shallow embedding of [gitlab_api.py] (class [GitLabClient]):
    the retrying transport [_make_request] and the three search
    operations built on it, [search_files], [grep_repository_content]
    and [search_commits_enhanced].

    Conventions of the embedding.
    - A Python [str] is a Rocq [string] holding its UTF-8 code units, a
      Python [bytes] is a Rocq [string] of raw octets.  Concatenation,
      equality, [split('\n')], [in], [endswith] are exact under this
      reading; [strip] and the wildcards of [fnmatch] work on the code
      points of the text; [lower] is the library's.
    - A Python [int] is a [Z].
    - JSON data is the inductive [pyval]; a [dict] is an association
      list in insertion order, looked up by first occurrence.
    - Effects (running curl, sleeping, logging) are threaded through a
      state-and-exception monad over [World]. *)

From Stdlib Require Import List String Ascii ZArith Lia Bool Arith.
From Stdlib Require Import DecimalString Permutation.
Import ListNotations.
Open Scope string_scope.
Open Scope Z_scope.

Set Implicit Arguments.
Set Warnings "-register-all".

(* ================================================================= *)
(** ** Python values and exceptions *)

Definition str := string.
Definition bytes := string.

Inductive pyval : Type :=
| PNone
| PBool (b : bool)
| PInt (z : Z)
| PFloat (repr : str)
| PStr (s : str)
| PBytes (b : bytes)
| PList (l : list pyval)
| PDict (d : list (str * pyval)).

Inductive exn : Type :=
| TimeoutExpired
| UnicodeDecodeError
| ReError
| AttributeError
| TypeError
| ValueError
| JSONDecodeError
| OverflowError
| RecursionError
| KeyError (key : str)
| OSError (msg : str)
| PyException (msg : str).

Inductive result (A : Type) : Type :=
| Ok (a : A)
| Err (e : exn).
Arguments Ok {A} a.
Arguments Err {A} e.

(** [dict] lookup, [key in d]. *)
Fixpoint lookup (k : str) (d : list (str * pyval)) : option pyval :=
  match d with
  | [] => None
  | (k', v) :: d' => if String.eqb k k' then Some v else lookup k d'
  end.

(** [d[k] = v]: replaces the binding in place, appends a new one at the end. *)
Fixpoint dict_set (k : str) (v : pyval) (d : list (str * pyval)) : list (str * pyval) :=
  match d with
  | [] => [(k, v)]
  | (k', v') :: d' =>
      if String.eqb k k' then (k', v) :: d' else (k', v') :: dict_set k v d'
  end.

(** [x.get(key, default)]: only a dict has the method. *)
Definition py_get (x : pyval) (key : str) (default : pyval) : result pyval :=
  match x with
  | PDict d => Ok (match lookup key d with Some v => v | None => default end)
  | _ => Err AttributeError
  end.

(** [x[key]] for a string key. *)
Definition py_getitem (x : pyval) (key : str) : result pyval :=
  match x with
  | PDict d => match lookup key d with Some v => Ok v | None => Err (KeyError key) end
  | _ => Err TypeError
  end.

(** [x == s] for a string literal [s]. *)
Definition py_eq_str (x : pyval) (s : str) : bool :=
  match x with
  | PStr t => String.eqb t s
  | _ => false
  end.

(* ================================================================= *)
(** ** Strings *)

Definition str_of_int (z : Z) : str := NilZero.string_of_int (Z.to_int z).

Definition ascii_lower (c : ascii) : ascii :=
  let n := nat_of_ascii c in
  if (65 <=? n)%nat && (n <=? 90)%nat then ascii_of_nat (n + 32) else c.

(** The lower case of ASCII text: the letters A to Z are folded, every
    other code unit is kept.  It is [str.lower] on ASCII text only, and
    is what the fixtures use for it; the client itself calls the
    [str_lower] of the library interface below. *)
Fixpoint lower_ascii (s : str) : str :=
  match s with
  | EmptyString => EmptyString
  | String c r => String (ascii_lower c) (lower_ascii r)
  end.

(** [sub in s] *)
Fixpoint contains (sub s : str) : bool :=
  String.prefix sub s ||
  match s with
  | EmptyString => false
  | String _ r => contains sub r
  end.

(** [s.endswith(suffix)] *)
Definition endswith (s suffix : str) : bool :=
  let n := String.length s in
  let m := String.length suffix in
  (m <=? n)%nat && String.eqb (substring (n - m) m s) suffix.

Definition newline : ascii := ascii_of_nat 10.
Definition carriage_return : ascii := ascii_of_nat 13.

(** [s.split('\n')] *)
Fixpoint split_lines (s : str) : list str :=
  match s with
  | EmptyString => [EmptyString]
  | String c r =>
      if Ascii.eqb c newline then EmptyString :: split_lines r
      else match split_lines r with
           | h :: t => String c h :: t
           | [] => [String c EmptyString]
           end
  end.

(** White space is what [str.isspace] says it is.  In one octet: the
    ASCII white space, U+0009 to U+000D, U+001C to U+001F and the blank. *)
Definition is_space (c : ascii) : bool :=
  let n := nat_of_ascii c in
  ((9 <=? n)%nat && (n <=? 13)%nat) || ((28 <=? n)%nat && (n <=? 32)%nat).

(** In two code units: U+0085 and U+00A0. *)
Definition is_space2 (c c1 : ascii) : bool :=
  (nat_of_ascii c =? 194)%nat
  && ((nat_of_ascii c1 =? 133)%nat || (nat_of_ascii c1 =? 160)%nat).

(** In three code units: U+1680, U+2000 to U+200A, U+2028, U+2029,
    U+202F, U+205F and U+3000. *)
Definition is_space3 (c c1 c2 : ascii) : bool :=
  let n := nat_of_ascii c in
  let n1 := nat_of_ascii c1 in
  let n2 := nat_of_ascii c2 in
  ((n =? 225) && (n1 =? 154) && (n2 =? 128))%nat
  || ((n =? 226) && (n1 =? 128)
      && (((128 <=? n2) && (n2 <=? 138)) || (n2 =? 168) || (n2 =? 169) || (n2 =? 175)))%nat
  || ((n =? 226) && (n1 =? 129) && (n2 =? 159))%nat
  || ((n =? 227) && (n1 =? 128) && (n2 =? 128))%nat.

(** [s.lstrip()] *)
Fixpoint lstrip (s : str) : str :=
  match s with
  | EmptyString => EmptyString
  | String c r =>
      if is_space c then lstrip r
      else match r with
           | String c1 r1 =>
               if is_space2 c c1 then lstrip r1
               else match r1 with
                    | String c2 r2 => if is_space3 c c1 c2 then lstrip r2 else s
                    | EmptyString => s
                    end
           | EmptyString => s
           end
  end.

(** Is the text white space only? *)
Definition blank (s : str) : bool :=
  match lstrip s with
  | EmptyString => true
  | _ => false
  end.

(** [s.rstrip()] *)
Fixpoint rstrip (s : str) : str :=
  match s with
  | EmptyString => EmptyString
  | String c r => if blank s then EmptyString else String c (rstrip r)
  end.

(** [s.strip()] *)
Definition strip (s : str) : str := rstrip (lstrip s).

(** [data.replace("\r\n", "\n").replace("\r", "\n")]: both passes together
    turn every carriage return into a newline and drop the newline that
    follows one. *)
Fixpoint translate_newlines (s : str) : str :=
  match s with
  | EmptyString => EmptyString
  | String c r =>
      if Ascii.eqb c carriage_return then
        match r with
        | String c' r' =>
            if Ascii.eqb c' newline then String newline (translate_newlines r')
            else String newline (translate_newlines r)
        | EmptyString => String newline EmptyString
        end
      else String c (translate_newlines r)
  end.

(** *** Text codecs *)

Definition byte_val (c : ascii) : nat := nat_of_ascii c.

Definition is_cont (c : ascii) : bool :=
  (128 <=? byte_val c)%nat && (byte_val c <=? 191)%nat.

Definition in_range (lo hi : nat) (c : ascii) : bool :=
  (lo <=? byte_val c)%nat && (byte_val c <=? hi)%nat.

(** Well-formed UTF-8 (no overlong forms, no surrogates, at most U+10FFFF). *)
Fixpoint utf8_valid (b : bytes) : bool :=
  match b with
  | EmptyString => true
  | String c r =>
      if (byte_val c <? 128)%nat then utf8_valid r
      else if in_range 194 223 c then
        match r with
        | String c1 r1 => is_cont c1 && utf8_valid r1
        | _ => false
        end
      else if in_range 224 239 c then
        match r with
        | String c1 (String c2 r2) =>
            (if (byte_val c =? 224)%nat then in_range 160 191 c1
             else if (byte_val c =? 237)%nat then in_range 128 159 c1
             else is_cont c1)
            && is_cont c2 && utf8_valid r2
        | _ => false
        end
      else if in_range 240 244 c then
        match r with
        | String c1 (String c2 (String c3 r3)) =>
            (if (byte_val c =? 240)%nat then in_range 144 191 c1
             else if (byte_val c =? 244)%nat then in_range 128 143 c1
             else is_cont c1)
            && is_cont c2 && is_cont c3 && utf8_valid r3
        | _ => false
        end
      else false
  end.

(** [b.decode('utf-8')]; [None] stands for [UnicodeDecodeError]. *)
Definition utf8_decode (b : bytes) : option str :=
  if utf8_valid b then Some b else None.

(** [b.decode('latin-1')]: every octet is a code point, so it never fails. *)
Fixpoint latin1_text (b : bytes) : str :=
  match b with
  | EmptyString => EmptyString
  | String c r =>
      let n := byte_val c in
      if (n <? 128)%nat then String c (latin1_text r)
      else String (ascii_of_nat (192 + n / 64))
             (String (ascii_of_nat (128 + n mod 64)) (latin1_text r))
  end.

Definition latin1_decode (b : bytes) : option str := Some (latin1_text b).

(** The length of the well-formed sequence at the head of [b], 0 when
    there is none. *)
Definition utf8_head (b : bytes) : nat :=
  match b with
  | EmptyString => 0
  | String c r =>
      if (byte_val c <? 128)%nat then 1
      else if in_range 194 223 c then
        match r with
        | String c1 _ => if is_cont c1 then 2 else 0
        | _ => 0
        end
      else if in_range 224 239 c then
        match r with
        | String c1 (String c2 _) =>
            if (if (byte_val c =? 224)%nat then in_range 160 191 c1
                else if (byte_val c =? 237)%nat then in_range 128 159 c1
                else is_cont c1)
               && is_cont c2
            then 3 else 0
        | _ => 0
        end
      else if in_range 240 244 c then
        match r with
        | String c1 (String c2 (String c3 _)) =>
            if (if (byte_val c =? 240)%nat then in_range 144 191 c1
                else if (byte_val c =? 244)%nat then in_range 128 143 c1
                else is_cont c1)
               && is_cont c2 && is_cont c3
            then 4 else 0
        | _ => 0
        end
      else 0
  end%nat.

(** The code point of the well-formed sequence at the head of a text,
    and the text after it; [None] at the end of the text and where no
    well-formed sequence starts. *)
Definition utf8_uncons (s : str) : option (N * str) :=
  let v (c : ascii) : N := N.of_nat (byte_val c) in
  match utf8_head s, s with
  | 1%nat, String c r => Some (v c, r)
  | 2%nat, String c (String c1 r) =>
      Some ((v c - 192) * 64 + (v c1 - 128), r)%N
  | 3%nat, String c (String c1 (String c2 r)) =>
      Some ((v c - 224) * 4096 + (v c1 - 128) * 64 + (v c2 - 128), r)%N
  | 4%nat, String c (String c1 (String c2 (String c3 r))) =>
      Some ((v c - 240) * 262144 + (v c1 - 128) * 4096 + (v c2 - 128) * 64 + (v c3 - 128), r)%N
  | _, _ => None
  end.

(** The code points of a text.  (An octet that starts no well-formed
    sequence, which no [str] holds, stands for itself.) *)
Fixpoint points_from (fuel : nat) (s : str) : list N :=
  match fuel with
  | O => []
  | S fuel' =>
      match utf8_uncons s with
      | Some (p, r) => p :: points_from fuel' r
      | None =>
          match s with
          | String c r => N.of_nat (byte_val c) :: points_from fuel' r
          | EmptyString => []
          end
      end
  end.

Definition points (s : str) : list N := points_from (String.length s) s.

(** [b.decode('utf-8', errors='replace')]: well-formed sequences are
    kept, an octet that starts none becomes U+FFFD.  ([copy] octets of
    the current sequence are still to be kept.) *)
Definition replacement_char : str :=
  String (ascii_of_nat 239) (String (ascii_of_nat 191) (String (ascii_of_nat 189) EmptyString)).

Fixpoint utf8_replace_from (copy : nat) (b : bytes) : str :=
  match b with
  | EmptyString => EmptyString
  | String c r =>
      match copy with
      | S k => String c (utf8_replace_from k r)
      | O =>
          match utf8_head b with
          | S k => String c (utf8_replace_from k r)
          | O => replacement_char ++ utf8_replace_from O r
          end
      end
  end.

Definition utf8_replace (b : bytes) : str := utf8_replace_from O b.

(** Text mode of [subprocess]: decode, then universal newlines. *)
Definition decode_text (b : bytes) : option str :=
  option_map translate_newlines (utf8_decode b).

(** *** [urllib.parse.quote(s, safe='')] *)

Definition is_unreserved (c : ascii) : bool :=
  let n := byte_val c in
  ((48 <=? n)%nat && (n <=? 57)%nat) || ((65 <=? n)%nat && (n <=? 90)%nat)
  || ((97 <=? n)%nat && (n <=? 122)%nat)
  || (n =? 45)%nat || (n =? 46)%nat || (n =? 95)%nat || (n =? 126)%nat.

Definition hex_digit (n : nat) : ascii :=
  if (n <? 10)%nat then ascii_of_nat (48 + n) else ascii_of_nat (55 + n).

Fixpoint quote (s : str) : str :=
  match s with
  | EmptyString => EmptyString
  | String c r =>
      if is_unreserved c then String c (quote r)
      else String "%" (String (hex_digit (byte_val c / 16))
                         (String (hex_digit (byte_val c mod 16)) (quote r)))
  end.

(* ================================================================= *)
(** ** The world: the host behind curl, the clock and the log *)

(** What one run of the curl process gives: it completes with an exit
    code and two captured streams, or [subprocess.run] raises
    ([TimeoutExpired] after 30 seconds, [OSError] when curl cannot be
    started, ...). *)
Inductive run_outcome : Type :=
| Completed (returncode : Z) (out err : bytes)
| Raises (e : exn).

Inductive log_record : Type :=
| AttemptFailed (attempt : Z)          (* warning "Attempt {attempt} failed: {stderr}" *)
| AttemptTimedOut (attempt : Z)        (* warning "Attempt {attempt} timed out" *)
| RequestFailed (e : exn)              (* error "Request failed: {e}" *)
| SearchFailed (path : pyval) (e : exn). (* warning "Failed to search in {path}: {e}" *)

Inductive event : Type :=
| EvRun (cmd : list str) (text : bool)
| EvSleep (seconds : Z)
| EvLog (r : log_record).

(** [host k cmd] is the outcome of the [k]-th process started, when it
    is started with command line [cmd]. *)
Record World : Type := mkWorld {
  host : nat -> list str -> run_outcome;
  runs : nat;
  trace : list event
}.

Definition M (A : Type) : Type := World -> result A * World.

Definition ret {A} (a : A) : M A := fun w => (Ok a, w).

Definition raise {A} (e : exn) : M A := fun w => (Err e, w).

Definition bind {A B} (m : M A) (f : A -> M B) : M B :=
  fun w => match m w with
           | (Ok a, w') => f a w'
           | (Err e, w') => (Err e, w')
           end.

(** [try: m except ...: h e] *)
Definition try_except {A} (m : M A) (h : exn -> M A) : M A :=
  fun w => match m w with
           | (Ok a, w') => (Ok a, w')
           | (Err e, w') => h e w'
           end.

Definition lift {A} (r : result A) : M A := fun w => (r, w).

Notation "x <- m ;; k" := (bind m (fun x => k))
  (at level 61, m at next level, right associativity).
Notation "m ;;; k" := (bind m (fun _ => k))
  (at level 61, right associativity).

Definition emit (e : event) : M unit :=
  fun w => (Ok tt, mkWorld (host w) (runs w) (trace w ++ [e])).

Definition log (r : log_record) : M unit := emit (EvLog r).

(** [await asyncio.sleep(seconds)] *)
Definition sleep (seconds : Z) : M unit := emit (EvSleep seconds).

(** The captured stream of a finished process: text or bytes. *)
Inductive stream : Type :=
| Text (s : str)
| Bytes (b : bytes).

Definition stream_truthy (s : stream) : bool :=
  match s with
  | Text (String _ _) => true
  | Bytes (String _ _) => true
  | _ => false
  end.

Record CompletedProcess : Type := mkCompleted {
  returncode : Z;
  stdout : stream;
  stderr : stream
}.

(** [subprocess.run(cmd, capture_output=True, timeout=30, ...)], with
    [text=True, encoding='utf-8'] when [text] holds: the two streams are
    then decoded after the process has ended, standard output first (as
    [Popen.communicate] does on POSIX). *)
Definition subprocess_run (cmd : list str) (text : bool) : M CompletedProcess :=
  fun w =>
    let w' := mkWorld (host w) (S (runs w)) (trace w ++ [EvRun cmd text]) in
    match host w (runs w) cmd with
    | Raises e => (Err e, w')
    | Completed rc out err =>
        if text then
          match decode_text out, decode_text err with
          | Some o, Some e => (Ok (mkCompleted rc (Text o) (Text e)), w')
          | _, _ => (Err UnicodeDecodeError, w')
          end
        else (Ok (mkCompleted rc (Bytes out) (Bytes err)), w')
    end.

(* ================================================================= *)
(** ** The Python libraries the client calls *)

(** [json], [base64], [re] and the Unicode case mapping of [str.lower]
    are taken as an interface: the client is verified for every
    implementation of it.  A call that can raise gives a [result]:
    [json.loads] raises [JSONDecodeError] on text that is not JSON,
    [re.compile] raises [ReError] ([re.error]) on a pattern that is not
    a regular expression, and either may raise something else (CPython
    raises [RecursionError] on deep nesting and [OverflowError] on a
    repetition count of 2^32 or more). *)
Class PyLib : Type := {
  json_loads : str -> result pyval;
  json_dumps : list (str * pyval) -> str;
  b64decode : str -> result bytes;
  regex : Type;
  re_compile : str -> bool -> result regex;  (* the flag is re.IGNORECASE *)
  re_search : regex -> str -> option str;    (* the text of [.group()] *)
  re_escape : str -> str;
  str_lower : str -> str                     (* [s.lower()] *)
}.

(** *** Sequences *)

(** A slice bound, clamped as Python clamps it. *)
Definition clamp_index (n i : Z) : Z :=
  if i <? 0 then Z.max 0 (n + i) else Z.min i n.

(** [l[start:stop]] *)
Definition py_slice {A} (l : list A) (start stop : Z) : list A :=
  let n := Z.of_nat (List.length l) in
  let s := clamp_index n start in
  let e := clamp_index n stop in
  firstn (Z.to_nat (e - s)) (skipn (Z.to_nat s) l).

Fixpoint string_of_chars (l : list ascii) : str :=
  match l with
  | [] => EmptyString
  | c :: r => String c (string_of_chars r)
  end.

(** The one-character strings of a [str]: one for each code point, made
    of the code units of its sequence.  (A code unit that starts no
    well-formed sequence, which no [str] holds, stands alone.) *)
Fixpoint chars_from (fuel : nat) (s : str) : list pyval :=
  match fuel with
  | O => []
  | S fuel' =>
      match s with
      | EmptyString => []
      | String c r =>
          let n := Nat.pred (utf8_head s) in
          PStr (String c (substring 0 n r))
          :: chars_from fuel' (substring n (String.length r - n) r)
      end
  end.

Definition chars (s : str) : list pyval := chars_from (String.length s) s.

Fixpoint octets (b : bytes) : list pyval :=
  match b with
  | EmptyString => []
  | String c r => PInt (Z.of_nat (nat_of_ascii c)) :: octets r
  end.

(** [for item in x]: what the loop iterates over. *)
Definition py_iter (x : pyval) : result (list pyval) :=
  match x with
  | PList l => Ok l
  | PDict d => Ok (map (fun kv => PStr (fst kv)) d)
  | PStr s => Ok (chars s)
  | PBytes b => Ok (octets b)
  | _ => Err TypeError
  end.

(** The elements [for x in v[:stop]] visits. *)
Definition py_take (v : pyval) (stop : Z) : result (list pyval) :=
  match v with
  | PList l => Ok (py_slice l 0 stop)
  | PStr s => Ok (py_slice (chars s) 0 stop)
  | PBytes b => Ok (py_slice (octets b) 0 stop)
  | _ => Err TypeError
  end.

(** [v.lower()] *)
Definition py_lower {L : PyLib} (v : pyval) : result str :=
  match v with
  | PStr s => Ok (str_lower s)
  | _ => Err AttributeError
  end.

(** [v.split('\n')] *)
Definition py_split_lines (v : pyval) : result (list str) :=
  match v with
  | PStr s => Ok (split_lines s)
  | _ => Err AttributeError
  end.

(** Sequencing of results that need no world. *)
Definition rbind {A B} (r : result A) (f : A -> result B) : result B :=
  match r with
  | Ok a => f a
  | Err e => Err e
  end.

Notation "x <-- r ;; k" := (rbind r (fun x => k))
  (at level 61, r at next level, right associativity).

(* ================================================================= *)
(** ** [fnmatch.fnmatch]

    The pattern language of [fnmatch.translate]: [*] is any run of
    characters, [?] is any one character, [[seq]] and [[!seq]] are
    character sets, everything else is itself.  No character is special
    for the path: [*] runs across [/].  ([os.path.normcase] is the
    identity on POSIX.)  A character is a code point: [?] and a set
    take one code point of the name, that is one well-formed sequence
    of its code units; a literal character of the pattern is the
    sequence of its code units. *)

Inductive glob_token : Type :=
| GStar
| GAny
| GLit (c : ascii)
| GSet (negated : bool) (chunks : list (list N)).

Definition hyphen : N := 45.

(** The first position [>= skip] of a hyphen. *)
Fixpoint find_dash (s : list N) (skip : nat) : option nat :=
  match s with
  | [] => None
  | c :: r =>
      match skip with
      | O => if N.eqb c hyphen then Some O else option_map S (find_dash r O)
      | S k => option_map S (find_dash r k)
      end
  end.

(** The chunks between range hyphens; the last one may be empty. *)
Fixpoint split_chunks (fuel : nat) (s : list N) (skip : nat) : list (list N) :=
  match fuel with
  | O => [s]
  | S fuel' =>
      match find_dash s skip with
      | None => [s]
      | Some k => firstn k s :: split_chunks fuel' (skipn (S k) s) 2
      end
  end.

(** An empty last chunk gives its hyphen back to the chunk before it. *)
Fixpoint close_chunks (cs : list (list N)) : list (list N) :=
  match cs with
  | [] => []
  | [c] => [c]
  | [c; []] => [(c ++ [hyphen])%list]
  | c :: cs' => c :: close_chunks cs'
  end.

(** "Remove empty ranges": a range whose bounds are out of order loses both. *)
Definition drop_empty_range (c : list N) (done : list (list N)) : list (list N) :=
  match done with
  | [] => [c]
  | c' :: rest =>
      match rev c, c' with
      | hi :: _, lo :: tl' =>
          if N.ltb lo hi then (removelast c ++ tl')%list :: rest else c :: done
      | _, _ => c :: done
      end
  end.

Definition set_chunks (stuff : list N) : list (list N) :=
  fold_right drop_empty_range [] (close_chunks (split_chunks (List.length stuff) stuff 1)).

Definition in_chunk (x : N) (c : list N) : bool :=
  existsb (N.eqb x) c.

(** Membership in the set the chunks denote: a listed character, or one
    between the last character of a chunk and the first of the next. *)
Fixpoint in_chunks (x : N) (cs : list (list N)) : bool :=
  match cs with
  | [] => false
  | c :: cs' =>
      in_chunk x c ||
      match rev c, cs' with
      | lo :: _, (hi :: _) :: _ =>
          (negb (N.ltb x lo) && negb (N.ltb hi x)) || in_chunks x cs'
      | _, _ => in_chunks x cs'
      end
  end.

(** Up to the first closing bracket. *)
Fixpoint scan_close (s : str) : option (list ascii * str) :=
  match s with
  | EmptyString => None
  | String c r =>
      if Ascii.eqb c "]" then Some ([], r)
      else match scan_close r with
           | Some (stuff, rest) => Some (c :: stuff, rest)
           | None => None
           end
  end.

(** After an opening bracket: a leading [!] negates, a closing bracket
    right after the opening (or after the [!]) is a member. *)
Definition scan_set (s : str) : option (bool * list ascii * str) :=
  let (neg, s1) := match s with
                   | String "!" r => (true, r)
                   | _ => (false, s)
                   end in
  match s1 with
  | String "]" r =>
      match scan_close r with
      | Some (stuff, rest) => Some (neg, "]"%char :: stuff, rest)
      | None => None
      end
  | _ =>
      match scan_close s1 with
      | Some (stuff, rest) => Some (neg, stuff, rest)
      | None => None
      end
  end.

Fixpoint glob_tokens (fuel : nat) (pat : str) : list glob_token :=
  match fuel, pat with
  | O, _ => []
  | _, EmptyString => []
  | S fuel', String c r =>
      if Ascii.eqb c "*" then GStar :: glob_tokens fuel' r
      else if Ascii.eqb c "?" then GAny :: glob_tokens fuel' r
      else if Ascii.eqb c "[" then
        match scan_set r with
        | Some (neg, stuff, rest) =>
            GSet neg (set_chunks (points (string_of_chars stuff))) :: glob_tokens fuel' rest
        | None => GLit c :: glob_tokens fuel' r
        end
      else GLit c :: glob_tokens fuel' r
  end.

Definition translate (pat : str) : list glob_token :=
  glob_tokens (String.length pat) pat.

(** A match of the whole name. *)
Fixpoint glob_match (p : list glob_token) (name : str) {struct p} : bool :=
  match p with
  | [] => match name with EmptyString => true | _ => false end
  | GStar :: p' =>
      (fix star (s : str) : bool :=
         glob_match p' s ||
         match s with
         | EmptyString => false
         | String _ r => star r
         end) name
  | GAny :: p' =>
      match utf8_uncons name with
      | Some (_, r) => glob_match p' r
      | None => false
      end
  | GLit c :: p' =>
      match name with
      | String c' r => Ascii.eqb c c' && glob_match p' r
      | EmptyString => false
      end
  | GSet neg cs :: p' =>
      match utf8_uncons name with
      | Some (x, r) => xorb neg (in_chunks x cs) && glob_match p' r
      | None => false
      end
  end.

Definition fnmatchcase (name pat : str) : bool := glob_match (translate pat) name.

(** [fnmatch.fnmatch(name, pat)] on a value: a name that is not a string
    is a [TypeError]. *)
Definition fnmatch (name : pyval) (pat : str) : result bool :=
  match name with
  | PStr s => Ok (fnmatchcase s pat)
  | _ => Err TypeError
  end.

(* ================================================================= *)
(** ** The client *)

Record GitLabClient : Type := mkClient {
  token : str;
  base_url : str;
  project_id : str
}.

Section Client.

Context {L : PyLib}.
Variable self : GitLabClient.

(** *** Transport: [_make_request] *)

(** The curl command line of one request. *)
Definition curl_command (endpoint method : str) (data : option (list (str * pyval))) : list str :=
  ["curl"; "-k"; "-s";
   "--connect-timeout"; "10";
   "--max-time"; "20";
   "-H"; "Authorization: Bearer " ++ token self;
   "-H"; "Content-Type: application/json"]
  ++ (if String.eqb method "GET" then [] else ["-X"; method])
  ++ (match data with
      | Some (kv :: d) => ["-d"; json_dumps (kv :: d)]
      | _ => []
      end)
  ++ [base_url self ++ endpoint].

(** Lines 82-89: UTF-8, then latin-1, then UTF-8 with replacement. *)
Definition decode_fallback (b : bytes) : str :=
  match utf8_decode b with
  | Some s => s
  | None =>
      match latin1_decode b with
      | Some s => s
      | None => utf8_replace b
      end
  end.

Definition stream_bytes (s : stream) : bytes :=
  match s with
  | Text t => t
  | Bytes b => b
  end.

(** [MockResult.__init__]: a [bytes] stderr is decoded with replacement. *)
Definition MockResult (rc : Z) (out : str) (err : stream) : CompletedProcess :=
  mkCompleted rc (Text out)
    (match err with
     | Bytes b => Text (utf8_replace b)
     | Text t => Text t
     end).

(** Lines 80-96: run curl again in binary mode and decode by hand. *)
Definition run_binary (cmd : list str) : M CompletedProcess :=
  r <- subprocess_run cmd false ;;
  if (returncode r =? 0) && stream_truthy (stdout r) then
    ret (MockResult (returncode r) (decode_fallback (stream_bytes (stdout r))) (stderr r))
  else ret r.

(** Lines 75-96: run curl in text mode; on [UnicodeDecodeError] fall
    back to binary mode. *)
Definition run_curl (cmd : list str) : M CompletedProcess :=
  try_except (subprocess_run cmd true)
    (fun e =>
       match e with
       | UnicodeDecodeError => run_binary cmd
       | _ => raise e
       end).

(** Lines 99-103 on a text: [json.loads(text)], and the text itself on
    [JSONDecodeError]. *)
Definition parse_text (s : str) : result pyval :=
  match json_loads s with
  | Ok v => Ok v
  | Err JSONDecodeError => Ok (PStr s)
  | Err e => Err e
  end.

(** Lines 99-103 on [result.stdout]; [json.loads] decodes bytes itself. *)
Definition parse_body (out : stream) : result pyval :=
  match out with
  | Text s => parse_text s
  | Bytes b =>
      match utf8_decode b with
      | Some s =>
          match json_loads s with
          | Ok v => Ok v
          | Err JSONDecodeError => Ok (PBytes b)
          | Err e => Err e
          end
      | None => Err UnicodeDecodeError
      end
  end.

Definition backoff (attempt retries : Z) : M unit :=
  if attempt <? retries then sleep 2 else ret tt.

(** Lines 98-107: return the parsed response, or log the failure and
    pause; [Some v] when the loop body returns [v], [None] when it falls
    through to the next iteration. *)
Definition accept (r : CompletedProcess) (attempt retries : Z) : M (option pyval) :=
  if (returncode r =? 0) && stream_truthy (stdout r) then
    v <- lift (parse_body (stdout r)) ;;
    ret (Some v)
  else
    log (AttemptFailed attempt) ;;;
    backoff attempt retries ;;;
    ret None.

(** Lines 109-116: the two [except] clauses of the loop body. *)
Definition recover (e : exn) (attempt retries : Z) : M (option pyval) :=
  match e with
  | TimeoutExpired =>
      log (AttemptTimedOut attempt) ;;;
      backoff attempt retries ;;;
      ret None
  | _ =>
      log (RequestFailed e) ;;;
      backoff attempt retries ;;;
      ret None
  end.

(** The body of the [for attempt in range(1, retries + 1)] loop. *)
Definition attempt_request (cmd : list str) (attempt retries : Z) : M (option pyval) :=
  try_except
    (r <- run_curl cmd ;; accept r attempt retries)
    (fun e => recover e attempt retries).

Definition exhausted (retries : Z) (endpoint : str) : exn :=
  PyException ("API request failed after " ++ str_of_int retries ++ " attempts: " ++ endpoint).

(** The loop over [n] remaining attempts, the next one numbered [attempt]. *)
Fixpoint request_loop (cmd : list str) (endpoint : str) (retries : Z)
    (n : nat) (attempt : Z) : M pyval :=
  match n with
  | O => raise (exhausted retries endpoint)
  | S n' =>
      r <- attempt_request cmd attempt retries ;;
      match r with
      | Some v => ret v
      | None => request_loop cmd endpoint retries n' (attempt + 1)
      end
  end.

Definition _make_request (endpoint method : str) (data : option (list (str * pyval)))
    (retries : Z) : M pyval :=
  request_loop (curl_command endpoint method data) endpoint retries (Z.to_nat retries) 1.

(** A plain GET with the default budget. *)
Definition request (endpoint : str) : M pyval := _make_request endpoint "GET" None 3.

(** *** Passthrough operations the search engine uses *)

Definition get_repository_tree (project_id path ref : str) (recursive : bool)
    (per_page : Z) : M pyval :=
  let endpoint := "/api/v4/projects/" ++ project_id ++ "/repository/tree" in
  let params :=
    List.app ["ref=" ++ ref; "per_page=" ++ str_of_int per_page]
      (List.app (match path with
                 | EmptyString => []
                 | _ => ["path=" ++ quote path]
                 end)
                (if recursive then ["recursive=true"] else [])) in
  request (endpoint ++ "?" ++ String.concat "&" params).

(** [quote(file_path, safe='')] on a value. *)
Definition py_quote (v : pyval) : result str :=
  match v with
  | PStr s => Ok (quote s)
  | PBytes b => Ok (quote b)
  | _ => Err TypeError
  end.

(** [base64.b64decode(v).decode('utf-8')] *)
Definition decode_content (v : pyval) : result str :=
  raw <-- (match v with
           | PStr s => b64decode s
           | PBytes b => b64decode b
           | _ => Err TypeError
           end) ;;
  match utf8_decode raw with
  | Some s => Ok s
  | None => Err UnicodeDecodeError
  end.

Definition get_file (project_id : str) (file_path : pyval) (ref : str) : M pyval :=
  encoded_path <- lift (py_quote file_path) ;;
  let endpoint := "/api/v4/projects/" ++ project_id ++ "/repository/files/"
                  ++ encoded_path ++ "?ref=" ++ ref in
  result <- request endpoint ;;
  match result with
  | PDict d =>
      match lookup "content" d with
      | Some c =>
          text <- lift (decode_content c) ;;
          ret (PDict (dict_set "content" (PStr text) d))
      | None => ret result
      end
  | _ => ret result
  end.

Definition list_commits (project_id : str) (ref_name since until : option str) : M pyval :=
  let endpoint := "/api/v4/projects/" ++ project_id ++ "/repository/commits" in
  let param (name : str) (o : option str) : list str :=
    match o with
    | Some (String c r) => [name ++ "=" ++ String c r]
    | _ => []
    end in
  let params :=
    List.app (param "ref_name" ref_name) (List.app (param "since" since) (param "until" until)) in
  request (match params with
           | [] => endpoint
           | _ => endpoint ++ "?" ++ String.concat "&" params
           end).

(** *** File discovery: [search_files] *)

(** The loop of lines 388-394 over the remaining [items]. *)
Fixpoint search_files_loop (pattern : str) (max_results : Z)
    (items matching_files : list pyval) : result (list pyval) :=
  match items with
  | [] => Ok matching_files
  | item :: rest =>
      ty <-- py_get item "type" PNone ;;
      if py_eq_str ty "blob" then
        file_path <-- py_get item "path" (PStr "") ;;
        m <-- fnmatch file_path pattern ;;
        if m then
          let matching_files' := (matching_files ++ [item])%list in
          if Z.of_nat (List.length matching_files') >=? max_results then Ok matching_files'
          else search_files_loop pattern max_results rest matching_files'
        else search_files_loop pattern max_results rest matching_files
      else search_files_loop pattern max_results rest matching_files
  end.

Definition search_files (project_id pattern ref : str) (max_results : Z) : M (list pyval) :=
  tree <- get_repository_tree project_id "" ref true 1000 ;;
  items <- lift (py_iter tree) ;;
  lift (search_files_loop pattern max_results items []).

(** *** Content grep: [grep_repository_content] *)

Record SearchMatch : Type := mkMatch {
  file : pyval;
  line_number : Z;
  line : str;
  matched : str;                 (* the key "match" *)
  context : option (list str)
}.

Definition binary_extensions : list str :=
  [".jpg"; ".png"; ".gif"; ".pdf"; ".zip"; ".exe"; ".bin"; ".so"].

(** [any(file_path.lower().endswith(ext) for ext in [...])] *)
Definition is_binary (file_path : pyval) : result bool :=
  l <-- py_lower file_path ;;
  Ok (existsb (endswith l) binary_extensions).

(** The loop of lines 410-425 that selects the files to search. *)
Fixpoint select_files (file_filter : option str) (max_files : Z)
    (items files_to_search : list pyval) : result (list pyval) :=
  match items with
  | [] => Ok files_to_search
  | item :: rest =>
      ty <-- py_get item "type" PNone ;;
      if py_eq_str ty "blob" then
        file_path <-- py_get item "path" (PStr "") ;;
        filtered_out <-- (match file_filter with
                          | Some (String c r) =>
                              m <-- fnmatch file_path (String c r) ;; Ok (negb m)
                          | _ => Ok false
                          end) ;;
        if filtered_out then select_files file_filter max_files rest files_to_search
        else
          bin <-- is_binary file_path ;;
          if bin then select_files file_filter max_files rest files_to_search
          else
            let files_to_search' := (files_to_search ++ [item])%list in
            if Z.of_nat (List.length files_to_search') >=? max_files then Ok files_to_search'
            else select_files file_filter max_files rest files_to_search'
      else select_files file_filter max_files rest files_to_search
  end.

(** Lines 428-433: compile the pattern, or its escaped form when it is
    not a regular expression. *)
Definition compile_pattern (pattern : str) (case_insensitive : bool) : result regex :=
  match re_compile pattern case_insensitive with
  | Ok r => Ok r
  | Err ReError => re_compile (re_escape pattern) case_insensitive
  | Err e => Err e
  end.

(** Lines 453-456: the lines around line [line_num]. *)
Definition context_window (lines : list str) (line_num context_lines : Z) : list str :=
  let start := Z.max 0 (line_num - context_lines - 1) in
  let end_ := Z.min (Z.of_nat (List.length lines)) (line_num + context_lines) in
  py_slice lines start end_.

(** The loop of lines 443-458 over the lines [todo] still to test,
    the first of them numbered [line_num]; [search] is the bound
    method [regex.search]. *)
Fixpoint scan_lines (search : str -> option str) (path : pyval) (context_lines : Z)
    (lines todo : list str) (line_num : Z) : list SearchMatch :=
  match todo with
  | [] => []
  | l :: rest =>
      match search l with
      | Some g =>
          mkMatch path line_num (strip l) g
            (if context_lines >? 0 then Some (context_window lines line_num context_lines)
             else None)
          :: scan_lines search path context_lines lines rest (line_num + 1)
      | None => scan_lines search path context_lines lines rest (line_num + 1)
      end
  end.

(** The body of the [try] of lines 438-458 for one file. *)
Definition search_in_file (search : str -> option str) (project_id : str)
    (file_item : pyval) (ref : str)
    (context_lines : Z) : M (list SearchMatch) :=
  path <- lift (py_getitem file_item "path") ;;
  file_content <- get_file project_id path ref ;;
  content <- lift (py_get file_content "content" (PStr "")) ;;
  lines <- lift (py_split_lines content) ;;
  ret (scan_lines search path context_lines lines lines 1).

(** The loop of lines 436-462 over the files still to search. *)
Fixpoint search_loop (search : str -> option str) (project_id ref : str) (context_lines : Z)
    (files : list pyval) (matches : list SearchMatch) : M (list SearchMatch) :=
  match files with
  | [] => ret matches
  | file_item :: rest =>
      matches' <- try_except
                    (found <- search_in_file search project_id file_item ref context_lines ;;
                     ret (matches ++ found)%list)
                    (fun e =>
                       path <- lift (py_getitem file_item "path") ;;
                       log (SearchFailed path e) ;;;
                       ret matches) ;;
      search_loop search project_id ref context_lines rest matches'
  end.

Definition grep_repository_content (project_id pattern : str) (file_filter : option str)
    (ref : str) (case_insensitive : bool) (context_lines max_files : Z)
    : M (list SearchMatch) :=
  tree <- get_repository_tree project_id "" ref true 1000 ;;
  items <- lift (py_iter tree) ;;
  files_to_search <- lift (select_files file_filter max_files items []) ;;
  rx <- lift (compile_pattern pattern case_insensitive) ;;
  search_loop (re_search rx) project_id ref context_lines files_to_search [].

(** *** Commit filtering: [search_commits_enhanced] *)

(** Lines 478-485: does the commit pass the message filter? *)
Definition grep_passes (grep : option str) (commit : pyval) : result bool :=
  match grep with
  | Some (String c r) =>
      let grep := String c r in
      message <-- py_get commit "message" (PStr "") ;;
      match re_compile grep true with
      | Ok rx =>
          match message with
          | PStr m => Ok (match re_search rx m with Some _ => true | None => false end)
          | _ => Err TypeError
          end
      | Err ReError =>
          (* Fallback to simple string search *)
          m <-- py_lower message ;;
          Ok (contains (str_lower grep) m)
      | Err e => Err e
      end
  | _ => Ok true
  end.

(** Lines 488-492: does the commit pass the author filter? *)
Definition author_passes (author : option str) (commit : pyval) : result bool :=
  match author with
  | Some (String c r) =>
      let author := String c r in
      author_name <-- py_get commit "author_name" (PStr "") ;;
      author_email <-- py_get commit "author_email" (PStr "") ;;
      name <-- py_lower author_name ;;
      if contains (str_lower author) name then Ok true
      else
        email <-- py_lower author_email ;;
        Ok (contains (str_lower author) email)
  | _ => Ok true
  end.

(** The loop of lines 476-496 over the commits of the window. *)
Fixpoint filter_commits (grep author : option str) (limit : Z)
    (commits filtered_commits : list pyval) : result (list pyval) :=
  match commits with
  | [] => Ok filtered_commits
  | commit :: rest =>
      g <-- grep_passes grep commit ;;
      if negb g then filter_commits grep author limit rest filtered_commits
      else
        a <-- author_passes author commit ;;
        if negb a then filter_commits grep author limit rest filtered_commits
        else
          let filtered_commits' := (filtered_commits ++ [commit])%list in
          if Z.of_nat (List.length filtered_commits') >=? limit then Ok filtered_commits'
          else filter_commits grep author limit rest filtered_commits'
  end.

Definition search_commits_enhanced (project_id : str) (grep author file_path since until : option str)
    (limit : Z) : M (list pyval) :=
  commits <- list_commits project_id None since until ;;
  window <- lift (py_take commits (limit * 3)) ;;
  lift (filter_commits grep author limit window []).

End Client.

(* ================================================================= *)
(** ** Reference descriptions used in the statements *)

Section Reference.

Context {L : PyLib}.

(** The response one attempt accepts, and the number of the next
    process, when the attempt starts with process number [i]: a view of
    the host without the world.  Output that is not UTF-8 makes the
    attempt start a second process and read it as bytes. *)
Definition accepted (rc : Z) (body : str) : option str :=
  match body with
  | String _ _ => if rc =? 0 then Some body else None
  | EmptyString => None
  end.

Definition observe_bytes (h : nat -> list str -> run_outcome) (cmd : list str) (i : nat)
    : option str * nat :=
  match h i cmd with
  | Raises _ => (None, S i)
  | Completed rc out _ =>
      (match accepted rc out with
       | Some _ => Some (decode_fallback out)
       | None => None
       end, S i)
  end.

Definition observe (h : nat -> list str -> run_outcome) (cmd : list str) (i : nat)
    : option str * nat :=
  match h i cmd with
  | Raises UnicodeDecodeError => observe_bytes h cmd (S i)
  | Raises _ => (None, S i)
  | Completed rc out err =>
      match decode_text out, decode_text err with
      | Some o, Some _ => (accepted rc o, S i)
      | _, _ => observe_bytes h cmd (S i)
      end
  end.

(** What the attempt returns, if it returns: the accepted response,
    parsed. *)
Definition attempt_value (h : nat -> list str -> run_outcome) (cmd : list str) (i : nat)
    : option pyval * nat :=
  match observe h cmd i with
  | (Some body, j) => (match parse_text body with Ok v => Some v | Err _ => None end, j)
  | (None, j) => (None, j)
  end.

(** The process number reached after [k] attempts in a row that return
    nothing, starting with process number [i]. *)
Fixpoint failures (h : nat -> list str -> run_outcome) (cmd : list str) (k i : nat)
    : option nat :=
  match k with
  | O => Some i
  | S k' =>
      match attempt_value h cmd i with
      | (None, j) => failures h cmd k' j
      | (Some _, _) => None
      end
  end.

(** A transport-level failure of one process: a timeout or another
    exception of [subprocess.run], or a non-zero exit code. *)
Definition transport_failure (o : run_outcome) : Prop :=
  match o with
  | Raises _ => True
  | Completed rc _ _ => rc <> 0
  end.

(** Attempts made so far: each one starts with one text-mode run. *)
Fixpoint attempts_made (t : list event) : nat :=
  match t with
  | [] => O
  | EvRun _ true :: t' => S (attempts_made t')
  | _ :: t' => attempts_made t'
  end.

(** Worlds that differ by effects other than starting a process. *)
Definition quiet (w w' : World) : Prop :=
  host w' = host w /\ runs w' = runs w
  /\ attempts_made (trace w') = attempts_made (trace w).

(** One more attempt made from world [w]: it returns [value] or falls
    through, leaves the host at process number [next], and when it
    returns a value the run that gave it is the last event. *)
Definition attempt_does (cmd : list str) (w : World) (value : option pyval) (next : nat)
    (result : result (option pyval) * World) : Prop :=
  exists w',
    result = (Ok value, w')
    /\ host w' = host w /\ runs w' = next
    /\ attempts_made (trace w') = S (attempts_made (trace w))
    /\ (value <> None -> exists t b, trace w' = (t ++ [EvRun cmd b])%list).

(** The world after one more log record. *)
Definition logged (w : World) (r : log_record) : World :=
  mkWorld (host w) (runs w) (trace w ++ [EvLog r]).

(** The endpoint [get_file] asks for. *)
Definition file_endpoint (project_id path ref : str) : str :=
  "/api/v4/projects/" ++ project_id ++ "/repository/files/" ++ quote path ++ "?ref=" ++ ref.

(** Lines [lo] to [hi] of a file, counted from 1, both included. *)
Definition lines_between (lines : list str) (lo hi : Z) : list str :=
  firstn (Z.to_nat (hi - lo + 1)) (skipn (Z.to_nat (lo - 1)) lines).

(** A substring test that reports the text found: the first place where
    [p] occurs in [s]; when [ci] holds the case of the ASCII letters is
    ignored (the fixtures use it so). *)
Definition fold_case (ci : bool) (s : str) : str := if ci then lower_ascii s else s.

Fixpoint literal_search (ci : bool) (p s : str) : option str :=
  if String.prefix (fold_case ci p) (fold_case ci s)
  then Some (substring 0 (String.length p) s)
  else match s with
       | EmptyString => None
       | String _ r => literal_search ci p r
       end.


(** Tree entries: is the entry a file, and what path does it carry? *)
Definition is_dict (item : pyval) : Prop := exists d, item = PDict d.

Definition is_blob (item : pyval) : bool :=
  match item with
  | PDict d => py_eq_str (match lookup "type" d with Some v => v | None => PNone end) "blob"
  | _ => false
  end.

Definition path_of (item : pyval) : pyval :=
  match item with
  | PDict d => match lookup "path" d with Some v => v | None => PStr EmptyString end
  | _ => PNone
  end.

(** A file entry of the tree carries a path that is a string. *)
Definition text_path (item : pyval) : Prop :=
  is_blob item = true -> exists p, path_of item = PStr p.

(** A file entry whose path matches the pattern. *)
Definition path_matches (pattern : str) (path : pyval) : bool :=
  match path with
  | PStr p => fnmatchcase p pattern
  | _ => false
  end.

Definition glob_hit (pattern : str) (item : pyval) : bool :=
  is_blob item && path_matches pattern (path_of item).

(** A commit record: a dict whose author fields, when present, are strings. *)
Definition text_field (key : str) (d : list (str * pyval)) : option str :=
  match lookup key d with
  | Some (PStr s) => Some s
  | Some _ => None
  | None => Some EmptyString
  end.

Definition commit_record (c : pyval) : Prop :=
  exists d name email, c = PDict d /\ text_field "author_name" d = Some name
                       /\ text_field "author_email" d = Some email.

(** The author substring test of the claim: case-insensitive, against
    the author name and the author email. *)
Definition author_matches (author : str) (c : pyval) : bool :=
  match c with
  | PDict d =>
      match text_field "author_name" d, text_field "author_email" d with
      | Some name, Some email =>
          contains (str_lower author) (str_lower name)
          || contains (str_lower author) (str_lower email)
      | _, _ => false
      end
  | _ => false
  end.

End Reference.

(* ================================================================= *)
(** ** Fixtures: a small library instance, hosts and repositories *)

Module Demo.

(** *** A regular-expression engine for literal patterns

    A pattern is a sequence of ordinary characters and escaped
    characters; an unescaped special character is a compile error. *)

Definition special_chars : list ascii :=
  list_ascii_of_string "\.^$*+?{}[]|()".

Definition is_special (c : ascii) : bool := existsb (Ascii.eqb c) special_chars.

Fixpoint lit_escape (p : str) : str :=
  match p with
  | EmptyString => EmptyString
  | String c r =>
      if is_special c then String "\" (String c (lit_escape r))
      else String c (lit_escape r)
  end.

Fixpoint lit_parse (fuel : nat) (p : str) : option str :=
  match fuel with
  | O => None
  | S fuel' =>
      match p with
      | EmptyString => Some EmptyString
      | String c r =>
          if Ascii.eqb c "\" then
            match r with
            | String c' r' => option_map (String c') (lit_parse fuel' r')
            | EmptyString => None
            end
          else if is_special c then None
          else option_map (String c) (lit_parse fuel' r)
      end
  end.

Definition lit_compile (p : str) (ci : bool) : result (bool * str) :=
  match lit_parse (S (String.length p)) p with
  | Some literal => Ok (ci, literal)
  | None => Err ReError
  end.

Definition lit_search (rx : bool * str) (s : str) : option str :=
  literal_search (fst rx) (snd rx) s.

(** *** Base64, standard alphabet, padded input *)

Definition sextet (c : ascii) : option nat :=
  let n := nat_of_ascii c in
  if (65 <=? n)%nat && (n <=? 90)%nat then Some (n - 65)%nat
  else if (97 <=? n)%nat && (n <=? 122)%nat then Some (n - 71)%nat
  else if (48 <=? n)%nat && (n <=? 57)%nat then Some (n + 4)%nat
  else if (n =? 43)%nat then Some 62%nat
  else if (n =? 47)%nat then Some 63%nat
  else None.

Definition octet (n : nat) : ascii := ascii_of_nat (n mod 256).

Fixpoint b64_quads (s : str) : result bytes :=
  match s with
  | EmptyString => Ok EmptyString
  | String a (String b (String c (String d r))) =>
      match sextet a, sextet b with
      | Some x, Some y =>
          let o1 := octet (x * 4 + y / 16) in
          if Ascii.eqb c "=" then
            if Ascii.eqb d "=" then
              match r with
              | EmptyString => Ok (String o1 EmptyString)
              | _ => Err ValueError
              end
            else Err ValueError
          else
            match sextet c with
            | Some z =>
                let o2 := octet (y * 16 + z / 4) in
                if Ascii.eqb d "=" then
                  match r with
                  | EmptyString => Ok (String o1 (String o2 EmptyString))
                  | _ => Err ValueError
                  end
                else
                  match sextet d with
                  | Some u =>
                      match b64_quads r with
                      | Ok t => Ok (String o1 (String o2 (String (octet (z * 64 + u)) t)))
                      | Err e => Err e
                      end
                  | None => Err ValueError
                  end
            | None => Err ValueError
            end
      | _, _ => Err ValueError
      end
  | _ => Err ValueError
  end.

(** *** JSON documents the fixture hosts serve, by name *)

Definition blob (path : str) : pyval :=
  PDict [("id", PStr "0"); ("name", PStr path); ("type", PStr "blob");
         ("path", PStr path); ("mode", PStr "100644")].

Definition directory (path : str) : pyval :=
  PDict [("id", PStr "0"); ("name", PStr path); ("type", PStr "tree");
         ("path", PStr path); ("mode", PStr "040000")].

Definition commit (id name email : str) : pyval :=
  PDict [("id", PStr id); ("short_id", PStr id); ("message", PStr ("change " ++ id));
         ("author_name", PStr name); ("author_email", PStr email)].

Definition py_tree : pyval :=
  PList [blob "a.py"; directory "dir"; blob "dir/b.py"; blob "dir/c.txt"].

(** Ten commits, three by Alice, two of them among the first six. *)
Definition early_commits : list pyval :=
  [commit "c0" "Bob" "bob@example.org";
   commit "c1" "Alice Liddell" "al@example.org";
   commit "c2" "Bob" "bob@example.org";
   commit "c3" "Carol" "ALICE@example.org";
   commit "c4" "Bob" "bob@example.org";
   commit "c5" "Bob" "bob@example.org";
   commit "c6" "Bob" "bob@example.org";
   commit "c7" "alice" "a@example.org";
   commit "c8" "Bob" "bob@example.org";
   commit "c9" "Bob" "bob@example.org"].

(** Ten commits, three by Alice, all three after the first six. *)
Definition late_commits : list pyval :=
  [commit "c0" "Bob" "bob@example.org";
   commit "c1" "Bob" "bob@example.org";
   commit "c2" "Bob" "bob@example.org";
   commit "c3" "Bob" "bob@example.org";
   commit "c4" "Bob" "bob@example.org";
   commit "c5" "Bob" "bob@example.org";
   commit "c6" "Bob" "bob@example.org";
   commit "c7" "Alice Liddell" "al@example.org";
   commit "c8" "Carol" "ALICE@example.org";
   commit "c9" "alice" "a@example.org"].

(** A file whose content is "x = 1\ny = (2\nz = 3\ny = (4\nw = 5" in base64,
    and one whose content is the single octet 255. *)
Definition five_lines : str :=
  "x = 1" ++ String newline ("y = (2" ++ String newline ("z = 3" ++ String newline
  ("y = (4" ++ String newline "w = 5"))).

Definition good_file : pyval :=
  PDict [("file_name", PStr "b.py");
         ("content", PStr "eCA9IDEKeSA9ICgyCnogPSAzCnkgPSAoNAp3ID0gNQ==");
         ("encoding", PStr "base64")].

Definition bad_file : pyval :=
  PDict [("file_name", PStr "a.py"); ("content", PStr "/w=="); ("encoding", PStr "base64")].

(** The matches of the pattern "y = (" in a file with that content, one
    context line around each. *)
Definition found (path : str) : list SearchMatch :=
  [mkMatch (PStr path) 2 "y = (2" "y = (" (Some ["x = 1"; "y = (2"; "z = 3"]);
   mkMatch (PStr path) 4 "y = (4" "y = (" (Some ["z = 3"; "y = (4"; "w = 5"])].

Definition documents : list (str * pyval) :=
  [("tree.json", py_tree);
   ("early.json", PList early_commits);
   ("late.json", PList late_commits);
   ("good.json", good_file);
   ("bad.json", bad_file)].

Fixpoint assoc {A} (k : str) (l : list (str * A)) : option A :=
  match l with
  | [] => None
  | (k', v) :: l' => if String.eqb k k' then Some v else assoc k l'
  end.

Definition lib : PyLib := {|
  json_loads := fun s => match assoc s documents with
                         | Some v => Ok v
                         | None => Err JSONDecodeError
                         end;
  json_dumps := fun _ => "{}";
  b64decode := b64_quads;
  regex := (bool * str)%type;
  re_compile := lit_compile;
  re_search := lit_search;
  re_escape := lit_escape;
  str_lower := lower_ascii
|}.

Definition client : GitLabClient :=
  mkClient "secret" "https://gitlab.example" "42".

(** *** Hosts *)

Definition url_of (cmd : list str) : str := last cmd EmptyString.

(** A host that answers by URL, the same at every run. *)
Definition routed (routes : list (str * run_outcome)) : nat -> list str -> run_outcome :=
  fun _ cmd =>
    match assoc (url_of cmd) routes with
    | Some o => o
    | None => Raises (OSError "no route")
    end.

Definition serve (document : str) : run_outcome := Completed 0 document EmptyString.

Definition api : str := "https://gitlab.example/api/v4/projects/42/repository".

Definition tree_url : str := api ++ "/tree?ref=main&per_page=1000&recursive=true".

Definition world_of (h : nat -> list str -> run_outcome) : World := mkWorld h O [].

(** The repository of [py_tree]; [a.py] is not UTF-8, [dir/c.txt] cannot be fetched. *)
Definition repository : World :=
  world_of (routed
    [(tree_url, serve "tree.json");
     (api ++ "/files/a.py?ref=main", serve "bad.json");
     (api ++ "/files/dir%2Fb.py?ref=main", serve "good.json");
     (api ++ "/files/dir%2Fc.txt?ref=main", Completed 7 EmptyString "refused");
     (api ++ "/files/lib%2Fd.py?ref=main", serve "good.json");
     (api ++ "/commits", serve "early.json")]).

Definition repository_late : World :=
  world_of (routed [(api ++ "/commits", serve "late.json")]).

(** Two timeouts, then the tree listing. *)
Definition flaky : World :=
  world_of (fun k _ => if (k <? 2)%nat then Raises TimeoutExpired else serve "tree.json").

(** Never reachable. *)
Definition down : World := world_of (fun _ _ => Completed 7 EmptyString "refused").

(** Exit code 0 and nothing on the output, every time. *)
Definition silent : World := world_of (fun _ _ => Completed 0 EmptyString EmptyString).

End Demo.

(* ================================================================= *)
(** ** More of the client: configuration and file upload *)

(** [for line in f] on a text file: the lines with their newline, line
    ends already translated by the universal-newlines mode of [open]. *)
Fixpoint keep_lines (s : str) : list str :=
  match s with
  | EmptyString => []
  | String c r =>
      if Ascii.eqb c newline then String c EmptyString :: keep_lines r
      else match keep_lines r with
           | h :: t => String c h :: t
           | [] => [String c EmptyString]
           end
  end.

Definition file_lines (text : str) : list str := keep_lines (translate_newlines text).

(** [s.split("=", 1)]: the parts around the first [=], if there is one. *)
Fixpoint split_equals (s : str) : option (str * str) :=
  match s with
  | EmptyString => None
  | String c r =>
      if Ascii.eqb c "=" then Some (EmptyString, r)
      else match split_equals r with
           | Some (k, v) => Some (String c k, v)
           | None => None
           end
  end.

(** The loop of lines 33-36; [None] when the unpacking of
    [key, value = ...] raises. *)
Fixpoint read_config (lines : list str) (config : list (str * pyval))
    : option (list (str * pyval)) :=
  match lines with
  | [] => Some config
  | l :: rest =>
      if contains "=" l && negb (String.prefix "#" l) then
        match split_equals (strip l) with
        | Some (key, value) => read_config rest (dict_set key (PStr value) config)
        | None => None
        end
      else read_config rest config
  end.

Definition default_config : list (str * pyval) :=
  [("GITLAB_TOKEN", PStr ""); ("GITLAB_URL", PStr "https://gitlab.swpd");
   ("PROJECT_ID", PStr ""); ("PROJECT_NAME", PStr ""); ("PROJECT_PATH", PStr "")].

(** [_load_config]: [file] is the text of [.claude/.gitlab-config], or
    [None] when opening or reading it raises.  (The warning logged on
    the error path is left out.) *)
Definition _load_config (file : option str) : list (str * pyval) :=
  match file with
  | Some text =>
      match read_config (file_lines text) [] with
      | Some config => config
      | None => default_config
      end
  | None => default_config
  end.

(** [config.get(key, default)] on the configuration, whose values are strings. *)
Definition config_get (config : list (str * pyval)) (key default : str) : str :=
  match lookup key config with
  | Some (PStr s) => s
  | _ => default
  end.

(** [GitLabClient.__init__] *)
Definition GitLabClient_init (file : option str) : GitLabClient :=
  let config := _load_config file in
  mkClient (config_get config "GITLAB_TOKEN" "")
           (config_get config "GITLAB_URL" "https://gitlab.swpd")
           (config_get config "PROJECT_ID" "").

Section Upload.

Context {L : PyLib}.
Variable self : GitLabClient.

(** [base64.b64encode], the other half of the [base64] module. *)
Variable b64encode : bytes -> str.

(** The [data] of lines 315-320; [content.encode()] is the text itself. *)
Definition file_payload (content branch commit_message : str) : list (str * pyval) :=
  [("branch", PStr branch);
   ("content", PStr (b64encode content));
   ("commit_message", PStr commit_message);
   ("encoding", PStr "base64")].

Definition create_or_update_file (project_id file_path content branch commit_message : str)
    (create : bool) : M pyval :=
  let encoded_path := quote file_path in
  let endpoint := "/api/v4/projects/" ++ project_id ++ "/repository/files/" ++ encoded_path in
  let method := if create then "POST" else "PUT" in
  _make_request self endpoint method (Some (file_payload content branch commit_message)) 3.

End Upload.

(* ================================================================= *)
(** ** More reference descriptions *)

(** Processes started, and seconds slept, in a list of events. *)
Fixpoint processes (t : list event) : nat :=
  match t with
  | [] => O
  | EvRun _ _ :: t' => S (processes t')
  | _ :: t' => processes t'
  end.

Fixpoint slept (t : list event) : Z :=
  match t with
  | [] => 0
  | EvSleep n :: t' => n + slept t'
  | _ :: t' => slept t'
  end.

(** Every process of the events was started with the command line [cmd]. *)
Definition runs_only (cmd : list str) (t : list event) : Prop :=
  forall c b, In (EvRun c b) t -> c = cmd.

(** Every process of the events fetches a file that [ok] accepts. *)
Definition fetches_only {L : PyLib} (self : GitLabClient) (project_id ref : str)
    (ok : pyval -> Prop) (t : list event) : Prop :=
  forall c b, In (EvRun c b) t ->
    exists f p, ok f /\ py_getitem f "path" = Ok (PStr p)
                /\ c = curl_command self (file_endpoint project_id p ref) "GET" None.

(** A candidate of the grep: a file entry that the filter accepts and
    whose path has none of the binary extensions. *)
Definition filter_accepts (file_filter : option str) (path : pyval) : bool :=
  match file_filter with
  | Some (String c r) => path_matches (String c r) path
  | _ => true
  end.

Definition looks_binary {L : PyLib} (path : pyval) : bool :=
  match path with
  | PStr p => existsb (endswith (str_lower p)) binary_extensions
  | _ => false
  end.

Definition candidate {L : PyLib} (file_filter : option str) (item : pyval) : bool :=
  is_blob item && filter_accepts file_filter (path_of item) && negb (looks_binary (path_of item)).

(** The size a loop with a bound stops at: it tests the bound after
    appending, so a bound below 1 still lets one entry in. *)
Definition cap (bound : Z) : nat := Z.to_nat (Z.max 1 bound).

(** The characters [quote] leaves or produces. *)
Definition url_safe (c : ascii) : bool :=
  is_unreserved c || Ascii.eqb c "%".

(** Is the string free of pattern characters of [fnmatch]? *)
Fixpoint plain (s : str) : bool :=
  match s with
  | EmptyString => true
  | String c r =>
      negb (Ascii.eqb c "*") && negb (Ascii.eqb c "?") && negb (Ascii.eqb c "[") && plain r
  end.

(** Does the attempt whose first process has this outcome start a
    second process?  It does when the text-mode run raises
    [UnicodeDecodeError]: one of the two streams is not UTF-8. *)
Definition second_run (o : run_outcome) : bool :=
  match o with
  | Raises UnicodeDecodeError => true
  | Raises _ => false
  | Completed _ out err => negb (utf8_valid out && utf8_valid err)
  end.

(** [n] attempts in a row, the first of them starting with process
    number [i], in which every process the attempt starts has an outcome
    [P]: the one text-mode run, and the binary-mode run when there is
    one.  Nothing is said of any later process. *)
Fixpoint every_attempt (P : run_outcome -> Prop) (h : nat -> list str -> run_outcome)
    (cmd : list str) (n i : nat) : Prop :=
  match n with
  | O => True
  | S n' =>
      P (h i cmd)
      /\ (if second_run (h i cmd)
          then P (h (S i) cmd) /\ every_attempt P h cmd n' (S (S i))
          else every_attempt P h cmd n' (S i))
  end.

(** Exit code 0 and nothing on the standard output. *)
Definition empty_answer (o : run_outcome) : Prop :=
  exists err, o = Completed 0 EmptyString err.




(** A reply to the tree request that is no list of entries: an object
    with at least one key (the host's error message), or a text. *)
Definition not_a_listing (reply : pyval) : Prop :=
  match reply with
  | PDict (_ :: _) => True
  | PStr (String _ _) => True
  | _ => False
  end.

(** A filter the caller left out: [None] or the empty string. *)
Definition no_filter (o : option str) : Prop :=
  match o with
  | Some (String _ _) => False
  | _ => True
  end.

(** [l] is [l'] with some elements left out, the order kept. *)
Inductive subsequence {A : Type} : list A -> list A -> Prop :=
| subsequence_nil : subsequence [] []
| subsequence_skip (x : A) (l l' : list A) : subsequence l l' -> subsequence l (x :: l')
| subsequence_keep (x : A) (l l' : list A) : subsequence l l' -> subsequence (x :: l) (x :: l').

(** A string of ASCII characters without white space. *)
Fixpoint tight (s : str) : bool :=
  match s with
  | EmptyString => true
  | String c r => negb (is_space c) && (byte_val c <? 128)%nat && tight r
  end.

(** A path that ends with the suffix. *)
Definition path_ends (suffix : str) (path : pyval) : bool :=
  match path with
  | PStr p => endswith p suffix
  | _ => false
  end.

(** The endpoint of the one page of the recursive tree listing. *)
Definition tree_endpoint (project_id ref : str) : str :=
  "/api/v4/projects/" ++ project_id ++ "/repository/tree?ref=" ++ ref
  ++ "&per_page=1000&recursive=true".

(** Line numbers that go up. *)
Fixpoint ascending (l : list Z) : Prop :=
  match l with
  | [] => True
  | x :: r => match r with [] => True | y :: _ => x < y end /\ ascending r
  end.

(* ================================================================= *)
(** ** More fixtures *)

Module Extra.



(** A tree with an image in it, and the answer of a host that refuses
    the request with a message. *)
Definition assets_tree : pyval :=
  PList [Demo.blob "logo.png"; Demo.blob "notes.py"; Demo.directory "img";
         Demo.blob "img/Photo.JPG"].

Definition refusal : pyval := PDict [("message", PStr "401 Unauthorized")].

Definition missing_file : pyval := PDict [("message", PStr "404 File Not Found")].

(** Three commits, two of which speak of [parse(]. *)
Definition fix_commits : list pyval :=
  [PDict [("id", PStr "f0"); ("message", PStr "Fix parse(x) call");
          ("author_name", PStr "Bob"); ("author_email", PStr "bob@example.org")];
   PDict [("id", PStr "f1"); ("message", PStr "Update docs");
          ("author_name", PStr "Bob"); ("author_email", PStr "bob@example.org")];
   PDict [("id", PStr "f2"); ("message", PStr "fix PARSE( again");
          ("author_name", PStr "Carol"); ("author_email", PStr "carol@example.org")]].

(** A tree of three text files. *)
Definition library_tree : pyval :=
  PList [Demo.blob "dir/b.py"; Demo.blob "dir/c.txt"; Demo.blob "lib/d.py"].

Definition documents : list (str * pyval) :=
  (Demo.documents ++
   [("assets.json", assets_tree); ("refusal.json", refusal); ("missing.json", missing_file);
    ("library.json", library_tree); ("fixes.json", PList fix_commits)])%list.

(** The parser of this instance gives up on brackets nested four deep,
    as [json.loads] does with [RecursionError] on deep nesting, and its
    [re.compile] raises [OverflowError] on the repetition count 2^32, as
    CPython's does. *)
Definition lib : PyLib := {|
  json_loads := fun s => match Demo.assoc s documents with
                         | Some v => Ok v
                         | None => if String.prefix "[[[[" s then Err RecursionError
                                   else Err JSONDecodeError
                         end;
  json_dumps := fun _ => "{}";
  b64decode := Demo.b64_quads;
  regex := (bool * str)%type;
  re_compile := fun p ci => if String.eqb p "a{4294967296}" then Err OverflowError
                            else Demo.lit_compile p ci;
  re_search := Demo.lit_search;
  re_escape := Demo.lit_escape;
  str_lower := lower_ascii
|}.

(** A repository with an image; [notes.py] has the five lines. *)
Definition assets : World :=
  Demo.world_of (Demo.routed
    [(Demo.tree_url, Demo.serve "assets.json");
     (Demo.api ++ "/files/notes.py?ref=main", Demo.serve "good.json");
     (Demo.api ++ "/files/gone.py?ref=main", Demo.serve "missing.json")]).

(** A host that answers every request with the refusal. *)
Definition refusing : World := Demo.world_of (fun _ _ => Demo.serve "refusal.json").

(** A host whose first answer is not UTF-8 (the octet 233), and that
    sends it again when asked again. *)
Definition latin : World :=
  Demo.world_of (fun _ _ =>
    Completed 0 (String (ascii_of_nat 233) "t" ++ String (ascii_of_nat 233)
                   EmptyString) EmptyString).

(** A host that sends a job log with a Windows line end, and one that
    sends deeply nested brackets. *)
Definition job_log : World :=
  Demo.world_of (fun _ _ =>
    Completed 0 ("build ok" ++ String carriage_return (String newline "done")) EmptyString).

Definition nested : World :=
  Demo.world_of (fun _ _ => Completed 0 "[[[[0]]]]" EmptyString).

(** The repository of [library_tree]: [dir/b.py] and [lib/d.py] have the
    five lines, [dir/c.txt] cannot be fetched. *)
Definition library : World :=
  Demo.world_of (Demo.routed
    [(Demo.tree_url, Demo.serve "library.json");
     (Demo.api ++ "/files/dir%2Fb.py?ref=main", Demo.serve "good.json");
     (Demo.api ++ "/files/dir%2Fc.txt?ref=main", Completed 7 EmptyString "refused");
     (Demo.api ++ "/files/lib%2Fd.py?ref=main", Demo.serve "good.json")]).


(** Exit code 0 and no output twice, then the tree listing. *)
Definition shy : World :=
  Demo.world_of (fun k _ => if (k <? 2)%nat then Completed 0 EmptyString EmptyString
                            else Demo.serve "tree.json").

(** Fails once, then answers. *)
Definition hiccup : World :=
  Demo.world_of (fun k _ => if (k <? 1)%nat then Completed 7 EmptyString "refused"
                            else Demo.serve "tree.json").

End Extra.

(* ================================================================= *)
(** ** Transport: retries, success and exhaustion *)

Section Transport.

Context {L : PyLib}.
Variable self : GitLabClient.

Lemma attempts_made_app (t u : list event) :
  attempts_made (t ++ u) = (attempts_made t + attempts_made u)%nat.
Proof.
  induction t as [|e t IH]; simpl; [reflexivity|].
  destruct e as [cmd [|]| |]; simpl; rewrite IH; reflexivity.
Qed.

Lemma decode_fallback_nonempty (c : ascii) (r : bytes) :
  exists c' r', decode_fallback (String c r) = String c' r'.
Proof.
  unfold decode_fallback, utf8_decode, latin1_decode.
  destruct (utf8_valid (String c r)); [eauto|].
  simpl. destruct (byte_val c <? 128)%nat; eauto.
Qed.

Lemma accepted_some (rc : Z) (body s : str) :
  accepted rc body = Some s ->
  s = body /\ (rc =? 0) = true /\ exists c r, body = String c r.
Proof.
  unfold accepted. destruct body as [|c r]; [discriminate|].
  destruct (rc =? 0); [|discriminate].
  intros H; inversion H; eauto.
Qed.

Lemma accepted_none (rc : Z) (body : str) :
  accepted rc body = None -> (rc =? 0) && stream_truthy (Text body) = false.
Proof.
  unfold accepted. destruct body as [|c r]; simpl.
  - intros _. apply andb_false_r.
  - destruct (rc =? 0); [discriminate|reflexivity].
Qed.

Lemma accepted_nonzero (rc : Z) (body : str) : rc <> 0 -> accepted rc body = None.
Proof.
  intros H. unfold accepted. destruct body; [reflexivity|].
  destruct (Z.eqb_spec rc 0); [contradiction|reflexivity].
Qed.

Lemma quiet_refl (w : World) : quiet w w.
Proof. repeat split. Qed.

(** The logging and the pause after an attempt that returned nothing. *)
Lemma after_failure (r : log_record) (attempt retries : Z) (w : World) :
  exists w',
    (log r ;;; backoff attempt retries ;;; ret (@None pyval)) w = (Ok None, w')
    /\ quiet w w'.
Proof.
  unfold quiet, bind, log, backoff, sleep, emit, ret; simpl.
  destruct (attempt <? retries); simpl; eexists; (split; [reflexivity|]); simpl;
    rewrite ?attempts_made_app; simpl; repeat split; lia.
Qed.

Lemma recover_falls_through (e : exn) (attempt retries : Z) (w : World) :
  exists w', recover e attempt retries w = (Ok None, w') /\ quiet w w'.
Proof.
  destruct e; apply after_failure.
Qed.

(** Lines 98-116 on a finished process whose output is a text: the
    parsed body when it is accepted and parses, and nothing otherwise. *)
Lemma accept_text (rc : Z) (o : str) (err : stream) (attempt retries : Z) (w : World) :
  exists w',
    try_except (accept (mkCompleted rc (Text o) err) attempt retries)
      (fun e => recover e attempt retries) w
    = (Ok (match accepted rc o with
           | Some body => match parse_text body with Ok v => Some v | Err _ => None end
           | None => None
           end), w')
    /\ quiet w w'
    /\ (forall body v, accepted rc o = Some body -> parse_text body = Ok v -> w' = w).
Proof.
  unfold try_except, accept. cbn [returncode stdout].
  destruct (accepted rc o) as [s|] eqn:Ha.
  - apply accepted_some in Ha. destruct Ha as (-> & Hrc & c & r & ->).
    rewrite Hrc. cbn [stream_truthy andb]. unfold bind, lift. cbn [parse_body].
    destruct (parse_text (String c r)) as [v|e] eqn:Hp.
    + exists w. split; [reflexivity|]. split; [apply quiet_refl|reflexivity].
    + destruct (recover_falls_through e attempt retries w) as (w' & E & Hq).
      exists w'. rewrite E. split; [reflexivity|]. split; [exact Hq|].
      intros body v Hb Hv. inversion Hb; subst. congruence.
  - apply accepted_none in Ha. rewrite Ha.
    destruct (after_failure (AttemptFailed attempt) attempt retries w) as (w' & E & Hq).
    exists w'. rewrite E. split; [reflexivity|]. split; [exact Hq|].
    intros body v Hb. discriminate Hb.
Qed.

Lemma try_bind_ok {A B} (m : M A) (k : A -> M B) (H : exn -> M B)
    (w w1 : World) (a : A) :
  m w = (Ok a, w1) ->
  try_except (x <- m ;; k x) H w = try_except (k a) H w1.
Proof.
  intros E. unfold try_except, bind. rewrite E. reflexivity.
Qed.

Lemma try_bind_err {A B} (m : M A) (k : A -> M B) (H : exn -> M B)
    (w w1 : World) (e : exn) :
  m w = (Err e, w1) ->
  try_except (x <- m ;; k x) H w = H e w1.
Proof.
  intros E. unfold try_except, bind. rewrite E. reflexivity.
Qed.

Ltac close_attempt w' :=
  exists w'; split; [reflexivity|]; split; [congruence|]; split; [congruence|];
  split; [congruence|].

(** The binary-mode retry inside one attempt does what [observe_bytes] describes. *)
Lemma run_binary_observe (cmd : list str) (attempt retries : Z) (w : World) :
  let w1 := mkWorld (host w) (S (runs w)) (trace w ++ [EvRun cmd true]) in
  let o := observe_bytes (host w) cmd (S (runs w)) in
  attempt_does cmd w
    (match fst o with
     | Some body => match parse_text body with Ok v => Some v | Err _ => None end
     | None => None
     end) (snd o)
    (try_except (r <- run_binary cmd ;; accept r attempt retries)
       (fun e => recover e attempt retries) w1).
Proof.
  intros w1 o. subst o. unfold observe_bytes, run_binary.
  set (w2 := mkWorld (host w) (S (S (runs w))) (trace w1 ++ [EvRun cmd false])).
  assert (Hw2 : attempts_made (trace w2) = S (attempts_made (trace w))).
  { subst w2 w1. cbn. rewrite !attempts_made_app. cbn. lia. }
  assert (Hh2 : host w2 = host w) by reflexivity.
  assert (Hr2 : runs w2 = S (S (runs w))) by reflexivity.
  destruct (host w (S (runs w)) cmd) as [rc out err|e] eqn:Hrun; cbn [fst snd].
  - assert (Hsub : subprocess_run cmd false w1
                   = (Ok (mkCompleted rc (Bytes out) (Bytes err)), w2)).
    { unfold subprocess_run. subst w1. cbn [host runs trace]. rewrite Hrun. reflexivity. }
    destruct (accepted rc out) as [s|] eqn:Ha.
    + pose proof Ha as Ha'. apply accepted_some in Ha'.
      destruct Ha' as (-> & Hrc & c & r & ->).
      destruct (decode_fallback_nonempty c r) as (c' & r' & E).
      erewrite try_bind_ok; cycle 1.
      { unfold bind. rewrite Hsub. cbn [returncode stdout stderr stream_bytes].
        rewrite Hrc. cbn [stream_truthy andb]. unfold ret. reflexivity. }
      unfold MockResult.
      destruct (accept_text rc (decode_fallback (String c r))
                  (match Bytes err with Bytes b => Text (utf8_replace b) | Text t => Text t end)
                  attempt retries w2) as (w' & Eacc & (H1 & H2 & H3) & Hsame).
      rewrite Eacc. rewrite E in *. unfold accepted at 1 in Hsame. unfold accepted at 1.
      rewrite Hrc in *.
      close_attempt w'.
      intros Hv. destruct (parse_text (String c' r')) as [v|] eqn:Hp; [|now elim Hv].
      rewrite (Hsame _ _ eq_refl Hp). subst w2. cbn. eauto.
    + erewrite try_bind_ok; cycle 1.
      { unfold bind. rewrite Hsub. cbn [returncode stdout stderr stream_bytes].
        replace (stream_truthy (Bytes out)) with (stream_truthy (Text out))
          by (destruct out; reflexivity).
        rewrite (accepted_none _ _ Ha). unfold ret. reflexivity. }
      unfold try_except, accept. cbn [returncode stdout].
      replace (stream_truthy (Bytes out)) with (stream_truthy (Text out))
        by (destruct out; reflexivity).
      rewrite (accepted_none _ _ Ha).
      destruct (after_failure (AttemptFailed attempt) attempt retries w2)
        as (w' & E & H1 & H2 & H3).
      rewrite E. close_attempt w'. intros H; now elim H.
  - rewrite try_bind_err with (w1 := w2) (e := e); cycle 1.
    { unfold bind, subprocess_run. subst w1. cbn [host runs trace]. rewrite Hrun. reflexivity. }
    destruct (recover_falls_through e attempt retries w2) as (w' & E & H1 & H2 & H3).
    rewrite E. close_attempt w'. intros H; now elim H.
Qed.

Lemma try_inner_ok {A B} (m : M A) (h : exn -> M A) (k : A -> M B) (H : exn -> M B)
    (w w1 : World) (a : A) :
  m w = (Ok a, w1) ->
  try_except (x <- try_except m h ;; k x) H w = try_except (k a) H w1.
Proof.
  intros E. unfold try_except, bind. rewrite E. reflexivity.
Qed.

Lemma try_inner_err {A B} (m : M A) (h : exn -> M A) (k : A -> M B) (H : exn -> M B)
    (w w1 : World) (e : exn) :
  m w = (Err e, w1) ->
  try_except (x <- try_except m h ;; k x) H w = try_except (x <- h e ;; k x) H w1.
Proof.
  intros E. unfold try_except, bind. rewrite E. reflexivity.
Qed.

(** One iteration of the retry loop does what [attempt_value] describes. *)
Lemma attempt_request_observe (cmd : list str) (attempt retries : Z) (w : World) :
  attempt_does cmd w (fst (attempt_value (host w) cmd (runs w)))
    (snd (attempt_value (host w) cmd (runs w)))
    (attempt_request cmd attempt retries w).
Proof.
  set (w1 := mkWorld (host w) (S (runs w)) (trace w ++ [EvRun cmd true])).
  assert (Hw1 : attempts_made (trace w1) = S (attempts_made (trace w))).
  { subst w1. cbn. rewrite attempts_made_app. cbn. lia. }
  assert (Hh1 : host w1 = host w) by reflexivity.
  assert (Hr1 : runs w1 = S (runs w)) by reflexivity.
  pose proof (run_binary_observe cmd attempt retries w) as Hbin. cbv zeta in Hbin. fold w1 in Hbin.
  assert (Hfail : forall e, e <> UnicodeDecodeError ->
            attempt_does cmd w None (S (runs w))
              (try_except (r <- raise e ;; accept r attempt retries)
                 (fun e => recover e attempt retries) w1)).
  { intros e _. unfold try_except, bind, raise.
    destruct (recover_falls_through e attempt retries w1) as (w' & E & H1 & H2 & H3).
    rewrite E. close_attempt w'. intros H; now elim H. }
  unfold attempt_request, run_curl, attempt_value, observe.
  destruct (host w (runs w) cmd) as [rc out err|e] eqn:Hrun.
  - destruct (decode_text out) as [o|] eqn:Ho; [destruct (decode_text err) as [e|] eqn:He|].
    + erewrite try_inner_ok
        by (unfold subprocess_run; rewrite Hrun, Ho, He; reflexivity).
      fold w1.
      destruct (accept_text rc o (Text e) attempt retries w1)
        as (w' & Eacc & (H1 & H2 & H3) & Hsame).
      rewrite Eacc.
      destruct (accepted rc o) as [body|] eqn:Ha; cbn [fst snd].
      * close_attempt w'.
        intros Hv. destruct (parse_text body) as [v|] eqn:Hp; [|now elim Hv].
        rewrite (Hsame _ _ eq_refl Hp). subst w1. cbn. eauto.
      * close_attempt w'. intros H; now elim H.
    + erewrite try_inner_err
        by (unfold subprocess_run; rewrite Hrun, Ho, He; reflexivity).
      fold w1. destruct (observe_bytes (host w) cmd (S (runs w))) as [[body|] j]; exact Hbin.
    + erewrite try_inner_err
        by (unfold subprocess_run; rewrite Hrun, Ho; reflexivity).
      fold w1. destruct (observe_bytes (host w) cmd (S (runs w))) as [[body|] j]; exact Hbin.
  - erewrite try_inner_err by (unfold subprocess_run; rewrite Hrun; reflexivity).
    fold w1.
    destruct e;
      try (destruct (observe_bytes (host w) cmd (S (runs w))) as [[body|] j]; exact Hbin);
      (apply Hfail; discriminate).
Qed.

(** [n] attempts in a row that return nothing, and then the budget is spent. *)
Lemma request_loop_exhausted (cmd : list str) (endpoint : str) (retries : Z) :
  forall (n : nat) (attempt : Z) (w : World) (j : nat),
    failures (host w) cmd n (runs w) = Some j ->
    exists w',
      request_loop cmd endpoint retries n attempt w = (Err (exhausted retries endpoint), w')
      /\ host w' = host w /\ runs w' = j
      /\ attempts_made (trace w') = (attempts_made (trace w) + n)%nat.
Proof.
  induction n as [|n IH]; intros attempt w j Hf; cbn in Hf.
  - inversion Hf; subst. exists w. cbn. unfold raise. repeat split. lia.
  - destruct (attempt_request_observe cmd attempt retries w) as (w1 & E & H1 & H2 & H3 & _).
    destruct (attempt_value (host w) cmd (runs w)) as [[v|] i] eqn:Hobs; [discriminate|].
    cbn in E, H2.
    rewrite <- H1, <- H2 in Hf.
    destruct (IH (attempt + 1) w1 j Hf) as (w' & E' & H1' & H2' & H3').
    exists w'. cbn [request_loop]. unfold bind at 1. rewrite E.
    repeat split; try congruence; lia.
Qed.

(** [k] attempts in a row that return nothing, then one that returns
    [v]: the loop returns it when the budget exceeds [k]. *)
Lemma request_loop_accepts (cmd : list str) (endpoint : str) (retries : Z) :
  forall (k n : nat) (attempt : Z) (w : World) (j j' : nat) (v : pyval),
    failures (host w) cmd k (runs w) = Some j ->
    attempt_value (host w) cmd j = (Some v, j') ->
    (k < n)%nat ->
    exists w',
      request_loop cmd endpoint retries n attempt w = (Ok v, w')
      /\ host w' = host w /\ runs w' = j'
      /\ attempts_made (trace w') = (attempts_made (trace w) + S k)%nat
      /\ exists t b, trace w' = (t ++ [EvRun cmd b])%list.
Proof.
  induction k as [|k IH]; intros n attempt w j j' v Hf Hobs Hlt;
    (destruct n as [|n]; [lia|]); cbn in Hf.
  - inversion Hf; subst.
    destruct (attempt_request_observe cmd attempt retries w) as (w1 & E & H1 & H2 & H3 & H4).
    rewrite Hobs in E, H2, H4. cbn in E, H2, H4.
    exists w1. cbn [request_loop]. unfold bind. rewrite E. unfold ret.
    split; [reflexivity|]. split; [assumption|]. split; [assumption|].
    split; [lia|]. apply H4. discriminate.
  - destruct (attempt_request_observe cmd attempt retries w) as (w1 & E & H1 & H2 & H3 & _).
    destruct (attempt_value (host w) cmd (runs w)) as [[v0|] i] eqn:Hobs0; [discriminate|].
    cbn in E, H2.
    rewrite <- H1, <- H2 in Hf. rewrite <- H1 in Hobs.
    destruct (IH n (attempt + 1) w1 j j' v Hf Hobs ltac:(lia)) as (w' & E' & H1' & H2' & H3' & H4').
    exists w'. cbn [request_loop]. unfold bind at 1. rewrite E.
    split; [exact E'|]. split; [congruence|]. split; [congruence|].
    split; [lia|exact H4'].
Qed.

(** An attempt uses one process, or two. *)
Lemma observe_next (h : nat -> list str -> run_outcome) (cmd : list str) (i : nat) :
  (i < snd (observe h cmd i) <= i + 2)%nat.
Proof.
  unfold observe, observe_bytes.
  destruct (h i cmd) as [rc out err|e].
  - destruct (decode_text out), (decode_text err); try (cbn; lia);
      destruct (h (S i) cmd); cbn; lia.
  - destruct e; try (cbn; lia); destruct (h (S i) cmd); cbn; lia.
Qed.

Lemma attempt_value_none (h : nat -> list str -> run_outcome) (cmd : list str) (i : nat) :
  fst (observe h cmd i) = None ->
  fst (attempt_value h cmd i) = None
  /\ (i < snd (attempt_value h cmd i) <= i + 2)%nat.
Proof.
  intros H. pose proof (observe_next h cmd i) as Hn. unfold attempt_value.
  destruct (observe h cmd i) as [[b|] j]; cbn in *; [discriminate|]. split; [reflexivity|lia].
Qed.

(** The process an attempt ends with. *)
Lemma observe_second_run (h : nat -> list str -> run_outcome) (cmd : list str) (i : nat) :
  snd (observe h cmd i) = if second_run (h i cmd) then S (S i) else S i.
Proof.
  unfold observe, observe_bytes, second_run, decode_text, utf8_decode.
  destruct (h i cmd) as [rc out err|e].
  - destruct (utf8_valid out), (utf8_valid err); cbn; try reflexivity;
      destruct (h (S i) cmd); reflexivity.
  - destruct e; cbn; try reflexivity; destruct (h (S i) cmd); reflexivity.
Qed.

Lemma observe_transport_failure (h : nat -> list str -> run_outcome) (cmd : list str)
    (i : nat) :
  transport_failure (h i cmd) ->
  (second_run (h i cmd) = true -> transport_failure (h (S i) cmd)) ->
  fst (observe h cmd i) = None.
Proof.
  intros H0 H1.
  assert (Hb : second_run (h i cmd) = true -> fst (observe_bytes h cmd (S i)) = None).
  { intros Hs. specialize (H1 Hs). unfold observe_bytes.
    destruct (h (S i) cmd) as [rc out err|e]; cbn in *; [|reflexivity].
    now rewrite accepted_nonzero. }
  unfold observe. unfold second_run in Hb.
  destruct (h i cmd) as [rc out err|e]; cbn in H0.
  - unfold decode_text, utf8_decode in *.
    destruct (utf8_valid out), (utf8_valid err); cbn in *; auto.
    now apply accepted_nonzero.
  - destruct e; try reflexivity. now apply Hb.
Qed.

Lemma observe_empty_answer (h : nat -> list str -> run_outcome) (cmd : list str)
    (i : nat) :
  empty_answer (h i cmd) ->
  (second_run (h i cmd) = true -> empty_answer (h (S i) cmd)) ->
  fst (observe h cmd i) = None.
Proof.
  intros (err & H0) H1.
  assert (Hb : second_run (h i cmd) = true -> fst (observe_bytes h cmd (S i)) = None).
  { intros Hs. destruct (H1 Hs) as (err' & E). unfold observe_bytes. now rewrite E. }
  unfold observe. rewrite H0 in *. unfold second_run in Hb.
  unfold decode_text, utf8_decode in *. cbn in *.
  destruct (utf8_valid err); cbn in *; auto.
Qed.

(** Attempts in each of which every process fails return nothing. *)
Lemma every_attempt_failures (P : run_outcome -> Prop)
    (h : nat -> list str -> run_outcome) (cmd : list str) :
  (forall i, P (h i cmd) -> (second_run (h i cmd) = true -> P (h (S i) cmd)) ->
             fst (observe h cmd i) = None) ->
  forall n i, every_attempt P h cmd n i ->
    exists j, failures h cmd n i = Some j /\ (i <= j <= i + 2 * n)%nat.
Proof.
  intros Hnone. induction n as [|n IH]; intros i Hall; cbn [failures].
  - exists i. split; [reflexivity|lia].
  - cbn [every_attempt] in Hall. destruct Hall as [H0 Hrest].
    assert (Hobs : fst (observe h cmd i) = None).
    { apply Hnone; [exact H0|]. intros Hs. rewrite Hs in Hrest. apply Hrest. }
    assert (Hnext : every_attempt P h cmd n (snd (observe h cmd i))).
    { rewrite observe_second_run. destruct (second_run (h i cmd)); [apply Hrest|exact Hrest]. }
    pose proof (observe_next h cmd i) as Hn.
    unfold attempt_value.
    destruct (observe h cmd i) as [[b|] i']; cbn in Hobs, Hnext, Hn; [discriminate|].
    destruct (IH i' Hnext) as (j & E & Hj).
    exists j. split; [exact E|lia].
Qed.

(** C2: when every process of each of the [retries] attempts fails at
    the transport level (a timeout or other exception of
    [subprocess.run], or a non-zero exit code), [_make_request] ends by
    raising one error whose message names the attempt count and the
    endpoint, after exactly [retries] attempts.  What the host would do
    after these attempts does not matter. *)
Theorem C2_exhaustion (endpoint method : str) (data : option (list (str * pyval)))
    (retries : Z) (w : World) :
  every_attempt transport_failure (host w) (curl_command self endpoint method data)
    (Z.to_nat retries) (runs w) ->
  exists w',
    _make_request self endpoint method data retries w
      = (Err (PyException ("API request failed after " ++ str_of_int retries
                           ++ " attempts: " ++ endpoint)), w')
    /\ attempts_made (trace w') = (attempts_made (trace w) + Z.to_nat retries)%nat
    /\ (runs w' <= runs w + 2 * Z.to_nat retries)%nat.
Proof.
  intros Hall.
  destruct (@every_attempt_failures transport_failure (host w)
              (curl_command self endpoint method data)
              (@observe_transport_failure (host w) (curl_command self endpoint method data))
              (Z.to_nat retries) (runs w) Hall) as (j & Hf & Hj).
  destruct (@request_loop_exhausted _ endpoint retries _ 1 w _ Hf) as (w' & E & _ & H2 & H3).
  exists w'. unfold _make_request. rewrite E. repeat split; [exact H3|lia].
Qed.


(** C9: when every process of each of the [retries] attempts ends with
    exit code 0 and an empty output, each attempt counts as failed:
    [_make_request] goes through the whole budget and raises the
    exhaustion error.  What the host would do after these attempts does
    not matter. *)
Theorem C9_empty_body_is_failure (endpoint method : str)
    (data : option (list (str * pyval))) (retries : Z) (w : World) :
  every_attempt empty_answer (host w) (curl_command self endpoint method data)
    (Z.to_nat retries) (runs w) ->
  exists w',
    _make_request self endpoint method data retries w
      = (Err (PyException ("API request failed after " ++ str_of_int retries
                           ++ " attempts: " ++ endpoint)), w')
    /\ attempts_made (trace w') = (attempts_made (trace w) + Z.to_nat retries)%nat.
Proof.
  intros Hall.
  destruct (@every_attempt_failures empty_answer (host w)
              (curl_command self endpoint method data)
              (@observe_empty_answer (host w) (curl_command self endpoint method data))
              (Z.to_nat retries) (runs w) Hall) as (j & Hf & Hj).
  destruct (@request_loop_exhausted _ endpoint retries _ 1 w _ Hf) as (w' & E & _ & H2 & H3).
  exists w'. unfold _make_request. rewrite E. split; [reflexivity|exact H3].
Qed.

End Transport.

(** A host that times out twice and would answer the third time, asked
    with a budget of two attempts. *)
Lemma C2_witness :
  exists w',
    _make_request (L := Demo.lib) Demo.client "/tree" "GET" None 2 Demo.flaky
      = (Err (PyException "API request failed after 2 attempts: /tree"), w')
    /\ attempts_made (trace w') = 2%nat
    /\ (runs w' <= 4)%nat.
Proof.
  apply (@C2_exhaustion Demo.lib Demo.client "/tree" "GET" None 2 Demo.flaky).
  simpl. tauto.
Defined.



(** A host that answers twice with exit code 0 and no output and would
    send the listing the third time, asked with a budget of two
    attempts. *)
Lemma C9_witness :
  exists w',
    _make_request (L := Demo.lib) Demo.client "/tree" "GET" None 2 Extra.shy
      = (Err (PyException "API request failed after 2 attempts: /tree"), w')
    /\ attempts_made (trace w') = 2%nat.
Proof.
  apply (@C9_empty_body_is_failure Demo.lib Demo.client "/tree" "GET" None 2 Extra.shy).
  simpl. repeat split; eexists; reflexivity.
Defined.

(* ================================================================= *)
(** ** Content grep: context windows and per-file failures *)

Section Grep.

Context {L : PyLib}.
Variable self : GitLabClient.

(** The slice of lines 454-456 is the window of lines around the match,
    cut at both ends of the file. *)
Lemma context_window_between (lines : list str) (n c : Z) :
  1 <= n <= Z.of_nat (List.length lines) -> 0 < c ->
  context_window lines n c
  = lines_between lines (Z.max 1 (n - c)) (Z.min (Z.of_nat (List.length lines)) (n + c)).
Proof.
  intros Hn Hc. unfold context_window, lines_between, py_slice, clamp_index.
  set (len := Z.of_nat (List.length lines)) in *.
  destruct (Z.ltb_spec (Z.max 0 (n - c - 1)) 0) as [H|H]; [lia|].
  destruct (Z.ltb_spec (Z.min len (n + c)) 0) as [H'|H']; [lia|].
  f_equal; [|f_equal]; lia.
Qed.

(** What the line loop emits: one record per matching line, in order. *)
Lemma scan_lines_in (search : str -> option str) (path : pyval) (c : Z) (lines : list str) :
  forall (todo : list str) (k : Z) (m : SearchMatch),
    In m (scan_lines search path c lines todo k) ->
    k <= line_number m < k + Z.of_nat (List.length todo)
    /\ file m = path
    /\ context m = (if c >? 0 then Some (context_window lines (line_number m) c) else None)
    /\ exists l, nth_error todo (Z.to_nat (line_number m - k)) = Some l
                 /\ search l = Some (matched m) /\ line m = strip l.
Proof.
  induction todo as [|l todo IH]; intros k m Hin; cbn [scan_lines] in Hin; [contradiction|].
  assert (Hrest : In m (scan_lines search path c lines todo (k + 1)) ->
                  k <= line_number m < k + Z.of_nat (List.length (l :: todo))
                  /\ file m = path
                  /\ context m = (if c >? 0 then Some (context_window lines (line_number m) c)
                                  else None)
                  /\ exists l', nth_error (l :: todo) (Z.to_nat (line_number m - k)) = Some l'
                                /\ search l' = Some (matched m) /\ line m = strip l').
  { intros H. destruct (IH _ _ H) as (Hk & Hf & Hc & l' & Hn & Hs & Hl).
    cbn [List.length]. repeat split; try assumption; try lia.
    exists l'. repeat split; try assumption.
    replace (Z.to_nat (line_number m - k)) with (S (Z.to_nat (line_number m - (k + 1)))) by lia.
    exact Hn. }
  destruct (search l) as [g|] eqn:Hs; [|auto].
  destruct Hin as [<-|Hin]; [|auto].
  cbn [line_number file context matched line List.length].
  repeat split; try lia.
  exists l. rewrite Z.sub_diag. repeat split. exact Hs.
Qed.

Lemma scan_lines_complete (search : str -> option str) (path : pyval) (c : Z)
    (lines : list str) :
  forall (todo : list str) (k : Z) (i : nat) (l g : str),
    nth_error todo i = Some l ->
    search l = Some g ->
    In (mkMatch path (k + Z.of_nat i) (strip l) g
          (if c >? 0 then Some (context_window lines (k + Z.of_nat i) c) else None))
       (scan_lines search path c lines todo k).
Proof.
  induction todo as [|l0 todo IH]; intros k i l g Hn Hs; [destruct i; discriminate|].
  destruct i as [|i]; cbn [nth_error] in Hn.
  - injection Hn as ->. cbn [scan_lines]. rewrite Hs. left.
    cbn [Z.of_nat]. rewrite Z.add_0_r. reflexivity.
  - specialize (IH (k + 1) i l g Hn Hs).
    replace (k + 1 + Z.of_nat i) with (k + Z.of_nat (S i)) in IH by lia.
    cbn [scan_lines]. destruct (search l0); [right|]; exact IH.
Qed.

(** A record of the line loop for line [n] of a file of [L] lines, with
    [c > 0] context lines, carries exactly the lines [max(1, n-c)] to
    [min(L, n+c)]. *)
Lemma scan_lines_window (search : str -> option str) (path : pyval)
    (c : Z) (lines : list str) (m : SearchMatch) :
  0 < c ->
  In m (scan_lines search path c lines lines 1) ->
  let n := line_number m in
  let L := Z.of_nat (List.length lines) in
  1 <= n <= L
  /\ (exists l, nth_error lines (Z.to_nat (n - 1)) = Some l /\ search l = Some (matched m))
  /\ context m = Some (lines_between lines (Z.max 1 (n - c)) (Z.min L (n + c))).
Proof.
  intros Hc Hin n len.
  destruct (scan_lines_in _ _ _ _ _ _ _ Hin) as (Hk & _ & Hctx & l & Hn & Hs & _).
  fold n in Hk, Hctx, Hn. fold len in Hk.
  split; [lia|]. split; [eauto|].
  rewrite Hctx. destruct (Z.gtb_spec c 0) as [_|H]; [|lia].
  f_equal. apply context_window_between; [fold len; lia|exact Hc].
Qed.

End Grep.

Section GrepFailures.

Context {L : PyLib}.
Variable self : GitLabClient.
Variable search : str -> option str.
Variables project_id ref : str.
Variable context_lines : Z.

Let loop := search_loop self search project_id ref context_lines.

(** The [try] statement of one round of the loop. *)
Let step (f : pyval) (acc : list SearchMatch) : M (list SearchMatch) :=
  try_except
    (found <- search_in_file self search project_id f ref context_lines ;;
     ret (acc ++ found)%list)
    (fun e =>
       path <- lift (py_getitem f "path") ;;
       log (SearchFailed path e) ;;;
       ret acc).

Lemma search_loop_cons (f : pyval) (rest : list pyval) (acc : list SearchMatch) (w : World) :
  loop (f :: rest) acc w
  = match step f acc w with
    | (Ok ms, w1) => loop rest ms w1
    | (Err e, w1) => (Err e, w1)
    end.
Proof. reflexivity. Qed.

Lemma search_loop_app (files1 files2 : list pyval) :
  forall (acc : list SearchMatch) (w : World),
    loop (files1 ++ files2)%list acc w
    = match loop files1 acc w with
      | (Ok ms, w1) => loop files2 ms w1
      | (Err e, w1) => (Err e, w1)
      end.
Proof.
  induction files1 as [|f files1 IH]; intros acc w; [reflexivity|].
  cbn [app]. rewrite !search_loop_cons.
  destruct (step f acc w) as [[ms|e] w1]; [apply IH|reflexivity].
Qed.

(** The round extends the accumulator and depends on it in no other way. *)
Lemma step_acc (f : pyval) (acc : list SearchMatch) (w : World) :
  step f acc w
  = match step f [] w with
    | (Ok ms, w1) => (Ok (acc ++ ms)%list, w1)
    | (Err e, w1) => (Err e, w1)
    end.
Proof.
  unfold step, try_except, bind.
  destruct (search_in_file self search project_id f ref context_lines w) as [[found|e] w1].
  - reflexivity.
  - destruct (lift (py_getitem f "path") w1) as [[p|e'] w2]; [|reflexivity].
    destruct (log (SearchFailed p e) w2) as [[[]|e'] w3]; [|reflexivity].
    unfold ret. now rewrite app_nil_r.
Qed.

(** The accumulator is only ever extended. *)
Lemma search_loop_acc (files : list pyval) :
  forall (acc : list SearchMatch) (w : World),
    loop files acc w
    = match loop files [] w with
      | (Ok ms, w1) => (Ok (acc ++ ms)%list, w1)
      | (Err e, w1) => (Err e, w1)
      end.
Proof.
  induction files as [|f files IH]; intros acc w.
  - cbn. unfold ret. now rewrite app_nil_r.
  - rewrite !search_loop_cons. rewrite (step_acc f acc).
    destruct (step f [] w) as [[found|e] w1]; [|reflexivity].
    rewrite (IH (acc ++ found)%list), (IH found).
    destruct (loop files [] w1) as [[ms|e] w2]; [|reflexivity].
    now rewrite app_assoc.
Qed.

(** A file whose fetch raises is logged and left out. *)
Lemma search_loop_skip (f path : pyval) (rest : list pyval) (acc : list SearchMatch)
    (w w1 : World) (e : exn) :
  py_getitem f "path" = Ok path ->
  get_file self project_id path ref w = (Err e, w1) ->
  loop (f :: rest) acc w = loop rest acc (logged w1 (SearchFailed path e)).
Proof.
  intros Hp Hg. rewrite search_loop_cons.
  unfold step, try_except, search_in_file, bind, lift.
  rewrite Hp, Hg. reflexivity.
Qed.

(** An entry without a path is not a fetch failure: the handler reads
    the path again for its log message, and that raises. *)
Lemma search_loop_entry_without_path (d : list (str * pyval)) (rest : list pyval)
    (acc : list SearchMatch) (w : World) :
  lookup "path" d = None ->
  loop (PDict d :: rest) acc w = (Err (KeyError "path"), w).
Proof.
  intros Hp. rewrite search_loop_cons.
  unfold step, try_except, search_in_file, bind, lift. cbn [py_getitem].
  rewrite Hp. reflexivity.
Qed.

(** The grep is the file loop on the files it selected, when the tree
    listing and the pattern give no error. *)
Lemma grep_repository_content_loop (pattern : str) (file_filter : option str)
    (case_insensitive : bool) (max_files : Z) (w w0 : World)
    (tree : pyval) (items files : list pyval) (rx : regex) :
  get_repository_tree self project_id "" ref true 1000 w = (Ok tree, w0) ->
  py_iter tree = Ok items ->
  select_files file_filter max_files items [] = Ok files ->
  compile_pattern pattern case_insensitive = Ok rx ->
  grep_repository_content self project_id pattern file_filter ref case_insensitive
    context_lines max_files w
  = search_loop self (re_search rx) project_id ref context_lines files [] w0.
Proof.
  intros Ht Hi Hs Hc. unfold grep_repository_content, bind, lift.
  rewrite Ht, Hi, Hs, Hc. reflexivity.
Qed.

(** C10: a file whose base64-decoded content is not UTF-8 makes
    [get_file] raise [UnicodeDecodeError]; the grep loop logs it and
    goes on without any match from that file. *)
Theorem C10_undecodable_file_is_skipped (path : str) (w w' : World)
    (d : list (str * pyval)) (c : str) (raw : bytes) :
  request self (file_endpoint project_id path ref) w = (Ok (PDict d), w') ->
  lookup "content" d = Some (PStr c) ->
  b64decode c = Ok raw ->
  utf8_valid raw = false ->
  get_file self project_id (PStr path) ref w = (Err UnicodeDecodeError, w')
  /\ forall (f : pyval) (rest : list pyval) (acc : list SearchMatch),
       py_getitem f "path" = Ok (PStr path) ->
       search_loop self search project_id ref context_lines (f :: rest) acc w
       = search_loop self search project_id ref context_lines rest acc
           (logged w' (SearchFailed (PStr path) UnicodeDecodeError)).
Proof.
  intros Hr Hc Hb Hu.
  assert (Hg : get_file self project_id (PStr path) ref w = (Err UnicodeDecodeError, w')).
  { unfold get_file, bind, lift, py_quote. fold (file_endpoint project_id path ref).
    rewrite Hr, Hc. unfold decode_content, rbind, utf8_decode. rewrite Hb, Hu. reflexivity. }
  split; [exact Hg|].
  intros f rest acc Hp. fold loop. now apply search_loop_skip.
Qed.

End GrepFailures.

Lemma fst_pair {A B} (p : A * B) (a : A) : fst p = a -> p = (a, snd p).
Proof. intros <-. apply surjective_pairing. Qed.

Lemma C10_witness :
  let w' := snd (request (L := Demo.lib) Demo.client (file_endpoint "42" "a.py" "main")
                   Demo.repository) in
  get_file (L := Demo.lib) Demo.client "42" (PStr "a.py") "main" Demo.repository
  = (Err UnicodeDecodeError, w')
  /\ search_loop (L := Demo.lib) Demo.client (literal_search false "y = (") "42" "main" 1
       [Demo.blob "a.py"] [] Demo.repository
     = (Ok [], logged w' (SearchFailed (PStr "a.py") UnicodeDecodeError)).
Proof.
  intros w'.
  destruct (@C10_undecodable_file_is_skipped Demo.lib Demo.client (literal_search false "y = (")
              "42" "main" 1 "a.py" Demo.repository w'
              [("file_name", PStr "a.py"); ("content", PStr "/w=="); ("encoding", PStr "base64")]
              "/w==" (String (ascii_of_nat 255) EmptyString)) as [Hget Hloop].
  - apply fst_pair. reflexivity.
  - reflexivity.
  - reflexivity.
  - reflexivity.
  - split; [exact Hget|].
    exact (Hloop (Demo.blob "a.py") [] [] eq_refl).
Defined.

(* ================================================================= *)
(** ** Commit filtering *)

Section Commits.

Context {L : PyLib}.
Variable self : GitLabClient.

(** C8: two calls that differ only in [file_path] do the same and
    return the same. *)
Theorem C8_file_path_is_ignored (project_id : str)
    (grep author file_path1 file_path2 since until : option str) (limit : Z) (w : World) :
  search_commits_enhanced self project_id grep author file_path1 since until limit w
  = search_commits_enhanced self project_id grep author file_path2 since until limit w.
Proof. reflexivity. Qed.

Lemma author_passes_record (c0 : ascii) (r0 : str) (commit : pyval) :
  commit_record commit ->
  author_passes (Some (String c0 r0)) commit = Ok (author_matches (String c0 r0) commit).
Proof.
  intros (d & name & email & -> & Hn & He).
  unfold author_passes, author_matches, py_get, rbind. rewrite Hn, He.
  unfold text_field in Hn, He.
  destruct (lookup "author_name" d) as [[]|]; try discriminate;
    destruct (lookup "author_email" d) as [[]|]; try discriminate;
    inversion Hn; inversion He; subst; cbn [py_lower];
    match goal with
    | |- context [contains ?a (str_lower ?n) || _] => destruct (contains a (str_lower n))
    end; reflexivity.
Qed.

(** With only an author filter the loop keeps the matching commits, in
    order, until it has [limit] of them. *)
Lemma filter_commits_by_author (c0 : ascii) (r0 : str) (limit : Z) :
  forall (commits acc : list pyval),
    Forall commit_record commits ->
    Z.of_nat (List.length acc) < limit ->
    filter_commits None (Some (String c0 r0)) limit commits acc
    = Ok (firstn (Z.to_nat limit)
            (acc ++ filter (author_matches (String c0 r0)) commits)%list).
Proof.
  induction commits as [|c commits IH]; intros acc Hall Hacc.
  - cbn. rewrite app_nil_r, firstn_all2; [reflexivity|lia].
  - inversion Hall as [|? ? Hc Hrest]; subst.
    cbn [filter_commits filter grep_passes rbind negb].
    rewrite (author_passes_record _ _ Hc). cbn [rbind].
    destruct (author_matches (String c0 r0) c); cbn [negb].
    + destruct (Z.geb_spec (Z.of_nat (List.length (acc ++ [c])%list)) limit) as [Hge|Hlt].
      * rewrite length_app in Hge. cbn in Hge.
        replace (acc ++ c :: filter (author_matches (String c0 r0)) commits)%list
          with ((acc ++ [c]) ++ filter (author_matches (String c0 r0)) commits)%list
          by (rewrite <- app_assoc; reflexivity).
        replace (Z.to_nat limit) with (List.length (acc ++ [c])%list + 0)%nat
          by (rewrite length_app; cbn; lia).
        rewrite firstn_app_2. cbn. now rewrite app_nil_r.
      * rewrite (IH _ Hrest Hlt). rewrite <- app_assoc. reflexivity.
    + apply IH; assumption.
Qed.



Lemma take_list (l : list pyval) (stop : Z) :
  0 <= stop -> py_take (PList l) stop = Ok (firstn (Z.to_nat stop) l).
Proof.
  intros H. unfold py_take, py_slice, clamp_index.
  set (n := Z.of_nat (List.length l)).
  assert (E1 : (if 0 <? 0 then Z.max 0 (n + 0) else Z.min 0 n) = 0)
    by (destruct (Z.ltb_spec 0 0); lia).
  assert (E2 : (if stop <? 0 then Z.max 0 (n + stop) else Z.min stop n) = Z.min stop n)
    by (destruct (Z.ltb_spec stop 0); lia).
  rewrite E1, E2. cbn [Z.to_nat skipn]. rewrite Z.sub_0_r. f_equal.
  destruct (Z.le_ge_cases stop n) as [Hle|Hge].
  - now rewrite Z.min_l.
  - rewrite Z.min_r by lia. subst n. rewrite Nat2Z.id.
    rewrite !firstn_all2; [reflexivity|lia|lia].
Qed.

Lemma Forall_firstn' {A} (P : A -> Prop) (n : nat) (l : list A) :
  Forall P l -> Forall P (firstn n l).
Proof.
  intros H. revert n. induction H as [|x l Hx Hl IH]; intros [|n]; cbn; auto.
Qed.


(** C7, as the code has it: the commits returned are the first [limit]
    commits that match the author among the first [3 * limit] commits
    of the host's list, in the host's order. *)
Theorem C7_first_matches_in_window (project_id author : str)
    (file_path since until : option str) (limit : Z) (commits : list pyval) (w w' : World) :
  author <> EmptyString ->
  0 < limit ->
  Forall commit_record commits ->
  list_commits self project_id None since until w = (Ok (PList commits), w') ->
  search_commits_enhanced self project_id None (Some author) file_path since until limit w
  = (Ok (firstn (Z.to_nat limit)
           (filter (author_matches author) (firstn (Z.to_nat (limit * 3)) commits))), w').
Proof.
  intros Ha Hl Hall Hlist.
  destruct author as [|c0 r0]; [contradiction|].
  unfold search_commits_enhanced, bind, lift. rewrite Hlist.
  rewrite take_list by lia.
  rewrite filter_commits_by_author;
    [reflexivity|now apply Forall_firstn'|cbn; lia].
Qed.

End Commits.

Lemma C7_witness :
  search_commits_enhanced (L := Demo.lib) Demo.client "42" None (Some "alice") None None None 2
    Demo.repository
  = (Ok [Demo.commit "c1" "Alice Liddell" "al@example.org";
         Demo.commit "c3" "Carol" "ALICE@example.org"],
     snd (list_commits (L := Demo.lib) Demo.client "42" None None None Demo.repository)).
Proof.
  apply (@C7_first_matches_in_window Demo.lib Demo.client "42" "alice" None None None 2
           Demo.early_commits Demo.repository).
  - discriminate.
  - lia.
  - repeat constructor; eexists; eexists; eexists; repeat split; reflexivity.
  - apply fst_pair. reflexivity.
Defined.

(** Ten commits, three of them by the author, [limit = 2]: when the
    three come after the first six, nothing is returned. *)
Lemma C7_counterexample :
  List.length Demo.late_commits = 10%nat
  /\ List.length (filter (author_matches (L := Demo.lib) "alice") Demo.late_commits) = 3%nat
  /\ fst (list_commits (L := Demo.lib) Demo.client "42" None None None Demo.repository_late)
     = Ok (PList Demo.late_commits)
  /\ fst (search_commits_enhanced (L := Demo.lib) Demo.client "42" None (Some "alice")
            None None None 2 Demo.repository_late)
     <> Ok (firstn 2 (filter (author_matches (L := Demo.lib) "alice") Demo.late_commits)).
Proof.
  repeat split; try reflexivity.
  intros H. vm_compute in H. discriminate H.
Qed.

(* ================================================================= *)
(** ** File discovery *)


Section FileDiscovery.

Context {L : PyLib}.
Variable self : GitLabClient.

Lemma filter_permutation {A} (f : A -> bool) (l l' : list A) :
  Permutation l l' -> Permutation (filter f l) (filter f l').
Proof.
  induction 1 as [|x l l' _ IH|x y l|l l' l'' _ IH1 _ IH2]; cbn.
  - constructor.
  - destruct (f x); [now constructor|exact IH].
  - destruct (f x), (f y); try apply Permutation_refl. apply perm_swap.
  - eapply Permutation_trans; eassumption.
Qed.

Lemma filter_map_comm {A B} (g : A -> B) (f : B -> bool) (l : list A) :
  filter f (map g l) = map g (filter (fun x => f (g x)) l).
Proof.
  induction l as [|x l IH]; cbn; [reflexivity|].
  destruct (f (g x)); cbn; now rewrite IH.
Qed.

Lemma search_files_loop_cons (pattern : str) (max_results : Z)
    (d : list (str * pyval)) (items acc : list pyval) :
  text_path (PDict d) ->
  search_files_loop pattern max_results (PDict d :: items) acc
  = if glob_hit pattern (PDict d) then
      if Z.of_nat (List.length (acc ++ [PDict d])%list) >=? max_results
      then Ok (acc ++ [PDict d])%list
      else search_files_loop pattern max_results items (acc ++ [PDict d])%list
    else search_files_loop pattern max_results items acc.
Proof.
  intros Hp. cbn [search_files_loop py_get rbind].
  unfold glob_hit, text_path in *. cbn [is_blob path_of] in *.
  destruct (py_eq_str _ "blob"); [|reflexivity].
  destruct (Hp eq_refl) as [p ->]. cbn [fnmatch rbind path_matches andb].
  destruct (fnmatchcase p pattern); reflexivity.
Qed.

(** On a tree of dicts whose files carry string paths, the loop keeps
    the files that match, in order, as long as there are fewer of them
    than [max_results]. *)
Lemma search_files_loop_filter (pattern : str) (max_results : Z) :
  forall (items acc : list pyval),
    Forall is_dict items ->
    Forall text_path items ->
    Z.of_nat (List.length (acc ++ filter (glob_hit pattern) items)%list) < max_results ->
    search_files_loop pattern max_results items acc
    = Ok (acc ++ filter (glob_hit pattern) items)%list.
Proof.
  induction items as [|item items IH]; intros acc Hd Ht Hlen.
  - cbn. now rewrite app_nil_r.
  - inversion Hd as [|? ? [d ->] Hd']; inversion Ht as [|? ? Hp Ht']; subst.
    rewrite (search_files_loop_cons _ _ _ _ Hp).
    cbn [filter] in *.
    destruct (glob_hit pattern (PDict d)).
    + replace (acc ++ PDict d :: filter (glob_hit pattern) items)%list
        with ((acc ++ [PDict d]) ++ filter (glob_hit pattern) items)%list in *
        by (rewrite <- app_assoc; reflexivity).
      destruct (Z.geb_spec (Z.of_nat (List.length (acc ++ [PDict d])%list)) max_results)
        as [Hge|Hlt].
      * rewrite length_app in Hlen. lia.
      * now apply IH.
    + now apply IH.
Qed.

(** C1, as the code has it: over a tree whose files are [a.py],
    [dir/b.py] and [dir/c.txt], the pattern [**/*.py] finds the one
    entry [dir/b.py]: a star runs across [/], and the [/] of the
    pattern has to be in the path. *)
Theorem C1_glob_needs_a_slash (project_id ref : str) (tree : list pyval) (w w' : World) :
  get_repository_tree self project_id "" ref true 1000 w = (Ok (PList tree), w') ->
  Forall is_dict tree ->
  Permutation (map path_of (filter is_blob tree))
    [PStr "a.py"; PStr "dir/b.py"; PStr "dir/c.txt"] ->
  exists e,
    search_files self project_id "**/*.py" ref 100 w = (Ok [e], w')
    /\ In e tree /\ is_blob e = true /\ path_of e = PStr "dir/b.py".
Proof.
  intros Htree Hd Hperm.
  set (pat := "**/*.py").
  set (B := filter is_blob tree) in *.
  assert (Ht : Forall text_path tree).
  { apply Forall_forall. intros item Hin Hb.
    assert (Hp : In (path_of item) (map path_of B))
      by (apply in_map, filter_In; split; assumption).
    apply (Permutation_in _ Hperm) in Hp. cbn in Hp.
    destruct Hp as [<-|[<-|[<-|[]]]]; eauto. }
  assert (Hsplit : filter (glob_hit pat) tree
                   = filter (fun it => path_matches pat (path_of it)) B).
  { subst B. clear. induction tree as [|x l IH]; cbn; [reflexivity|].
    unfold glob_hit at 1. destruct (is_blob x); cbn; now rewrite IH. }
  assert (Hone : map path_of (filter (glob_hit pat) tree) = [PStr "dir/b.py"]).
  { rewrite Hsplit, <- filter_map_comm.
    apply Permutation_length_1_inv. apply Permutation_sym.
    exact (filter_permutation (path_matches pat) Hperm). }
  destruct (filter (glob_hit pat) tree) as [|e [|e' rest]] eqn:Hf; try discriminate.
  inversion Hone as [Hpath].
  assert (Hin : In e (filter (glob_hit pat) tree)) by (rewrite Hf; now left).
  apply filter_In in Hin. destruct Hin as [Hin Hhit].
  exists e. unfold search_files, bind, lift. rewrite Htree. cbn [py_iter].
  rewrite search_files_loop_filter; try assumption.
  - fold pat. rewrite Hf. repeat split; try assumption.
    unfold glob_hit in Hhit. now apply andb_prop in Hhit.
  - fold pat. rewrite Hf. cbn. lia.
Qed.

End FileDiscovery.

Lemma C1_witness :
  exists e,
    search_files (L := Demo.lib) Demo.client "42" "**/*.py" "main" 100 Demo.repository
    = (Ok [e], snd (get_repository_tree (L := Demo.lib) Demo.client "42" "" "main" true 1000
                      Demo.repository))
    /\ In e [Demo.blob "a.py"; Demo.directory "dir"; Demo.blob "dir/b.py"; Demo.blob "dir/c.txt"]
    /\ is_blob e = true /\ path_of e = PStr "dir/b.py".
Proof.
  apply (@C1_glob_needs_a_slash Demo.lib Demo.client "42" "main"
           [Demo.blob "a.py"; Demo.directory "dir"; Demo.blob "dir/b.py"; Demo.blob "dir/c.txt"]
           Demo.repository).
  - apply fst_pair. reflexivity.
  - repeat constructor; eexists; reflexivity.
  - simpl. apply Permutation_refl.
Defined.

(** Over the tree with the files [a.py], [dir/b.py] and [dir/c.txt],
    [search_files] with [**/*.py] does not return [a.py] and [dir/b.py]:
    it returns [dir/b.py] alone. *)
Lemma C1_counterexample :
  fst (get_repository_tree (L := Demo.lib) Demo.client "42" "" "main" true 1000 Demo.repository)
  = Ok (PList [Demo.blob "a.py"; Demo.directory "dir"; Demo.blob "dir/b.py";
               Demo.blob "dir/c.txt"])
  /\ fst (search_files (L := Demo.lib) Demo.client "42" "**/*.py" "main" 100 Demo.repository)
     = Ok [Demo.blob "dir/b.py"]
  /\ fst (search_files (L := Demo.lib) Demo.client "42" "**/*.py" "main" 100 Demo.repository)
     <> Ok [Demo.blob "a.py"; Demo.blob "dir/b.py"].
Proof.
  repeat split; try reflexivity.
  intros H. vm_compute in H. discriminate H.
Qed.



(* ================================================================= *)
(** ** Patterns that are not regular expressions *)

Section PatternFallback.

Context {L : PyLib}.
Variable self : GitLabClient.












(** Any other exception of [re.compile] is not handled. *)
Lemma compile_pattern_other_error (pattern : str) (case_insensitive : bool) (e : exn) :
  re_compile pattern case_insensitive = Err e ->
  e <> ReError ->
  compile_pattern pattern case_insensitive = Err e.
Proof.
  intros H Hne. unfold compile_pattern. rewrite H. destruct e; congruence.
Qed.



End PatternFallback.

(** The literal engine of the fixtures compiles every escaped pattern
    to the search for the pattern itself. *)
Lemma lit_parse_escape :
  forall (p : str) (fuel : nat),
    (String.length (Demo.lit_escape p) < fuel)%nat ->
    Demo.lit_parse fuel (Demo.lit_escape p) = Some p.
Proof.
  induction p as [|c r IH]; intros fuel Hlen.
  - destruct fuel; [cbn in Hlen; lia|reflexivity].
  - cbn [Demo.lit_escape] in *.
    destruct (Demo.is_special c) eqn:Hs; cbn [String.length] in Hlen;
      (destruct fuel as [|fuel]; [lia|]); cbn [Demo.lit_parse].
    + cbn [Ascii.eqb Bool.eqb]. rewrite IH by lia. reflexivity.
    + assert (Hb : Ascii.eqb c "\" = false).
      { unfold Demo.is_special, Demo.special_chars in Hs. cbn in Hs.
        now apply orb_false_elim in Hs. }
      rewrite Hb, Hs, IH by lia. reflexivity.
Qed.

Lemma lit_compile_escape (p : str) (ci : bool) :
  Demo.lit_compile (Demo.lit_escape p) ci = Ok (ci, p)
  /\ forall s, Demo.lit_search (ci, p) s = literal_search ci p s.
Proof.
  split; [|reflexivity].
  unfold Demo.lit_compile. now rewrite lit_parse_escape by lia.
Qed.



(* ================================================================= *)
(** ** Transport: effort, pauses and the binary fallback *)

Section TransportEffort.

Context {L : PyLib}.
Variable self : GitLabClient.

Lemma processes_app (t u : list event) :
  processes (t ++ u) = (processes t + processes u)%nat.
Proof.
  induction t as [|e t IH]; simpl; [reflexivity|].
  destruct e; simpl; rewrite IH; reflexivity.
Qed.

Lemma slept_app (t u : list event) : slept (t ++ u) = slept t + slept u.
Proof.
  induction t as [|e t IH]; simpl; [reflexivity|].
  destruct e; simpl; rewrite IH; lia.
Qed.

Lemma runs_only_app (cmd : list str) (t u : list event) :
  runs_only cmd t -> runs_only cmd u -> runs_only cmd (t ++ u).
Proof.
  intros Ht Hu c b Hin. apply in_app_or in Hin. destruct Hin; eauto.
Qed.

(** The events of one attempt: one or two processes, all with the same
    command line, and a pause of two seconds exactly when the attempt
    returns nothing and is not the last of the budget. *)
Lemma attempt_request_events (cmd : list str) (attempt retries : Z) (w : World) :
  exists v w' evs,
    attempt_request cmd attempt retries w = (Ok v, w')
    /\ trace w' = (trace w ++ evs)%list
    /\ host w' = host w
    /\ runs w' = (runs w + processes evs)%nat
    /\ runs_only cmd evs
    /\ attempts_made evs = 1%nat
    /\ (1 <= processes evs <= 2)%nat
    /\ slept evs = match v with
                   | Some _ => 0
                   | None => if attempt <? retries then 2 else 0
                   end.
Proof.
  unfold attempt_request, run_curl, run_binary, accept, recover, try_except, bind,
    subprocess_run, log, backoff, sleep, emit, ret, raise, lift, MockResult.
  cbn [host runs trace returncode stdout stderr].
  repeat (match goal with
          | |- context [match ?x with _ => _ end] =>
              lazymatch x with
              | context [match _ with _ => _ end] => fail
              | _ => destruct x eqn:?
              end
          end;
          cbn [host runs trace returncode stdout stderr stream_truthy stream_bytes andb]);
    rewrite <- ?app_assoc; cbn [app];
    (eexists; eexists; eexists; split; [reflexivity|]; split; [reflexivity|];
     split; [reflexivity|]; cbn [processes attempts_made slept host runs trace];
     split; [lia|];
     split; [intros ? ? Hin; cbn in Hin; intuition congruence|];
     split; [reflexivity|]; split; [lia|];
     rewrite ?Z.add_0_r; try reflexivity; try lia).
Qed.

(** The events of the whole retry loop. *)
Lemma request_loop_events (cmd : list str) (endpoint : str) (retries : Z) :
  forall (n : nat) (attempt : Z) (w : World),
  exists r w' evs,
    request_loop cmd endpoint retries n attempt w = (r, w')
    /\ trace w' = (trace w ++ evs)%list
    /\ host w' = host w
    /\ runs w' = (runs w + processes evs)%nat
    /\ runs_only cmd evs
    /\ (attempts_made evs <= n)%nat
    /\ (attempts_made evs <= processes evs <= 2 * attempts_made evs)%nat
    /\ match r with
       | Err e =>
           e = exhausted retries endpoint
           /\ attempts_made evs = n
           /\ slept evs = 2 * Z.max 0 (Z.min (Z.of_nat n) (retries - attempt))
       | Ok _ =>
           (1 <= attempts_made evs)%nat
           /\ slept evs
              = 2 * Z.max 0 (Z.min (Z.of_nat (attempts_made evs) - 1) (retries - attempt))
       end.
Proof.
  induction n as [|n IH]; intros attempt w.
  - exists (Err (exhausted retries endpoint)), w, [].
    cbn [request_loop processes attempts_made slept]. unfold raise. rewrite app_nil_r.
    split; [reflexivity|]. split; [reflexivity|]. split; [reflexivity|].
    split; [lia|]. split; [intros c b []|]. split; [lia|]. split; [lia|].
    split; [reflexivity|]. split; [reflexivity|]. lia.
  - destruct (attempt_request_events cmd attempt retries w)
      as (v & w1 & evs1 & E1 & Ht1 & Hh1 & Hr1 & Ho1 & Ha1 & Hp1 & Hs1).
    cbn [request_loop]. unfold bind at 1. rewrite E1.
    destruct v as [x|].
    + exists (Ok x), w1, evs1. unfold ret.
      split; [reflexivity|]. split; [exact Ht1|]. split; [exact Hh1|].
      split; [exact Hr1|]. split; [exact Ho1|]. rewrite Ha1, Hs1. clear IH.
      split; [lia|]. split; [lia|]. split; [lia|]. lia.
    + destruct (IH (attempt + 1) w1)
        as (r & w' & evs2 & E2 & Ht2 & Hh2 & Hr2 & Ho2 & Ha2 & Hp2 & Hres).
      exists r, w', (evs1 ++ evs2)%list.
      rewrite attempts_made_app, processes_app, slept_app, Ha1, Hs1.
      split; [exact E2|]. split; [now rewrite Ht2, Ht1, app_assoc|].
      split; [congruence|]. split; [lia|].
      split; [now apply runs_only_app|]. split; [lia|]. split; [lia|].
      destruct r as [x|e].
      * destruct Hres as [H1 H2]. split; [lia|]. rewrite H2.
        destruct (Z.ltb_spec attempt retries); lia.
      * destruct Hres as (He & Hn & H2). split; [exact He|]. split; [lia|].
        rewrite H2. destruct (Z.ltb_spec attempt retries); lia.
Qed.

(** X1: whatever the host does, [_make_request] raises nothing but its
    exhaustion error, and raises it only after exactly [retries]
    attempts. *)
Theorem make_request_raises_only_exhaustion (endpoint method : str)
    (data : option (list (str * pyval))) (retries : Z) (w w' : World) (e : exn) :
  _make_request self endpoint method data retries w = (Err e, w') ->
  e = PyException ("API request failed after " ++ str_of_int retries
                   ++ " attempts: " ++ endpoint)
  /\ exists evs, trace w' = (trace w ++ evs)%list
                 /\ attempts_made evs = Z.to_nat retries.
Proof.
  intros H. unfold _make_request in H.
  destruct (request_loop_events (curl_command self endpoint method data) endpoint retries
              (Z.to_nat retries) 1 w)
    as (r & w1 & evs & E & Ht & _ & _ & _ & _ & _ & Hres).
  rewrite E in H. inversion H; subst. destruct Hres as (He & Hn & _).
  split; [exact He|]. exists evs. split; assumption.
Qed.

(** X2: whatever the host does, a request makes at most [retries]
    attempts, each of one or two processes, all started with the one
    command line of the request. *)
Theorem make_request_effort_is_bounded (endpoint method : str)
    (data : option (list (str * pyval))) (retries : Z) (w : World) :
  let w' := snd (_make_request self endpoint method data retries w) in
  exists evs,
    trace w' = (trace w ++ evs)%list
    /\ (attempts_made evs <= Z.to_nat retries)%nat
    /\ (attempts_made evs <= processes evs <= 2 * attempts_made evs)%nat
    /\ runs w' = (runs w + processes evs)%nat
    /\ runs_only (curl_command self endpoint method data) evs.
Proof.
  intros w'. subst w'. unfold _make_request.
  destruct (request_loop_events (curl_command self endpoint method data) endpoint retries
              (Z.to_nat retries) 1 w)
    as (r & w1 & evs & E & Ht & Hh & Hr & Ho & Ha & Hp & _).
  rewrite E. cbn [snd]. exists evs. repeat split; try assumption; lia.
Qed.

(** X3: the pauses of a request add up to two seconds for each attempt
    but the last one made: none before the first attempt, none after
    the attempt that returns, none after the last attempt of the budget. *)
Theorem make_request_pauses_between_attempts (endpoint method : str)
    (data : option (list (str * pyval))) (retries : Z) (w : World) :
  let w' := snd (_make_request self endpoint method data retries w) in
  exists evs,
    trace w' = (trace w ++ evs)%list
    /\ slept evs = 2 * Z.max 0 (Z.of_nat (attempts_made evs) - 1).
Proof.
  intros w'. subst w'. unfold _make_request.
  destruct (request_loop_events (curl_command self endpoint method data) endpoint retries
              (Z.to_nat retries) 1 w)
    as (r & w1 & evs & E & Ht & _ & _ & _ & Ha & _ & Hres).
  rewrite E. cbn [snd]. exists evs. split; [exact Ht|].
  destruct r as [x|e].
  - destruct Hres as [H1 H2]. rewrite H2. lia.
  - destruct Hres as (_ & Hn & H2). rewrite H2, Hn. lia.
Qed.

(** X4: when the output of curl is not UTF-8, the same attempt runs curl
    a second time and reads that answer as bytes: with exit code 0 and
    a non-empty output, the request returns it decoded as UTF-8 when it
    is UTF-8 and as latin-1 otherwise (parsed as JSON when it parses).
    The host has then been asked twice. *)
Theorem make_request_binary_fallback (endpoint method : str)
    (data : option (list (str * pyval))) (retries : Z) (w : World)
    (rc : Z) (out err out' err' : bytes) :
  let cmd := curl_command self endpoint method data in
  let text := if utf8_valid out' then out' else latin1_text out' in
  host w (runs w) cmd = Completed rc out err ->
  utf8_valid out && utf8_valid err = false ->
  host w (S (runs w)) cmd = Completed 0 out' err' ->
  out' <> EmptyString ->
  (forall e, json_loads text = Err e -> e = JSONDecodeError) ->
  0 < retries ->
  exists w',
    _make_request self endpoint method data retries w
      = (Ok (match json_loads text with Ok v => v | Err _ => PStr text end), w')
    /\ runs w' = (runs w + 2)%nat
    /\ attempts_made (trace w') = (attempts_made (trace w) + 1)%nat.
Proof.
  intros cmd text H1 Hbad H2 Hne Hjson Hr.
  assert (Hfb : decode_fallback out' = text).
  { unfold decode_fallback, utf8_decode, latin1_decode. subst text.
    destruct (utf8_valid out'); reflexivity. }
  assert (Hobs : observe (host w) cmd (runs w) = (Some text, S (S (runs w)))).
  { unfold observe. rewrite H1.
    assert (Hb : observe_bytes (host w) cmd (S (runs w)) = (Some text, S (S (runs w)))).
    { unfold observe_bytes. rewrite H2. unfold accepted.
      destruct out' as [|c r]; [contradiction|]. cbn. now rewrite Hfb. }
    unfold decode_text, utf8_decode.
    destruct (utf8_valid out); cbn in Hbad |- *; [|exact Hb].
    rewrite Hbad. exact Hb. }
  assert (Hval : attempt_value (host w) cmd (runs w)
                 = (Some (match json_loads text with Ok v => v | Err _ => PStr text end),
                    S (S (runs w)))).
  { unfold attempt_value. rewrite Hobs. unfold parse_text.
    destruct (json_loads text) as [v|e]; [reflexivity|].
    rewrite (Hjson e eq_refl). reflexivity. }
  destruct (@request_loop_accepts L cmd endpoint retries 0 (Z.to_nat retries) 1 w
              (runs w) _ _ eq_refl Hval ltac:(lia)) as (w' & E & _ & Hruns & Hatt & _).
  exists w'. unfold _make_request. fold cmd. rewrite E.
  repeat split; lia.
Qed.

End TransportEffort.

Lemma make_request_raises_only_exhaustion_witness :
  PyException "API request failed after 2 attempts: /x"
  = PyException ("API request failed after " ++ str_of_int 2 ++ " attempts: " ++ "/x")
  /\ exists evs,
       trace (snd (_make_request (L := Demo.lib) Demo.client "/x" "GET" None 2 Demo.down))
       = (trace Demo.down ++ evs)%list
       /\ attempts_made evs = Z.to_nat 2.
Proof.
  apply (@make_request_raises_only_exhaustion Demo.lib Demo.client "/x" "GET" None 2
           Demo.down
           (snd (_make_request (L := Demo.lib) Demo.client "/x" "GET" None 2 Demo.down))).
  apply fst_pair. reflexivity.
Defined.

Lemma make_request_binary_fallback_witness :
  exists w',
    _make_request (L := Extra.lib) Demo.client "/x" "POST" None 3 Extra.latin
    = (Ok (PStr (String (ascii_of_nat 195) (String (ascii_of_nat 169) "t")
                 ++ String (ascii_of_nat 195) (String (ascii_of_nat 169) EmptyString))), w')
    /\ runs w' = 2%nat
    /\ attempts_made (trace w') = 1%nat.
Proof.
  apply (@make_request_binary_fallback Extra.lib Demo.client "/x" "POST" None 3 Extra.latin 0
           (String (ascii_of_nat 233) "t" ++ String (ascii_of_nat 233) EmptyString)
           EmptyString
           (String (ascii_of_nat 233) "t" ++ String (ascii_of_nat 233) EmptyString)
           EmptyString).
  - reflexivity.
  - reflexivity.
  - reflexivity.
  - discriminate.
  - simpl. intros e H. inversion H. reflexivity.
  - lia.
Defined.

(* ================================================================= *)
(** ** File discovery: the cap, the order, and replies that are no listing *)

Section FileDiscoveryBounds.

Context {L : PyLib}.
Variable self : GitLabClient.

(** The loop stops as soon as the list it builds has [max_results]
    entries; it looks at the length only after it has appended. *)
Lemma search_files_loop_cap (pattern : str) (max_results : Z) :
  forall (items acc : list pyval),
    Forall is_dict items ->
    Forall text_path items ->
    search_files_loop pattern max_results items acc
    = Ok (acc ++ firstn (Z.to_nat (Z.max 1 (max_results - Z.of_nat (List.length acc))))
                   (filter (glob_hit pattern) items))%list.
Proof.
  induction items as [|item items IH]; intros acc Hd Ht.
  - cbn. now rewrite firstn_nil, app_nil_r.
  - inversion Hd as [|? ? [d ->] Hd']; inversion Ht as [|? ? Hp Ht']; subst.
    rewrite search_files_loop_cons by exact Hp. cbn [filter].
    destruct (glob_hit pattern (PDict d)); [|now apply IH].
    destruct (Z.geb_spec (Z.of_nat (List.length (acc ++ [PDict d])%list)) max_results)
      as [Hge|Hlt]; rewrite length_app in *; cbn [List.length] in *.
    + replace (Z.to_nat (Z.max 1 (max_results - Z.of_nat (List.length acc)))) with 1%nat by lia.
      reflexivity.
    + rewrite IH by assumption. rewrite length_app. cbn [List.length].
      replace (Z.to_nat (Z.max 1 (max_results - Z.of_nat (List.length acc))))
        with (S (Z.to_nat (Z.max 1 (max_results - Z.of_nat (List.length acc + 1))))) by lia.
      cbn [firstn]. rewrite <- app_assoc. reflexivity.
Qed.

(** X5: over a listing whose entries are objects and whose files carry
    a text path, [search_files] returns the files whose path matches the
    pattern, in the order of the listing, cut after [max_results] of
    them; a [max_results] below 1 still returns the first match. *)
Theorem search_files_keeps_order_and_cap (project_id pattern ref : str) (max_results : Z)
    (tree : list pyval) (w w' : World) :
  get_repository_tree self project_id "" ref true 1000 w = (Ok (PList tree), w') ->
  Forall is_dict tree ->
  Forall text_path tree ->
  search_files self project_id pattern ref max_results w
  = (Ok (firstn (cap max_results) (filter (glob_hit pattern) tree)), w').
Proof.
  intros Htree Hd Ht. unfold search_files, bind, lift. rewrite Htree. cbn [py_iter].
  rewrite search_files_loop_cap by assumption.
  cbn [List.length app]. unfold cap. rewrite Z.sub_0_r. reflexivity.
Qed.

(** X6: when the host answers the tree request with an object (its
    error message) or with text, both searches raise [AttributeError]:
    they iterate over the keys or the characters and call [.get] on a
    string. *)
Theorem listing_that_is_no_list_raises (project_id ref : str) (reply : pyval)
    (w w' : World) :
  get_repository_tree self project_id "" ref true 1000 w = (Ok reply, w') ->
  not_a_listing reply ->
  (forall (pattern : str) (max_results : Z),
     search_files self project_id pattern ref max_results w = (Err AttributeError, w'))
  /\ (forall (pattern : str) (file_filter : option str) (case_insensitive : bool)
        (context_lines max_files : Z),
        grep_repository_content self project_id pattern file_filter ref case_insensitive
          context_lines max_files w = (Err AttributeError, w')).
Proof.
  intros Htree Hno.
  unfold search_files, grep_repository_content, bind, lift. rewrite Htree.
  destruct reply as [| | | |s| |l|d]; try contradiction.
  - destruct s as [|c s]; [contradiction|]. split; intros; reflexivity.
  - destruct d as [|kv d]; [contradiction|]. split; intros; reflexivity.
Qed.

End FileDiscoveryBounds.

Lemma search_files_keeps_order_and_cap_witness :
  search_files (L := Demo.lib) Demo.client "42" "*.py" "main" 0 Demo.repository
  = (Ok [Demo.blob "a.py"],
     snd (get_repository_tree (L := Demo.lib) Demo.client "42" "" "main" true 1000
            Demo.repository)).
Proof.
  apply (@search_files_keeps_order_and_cap Demo.lib Demo.client "42" "*.py" "main" 0
           [Demo.blob "a.py"; Demo.directory "dir"; Demo.blob "dir/b.py"; Demo.blob "dir/c.txt"]
           Demo.repository).
  - apply fst_pair. reflexivity.
  - repeat constructor; eexists; reflexivity.
  - repeat constructor; intros _; eexists; reflexivity.
Defined.

Lemma listing_that_is_no_list_raises_witness :
  let w' := snd (get_repository_tree (L := Extra.lib) Demo.client "42" "" "main" true 1000
                   Extra.refusing) in
  (forall (pattern : str) (max_results : Z),
     search_files (L := Extra.lib) Demo.client "42" pattern "main" max_results Extra.refusing
     = (Err AttributeError, w'))
  /\ (forall (pattern : str) (file_filter : option str) (case_insensitive : bool)
        (context_lines max_files : Z),
        grep_repository_content (L := Extra.lib) Demo.client "42" pattern file_filter "main"
          case_insensitive context_lines max_files Extra.refusing = (Err AttributeError, w')).
Proof.
  intros w'.
  apply (@listing_that_is_no_list_raises Extra.lib Demo.client "42" "main" Extra.refusal
           Extra.refusing w').
  - apply fst_pair. reflexivity.
  - exact I.
Defined.

(* ================================================================= *)
(** ** Content grep: the files it selects and the requests it makes *)

Section GrepSelection.

Context {L : PyLib}.
Variable self : GitLabClient.

Lemma select_files_cons (file_filter : option str) (max_files : Z)
    (d : list (str * pyval)) (items acc : list pyval) :
  text_path (PDict d) ->
  select_files file_filter max_files (PDict d :: items) acc
  = if candidate file_filter (PDict d) then
      if Z.of_nat (List.length (acc ++ [PDict d])%list) >=? max_files
      then Ok (acc ++ [PDict d])%list
      else select_files file_filter max_files items (acc ++ [PDict d])%list
    else select_files file_filter max_files items acc.
Proof.
  intros Hp. cbn [select_files py_get rbind].
  unfold candidate, text_path in *. cbn [is_blob path_of] in *.
  destruct (py_eq_str _ "blob"); [|reflexivity].
  destruct (Hp eq_refl) as [p ->]. cbn [andb].
  unfold is_binary. cbn [py_lower rbind looks_binary].
  destruct file_filter as [[|c r]|]; cbn [filter_accepts path_matches fnmatch rbind andb].
  - destruct (existsb (endswith (str_lower p)) binary_extensions); reflexivity.
  - destruct (fnmatchcase p (String c r)); cbn [negb andb]; [|reflexivity].
    destruct (existsb (endswith (str_lower p)) binary_extensions); reflexivity.
  - destruct (existsb (endswith (str_lower p)) binary_extensions); reflexivity.
Qed.

Lemma select_files_cap (file_filter : option str) (max_files : Z) :
  forall (items acc : list pyval),
    Forall is_dict items ->
    Forall text_path items ->
    select_files file_filter max_files items acc
    = Ok (acc ++ firstn (Z.to_nat (Z.max 1 (max_files - Z.of_nat (List.length acc))))
                   (filter (candidate file_filter) items))%list.
Proof.
  induction items as [|item items IH]; intros acc Hd Ht.
  - cbn. now rewrite firstn_nil, app_nil_r.
  - inversion Hd as [|? ? [d ->] Hd']; inversion Ht as [|? ? Hp Ht']; subst.
    rewrite select_files_cons by exact Hp. cbn [filter].
    destruct (candidate file_filter (PDict d)); [|now apply IH].
    destruct (Z.geb_spec (Z.of_nat (List.length (acc ++ [PDict d])%list)) max_files)
      as [Hge|Hlt]; rewrite length_app in *; cbn [List.length] in *.
    + replace (Z.to_nat (Z.max 1 (max_files - Z.of_nat (List.length acc)))) with 1%nat by lia.
      reflexivity.
    + rewrite IH by assumption. rewrite length_app. cbn [List.length].
      replace (Z.to_nat (Z.max 1 (max_files - Z.of_nat (List.length acc))))
        with (S (Z.to_nat (Z.max 1 (max_files - Z.of_nat (List.length acc + 1))))) by lia.
      cbn [firstn]. rewrite <- app_assoc. reflexivity.
Qed.

(** X7: over a listing whose entries are objects and whose files carry
    a text path, the grep scans the first [max_files] candidates of the
    listing, in its order: the files the filter accepts whose path has
    none of the binary extensions, letter case ignored.  An empty filter
    is no filter; a [max_files] below 1 still scans one file. *)
Theorem grep_scans_first_candidates (project_id pattern : str) (file_filter : option str)
    (ref : str) (case_insensitive : bool) (context_lines max_files : Z)
    (tree : list pyval) (rx : regex) (w w' : World) :
  get_repository_tree self project_id "" ref true 1000 w = (Ok (PList tree), w') ->
  Forall is_dict tree ->
  Forall text_path tree ->
  compile_pattern pattern case_insensitive = Ok rx ->
  grep_repository_content self project_id pattern file_filter ref case_insensitive
    context_lines max_files w
  = search_loop self (re_search rx) project_id ref context_lines
      (firstn (cap max_files) (filter (candidate file_filter) tree)) [] w'.
Proof.
  intros Htree Hd Ht Hrx. unfold grep_repository_content, bind, lift.
  rewrite Htree. cbn [py_iter]. rewrite select_files_cap by assumption.
  rewrite Hrx. cbn [List.length app]. unfold cap. rewrite Z.sub_0_r. reflexivity.
Qed.

(** The events of a request: processes with its own command line. *)
Lemma request_events (endpoint : str) (w : World) :
  exists evs,
    trace (snd (request self endpoint w)) = (trace w ++ evs)%list
    /\ runs_only (curl_command self endpoint "GET" None) evs.
Proof.
  unfold request, _make_request.
  destruct (@request_loop_events L (curl_command self endpoint "GET" None) endpoint 3
              (Z.to_nat 3) 1 w) as (r & w1 & evs & E & Ht & _ & _ & Ho & _).
  rewrite E. exists evs. split; assumption.
Qed.

(** The events of [get_file]: requests for the one file. *)
Lemma get_file_events (project_id : str) (path : pyval) (ref : str) (w : World) :
  exists evs,
    trace (snd (get_file self project_id path ref w)) = (trace w ++ evs)%list
    /\ forall c b, In (EvRun c b) evs ->
         exists e, py_quote path = Ok e
                   /\ c = curl_command self ("/api/v4/projects/" ++ project_id
                                             ++ "/repository/files/" ++ e ++ "?ref=" ++ ref)
                            "GET" None.
Proof.
  unfold get_file, bind, lift.
  destruct (py_quote path) as [e|e].
  - destruct (request_events ("/api/v4/projects/" ++ project_id ++ "/repository/files/"
                              ++ e ++ "?ref=" ++ ref) w) as (evs & Ht & Ho).
    exists evs. split.
    + destruct (request self _ w) as [[v|e'] w1]; cbn [snd] in Ht |- *; [|exact Ht].
      destruct v; try exact Ht.
      destruct (lookup "content" _); [|exact Ht].
      destruct (decode_content _); exact Ht.
    + intros c b Hin. exists e. split; [reflexivity|]. exact (Ho c b Hin).
  - exists []. cbn. rewrite app_nil_r. split; [reflexivity|]. intros c b [].
Qed.

(** The events of one round of the file loop. *)
Lemma search_round_events (search : str -> option str) (project_id ref : str)
    (context_lines : Z) (f : pyval) (acc : list SearchMatch) (w : World) :
  exists evs,
    trace (snd (try_except
                  (found <- search_in_file self search project_id f ref context_lines ;;
                   ret (acc ++ found)%list)
                  (fun e =>
                     path <- lift (py_getitem f "path") ;;
                     log (SearchFailed path e) ;;;
                     ret acc) w))
    = (trace w ++ evs)%list
    /\ forall c b, In (EvRun c b) evs ->
         exists p e, py_getitem f "path" = Ok p /\ py_quote p = Ok e
                     /\ c = curl_command self ("/api/v4/projects/" ++ project_id
                                               ++ "/repository/files/" ++ e ++ "?ref=" ++ ref)
                              "GET" None.
Proof.
  unfold try_except, search_in_file, bind, lift.
  destruct (py_getitem f "path") as [p|e] eqn:Hp.
  - destruct (get_file_events project_id p ref w) as (evs & Ht & Ho).
    destruct (get_file self project_id p ref w) as [[v|e] w1]; cbn [snd] in Ht.
    + assert (Hrun : forall c b, In (EvRun c b) evs ->
                exists p0 e, Ok p = Ok p0 /\ py_quote p0 = Ok e
                  /\ c = curl_command self ("/api/v4/projects/" ++ project_id
                                            ++ "/repository/files/" ++ e ++ "?ref=" ++ ref)
                           "GET" None).
      { intros c b Hin. exists p. destruct (Ho c b Hin) as (e' & He & Hc). eauto. }
      assert (Hlog : forall e, exists evs',
                (trace w1 ++ [EvLog (SearchFailed p e)])%list = (trace w ++ evs')%list
                /\ forall c b, In (EvRun c b) evs' ->
                     exists p0 e, Ok p = Ok p0 /\ py_quote p0 = Ok e
                       /\ c = curl_command self ("/api/v4/projects/" ++ project_id
                                                 ++ "/repository/files/" ++ e ++ "?ref=" ++ ref)
                                "GET" None).
      { intros e. exists (evs ++ [EvLog (SearchFailed p e)])%list. split.
        - rewrite Ht, app_assoc. reflexivity.
        - intros c b Hin. apply in_app_or in Hin.
          destruct Hin as [Hin|[Hin|[]]]; [exact (Hrun c b Hin)|discriminate Hin]. }
      destruct (py_get v "content" (PStr "")) as [c|e]; [|apply Hlog].
      destruct (py_split_lines c); [|apply Hlog].
      exists evs. split; [exact Ht|exact Hrun].
    + exists (evs ++ [EvLog (SearchFailed p e)])%list. split.
      * cbn. rewrite Ht, app_assoc. reflexivity.
      * intros c b Hin. apply in_app_or in Hin. destruct Hin as [Hin|[Hin|[]]]; [|discriminate].
        exists p. destruct (Ho c b Hin) as (e' & He & Hc). eauto.
  - exists []. cbn. rewrite app_nil_r. split; [reflexivity|]. intros c b [].
Qed.

Lemma in_firstn {A} (n : nat) (l : list A) (x : A) : In x (firstn n l) -> In x l.
Proof.
  revert l. induction n as [|n IH]; intros [|y l] H; cbn in H; try contradiction.
  destruct H as [<-|H]; [now left|right; auto].
Qed.

(** The events of the file loop: requests for files of the list. *)
Lemma search_loop_events (search : str -> option str) (project_id ref : str)
    (context_lines : Z) :
  forall (files : list pyval) (acc : list SearchMatch) (w : World),
  exists evs,
    trace (snd (search_loop self search project_id ref context_lines files acc w))
    = (trace w ++ evs)%list
    /\ forall c b, In (EvRun c b) evs ->
         exists f p e, In f files /\ py_getitem f "path" = Ok p /\ py_quote p = Ok e
                       /\ c = curl_command self ("/api/v4/projects/" ++ project_id
                                                 ++ "/repository/files/" ++ e ++ "?ref=" ++ ref)
                                "GET" None.
Proof.
  induction files as [|f files IH]; intros acc w.
  - exists []. cbn. rewrite app_nil_r. split; [reflexivity|]. intros c b [].
  - rewrite (@search_loop_cons L self search project_id ref context_lines f files acc w).
    destruct (search_round_events search project_id ref context_lines f acc w)
      as (evs1 & Ht1 & Ho1).
    destruct (try_except _ _ w) as [[ms|e] w1]; cbn [snd] in Ht1.
    + destruct (IH ms w1) as (evs2 & Ht2 & Ho2).
      exists (evs1 ++ evs2)%list. split.
      * rewrite Ht2, Ht1, app_assoc. reflexivity.
      * intros c b Hin. apply in_app_or in Hin. destruct Hin as [Hin|Hin].
        -- destruct (Ho1 c b Hin) as (p & e & Hp & Hq & Hc).
           exists f, p, e. split; [now left|]. auto.
        -- destruct (Ho2 c b Hin) as (f' & p & e & Hf & Hp & Hq & Hc).
           exists f', p, e. split; [now right|]. auto.
    + exists evs1. split; [exact Ht1|].
      intros c b Hin. destruct (Ho1 c b Hin) as (p & e' & Hp & Hq & Hc).
      exists f, p, e'. split; [now left|]. auto.
Qed.

(** X8: after the tree request, every process the grep starts is the
    request for a candidate file of the listing: a file with one of the
    binary extensions, a directory, or a file the filter rejects is
    never asked for. *)
Theorem grep_fetches_only_candidates (project_id pattern : str) (file_filter : option str)
    (ref : str) (case_insensitive : bool) (context_lines max_files : Z)
    (tree : list pyval) (w w1 : World) :
  get_repository_tree self project_id "" ref true 1000 w = (Ok (PList tree), w1) ->
  Forall is_dict tree ->
  Forall text_path tree ->
  exists evs,
    trace (snd (grep_repository_content self project_id pattern file_filter ref
                  case_insensitive context_lines max_files w))
    = (trace w1 ++ evs)%list
    /\ fetches_only self project_id ref
         (fun f => In f tree /\ candidate file_filter f = true) evs.
Proof.
  intros Htree Hd Ht. unfold grep_repository_content, bind, lift.
  rewrite Htree. cbn [py_iter]. rewrite select_files_cap by assumption.
  destruct (compile_pattern pattern case_insensitive) as [rx|e].
  - destruct (search_loop_events (re_search rx) project_id ref context_lines
                ([] ++ firstn (Z.to_nat (Z.max 1 (max_files - Z.of_nat (@List.length pyval []))))
                         (filter (candidate file_filter) tree))%list [] w1)
      as (evs & Hev & Ho).
    exists evs. split; [exact Hev|].
    intros c b Hin. destruct (Ho c b Hin) as (f & p & e & Hf & Hp & Hq & Hc).
    cbn [app] in Hf. apply in_firstn in Hf. apply filter_In in Hf. destruct Hf as [Hf Hcand].
    pose proof (proj1 (Forall_forall _ _) Hd f Hf) as [d ->].
    pose proof (proj1 (Forall_forall _ _) Ht _ Hf) as Hpath.
    assert (Hblob : is_blob (PDict d) = true).
    { unfold candidate in Hcand. destruct (is_blob (PDict d)); [reflexivity|discriminate]. }
    destruct (Hpath Hblob) as [p' Hp'].
    cbn [py_getitem path_of] in Hp, Hp'.
    destruct (lookup "path" d) as [v|] eqn:E; [|discriminate].
    injection Hp as <-. subst v. cbn [py_quote] in Hq. injection Hq as <-.
    exists (PDict d), p'. split; [split; assumption|]. split.
    + cbn [py_getitem]. rewrite E. reflexivity.
    + exact Hc.
  - exists []. cbn. rewrite app_nil_r. split; [reflexivity|]. intros c b [].
Qed.

End GrepSelection.

(* ================================================================= *)
(** ** Content grep: what the whole search returns *)

Section GrepResults.

Context {L : PyLib}.
Variable self : GitLabClient.

(** The grep on candidates [before ++ f :: after], up to the file [f]. *)
Lemma grep_up_to_file (project_id pattern : str) (file_filter : option str) (ref : str)
    (case_insensitive : bool) (c max_files : Z) (tree : pyval)
    (items before after : list pyval) (f : pyval) (rx : regex)
    (w w0 w1 : World) (ms1 : list SearchMatch) :
  get_repository_tree self project_id "" ref true 1000 w = (Ok tree, w0) ->
  py_iter tree = Ok items ->
  select_files file_filter max_files items [] = Ok (before ++ f :: after)%list ->
  compile_pattern pattern case_insensitive = Ok rx ->
  search_loop self (re_search rx) project_id ref c before [] w0 = (Ok ms1, w1) ->
  grep_repository_content self project_id pattern file_filter ref case_insensitive
    c max_files w
  = search_loop self (re_search rx) project_id ref c (f :: after) ms1 w1.
Proof.
  intros Ht Hi Hs Hc Hb.
  rewrite (@grep_repository_content_loop L self project_id ref c pattern file_filter
             case_insensitive max_files w w0 tree items (before ++ f :: after)%list rx
             Ht Hi Hs Hc).
  rewrite (@search_loop_app L self (re_search rx) project_id ref c before (f :: after) [] w0).
  rewrite Hb. reflexivity.
Qed.

(** C5: in the result of [grep_repository_content] with [c > 0] context
    lines, the matches of a file of [L] lines that is fetched are one
    record for every line in which the pattern is found, and the record
    of line [n] carries as context exactly the lines [max(1, n-c)] to
    [min(L, n+c)] of the file. *)
Theorem C5_context_is_clamped_window (project_id pattern : str) (file_filter : option str)
    (ref : str) (case_insensitive : bool) (c max_files : Z) (tree : pyval)
    (items before after : list pyval) (f path file_content : pyval) (content : str)
    (rx : regex) (w w0 w1 w2 w3 : World) (ms1 ms2 : list SearchMatch) :
  0 < c ->
  get_repository_tree self project_id "" ref true 1000 w = (Ok tree, w0) ->
  py_iter tree = Ok items ->
  select_files file_filter max_files items [] = Ok (before ++ f :: after)%list ->
  compile_pattern pattern case_insensitive = Ok rx ->
  search_loop self (re_search rx) project_id ref c before [] w0 = (Ok ms1, w1) ->
  py_getitem f "path" = Ok path ->
  get_file self project_id path ref w1 = (Ok file_content, w2) ->
  py_get file_content "content" (PStr "") = Ok (PStr content) ->
  search_loop self (re_search rx) project_id ref c after [] w2 = (Ok ms2, w3) ->
  let lines := split_lines content in
  let len := Z.of_nat (List.length lines) in
  exists found,
    grep_repository_content self project_id pattern file_filter ref case_insensitive
      c max_files w = (Ok (ms1 ++ found ++ ms2)%list, w3)
    /\ (forall m, In m found ->
          file m = path
          /\ 1 <= line_number m <= len
          /\ (exists l, nth_error lines (Z.to_nat (line_number m - 1)) = Some l
                        /\ re_search rx l = Some (matched m))
          /\ context m = Some (lines_between lines (Z.max 1 (line_number m - c))
                                 (Z.min len (line_number m + c))))
    /\ (forall (n : nat) (l g : str),
          nth_error lines n = Some l -> re_search rx l = Some g ->
          exists m, In m found /\ line_number m = Z.of_nat n + 1 /\ matched m = g
                    /\ context m = Some (lines_between lines (Z.max 1 (Z.of_nat n + 1 - c))
                                           (Z.min len (Z.of_nat n + 1 + c)))).
Proof.
  intros Hc Ht Hi Hs Hrx Hb Hp Hg Hcontent Ha lines len.
  set (found := scan_lines (re_search rx) path c lines lines 1).
  exists found. split; [|split].
  - rewrite (@grep_up_to_file project_id pattern file_filter ref case_insensitive c max_files
               tree items before after f rx w w0 w1 ms1 Ht Hi Hs Hrx Hb).
    rewrite (@search_loop_cons L self (re_search rx) project_id ref c f after ms1 w1).
    unfold try_except, search_in_file, bind, lift. rewrite Hp, Hg, Hcontent.
    cbn [py_split_lines]. unfold ret. fold lines. fold found.
    rewrite (@search_loop_acc L self (re_search rx) project_id ref c after
               (ms1 ++ found)%list w2).
    rewrite Ha. now rewrite <- app_assoc.
  - intros m Hin.
    destruct (scan_lines_in _ _ _ _ _ _ _ Hin) as (_ & Hf & _).
    destruct (@scan_lines_window (re_search rx) path c lines m Hc Hin) as (Hn & Hl & Hctx).
    split; [exact Hf|]. split; [exact Hn|]. split; [exact Hl|exact Hctx].
  - intros n l g Hn Hsearch.
    pose proof (@scan_lines_complete (re_search rx) path c lines lines 1 n l g Hn Hsearch)
      as Hin.
    eexists. split; [exact Hin|]. cbn [line_number matched context].
    split; [lia|]. split; [reflexivity|].
    destruct (@scan_lines_window (re_search rx) path c lines _ Hc Hin) as (_ & _ & Hctx).
    cbn [line_number context] in Hctx. rewrite Hctx.
    replace (1 + Z.of_nat n) with (Z.of_nat n + 1) by lia. reflexivity.
Qed.

(** C6: when the content fetch of one candidate file raises,
    [grep_repository_content] still scans the candidates before it and
    after it and returns their matches, and the failure is logged; when
    the failing file is the only candidate the result is the empty
    list. *)
Theorem C6_fetch_failure_is_skipped (project_id pattern : str) (file_filter : option str)
    (ref : str) (case_insensitive : bool) (c max_files : Z) (tree : pyval)
    (items before after : list pyval) (f path : pyval) (e : exn) (rx : regex)
    (w w0 w1 w2 w3 : World) (ms1 ms2 : list SearchMatch) :
  get_repository_tree self project_id "" ref true 1000 w = (Ok tree, w0) ->
  py_iter tree = Ok items ->
  select_files file_filter max_files items [] = Ok (before ++ f :: after)%list ->
  compile_pattern pattern case_insensitive = Ok rx ->
  search_loop self (re_search rx) project_id ref c before [] w0 = (Ok ms1, w1) ->
  py_getitem f "path" = Ok path ->
  get_file self project_id path ref w1 = (Err e, w2) ->
  search_loop self (re_search rx) project_id ref c after []
    (logged w2 (SearchFailed path e)) = (Ok ms2, w3) ->
  grep_repository_content self project_id pattern file_filter ref case_insensitive
    c max_files w = (Ok (ms1 ++ ms2)%list, w3)
  /\ In (EvLog (SearchFailed path e)) (trace w3)
  /\ (before = [] -> after = [] ->
      grep_repository_content self project_id pattern file_filter ref case_insensitive
        c max_files w = (Ok [], logged w2 (SearchFailed path e))).
Proof.
  intros Ht Hi Hs Hrx Hb Hp Hg Ha.
  assert (Hall : grep_repository_content self project_id pattern file_filter ref
                   case_insensitive c max_files w = (Ok (ms1 ++ ms2)%list, w3)).
  { rewrite (@grep_up_to_file project_id pattern file_filter ref case_insensitive c max_files
               tree items before after f rx w w0 w1 ms1 Ht Hi Hs Hrx Hb).
    rewrite (@search_loop_skip L self (re_search rx) project_id ref c f path after ms1
               w1 w2 e Hp Hg).
    rewrite (@search_loop_acc L self (re_search rx) project_id ref c after ms1).
    rewrite Ha. reflexivity. }
  split; [exact Hall|]. split.
  - destruct (@search_loop_events L self (re_search rx) project_id ref c after []
                (logged w2 (SearchFailed path e))) as (evs & Hev & _).
    rewrite Ha in Hev. cbn [snd] in Hev. rewrite Hev. cbn [logged trace].
    apply in_or_app. left. apply in_or_app. right. now left.
  - intros -> ->. cbn in Hb, Ha. unfold ret in Hb, Ha.
    injection Hb as <- <-. injection Ha as <- <-. exact Hall.
Qed.

End GrepResults.

(** The five-line file of [dir/b.py], the pattern found in its line 3,
    one context line: the record carries lines 2, 3 and 4. *)
Lemma C5_witness :
  let lines := ["x = 1"; "y = (2"; "z = 3"; "y = (4"; "w = 5"] in
  let record (path : str) :=
    mkMatch (PStr path) 3 "z = 3" "z = 3" (Some ["y = (2"; "z = 3"; "y = (4"]) in
  fst (grep_repository_content (L := Extra.lib) Demo.client "42" "z = 3" None "main" false
         1 50 Extra.library)
  = Ok [record "dir/b.py"; record "lib/d.py"]
  /\ exists found,
       fst (grep_repository_content (L := Extra.lib) Demo.client "42" "z = 3" None "main"
              false 1 50 Extra.library)
       = Ok ([] ++ found ++ [record "lib/d.py"])%list
       /\ (forall m, In m found ->
             file m = PStr "dir/b.py"
             /\ 1 <= line_number m <= 5
             /\ (exists l, nth_error lines (Z.to_nat (line_number m - 1)) = Some l
                           /\ Demo.lit_search (false, "z = 3") l = Some (matched m))
             /\ context m = Some (lines_between lines (Z.max 1 (line_number m - 1))
                                    (Z.min 5 (line_number m + 1))))
       /\ (forall (n : nat) (l g : str),
             nth_error lines n = Some l -> Demo.lit_search (false, "z = 3") l = Some g ->
             exists m, In m found /\ line_number m = Z.of_nat n + 1 /\ matched m = g
                       /\ context m = Some (lines_between lines (Z.max 1 (Z.of_nat n + 1 - 1))
                                              (Z.min 5 (Z.of_nat n + 1 + 1)))).
Proof.
  intros lines record. split; [reflexivity|].
  set (w0 := snd (get_repository_tree (L := Extra.lib) Demo.client "42" "" "main" true 1000
                    Extra.library)).
  set (w2 := snd (get_file (L := Extra.lib) Demo.client "42" (PStr "dir/b.py") "main" w0)).
  set (after := [Demo.blob "dir/c.txt"; Demo.blob "lib/d.py"]).
  set (w3 := snd (search_loop (L := Extra.lib) Demo.client (Demo.lit_search (false, "z = 3"))
                    "42" "main" 1 after [] w2)).
  destruct (@C5_context_is_clamped_window Extra.lib Demo.client "42" "z = 3" None "main" false
              1 50 Extra.library_tree
              [Demo.blob "dir/b.py"; Demo.blob "dir/c.txt"; Demo.blob "lib/d.py"]
              [] after (Demo.blob "dir/b.py") (PStr "dir/b.py")
              (PDict [("file_name", PStr "b.py"); ("content", PStr Demo.five_lines);
                      ("encoding", PStr "base64")])
              Demo.five_lines (false, "z = 3")
              Extra.library w0 w0 w2 w3 [] [record "lib/d.py"])
    as (found & Hg & Hsound & Hcomplete).
  - lia.
  - apply fst_pair. reflexivity.
  - reflexivity.
  - reflexivity.
  - reflexivity.
  - reflexivity.
  - reflexivity.
  - apply fst_pair. reflexivity.
  - reflexivity.
  - apply fst_pair. reflexivity.
  - exists found. split; [exact (f_equal fst Hg)|]. split; [exact Hsound|exact Hcomplete].
Defined.

(** The listing has three text files and the fetch of the second one
    fails: the matches of the first and of the third are returned. *)
Lemma C6_witness :
  fst (grep_repository_content (L := Extra.lib) Demo.client "42" "y = (" None "main" false
         1 50 Extra.library)
  = Ok (Demo.found "dir/b.py" ++ Demo.found "lib/d.py")%list.
Proof.
  set (failure := PyException
    "API request failed after 3 attempts: /api/v4/projects/42/repository/files/dir%2Fc.txt?ref=main").
  set (rx := (false, "y = (") : @regex Extra.lib).
  set (w0 := snd (get_repository_tree (L := Extra.lib) Demo.client "42" "" "main" true 1000
                    Extra.library)).
  set (w1 := snd (search_loop (L := Extra.lib) Demo.client (Demo.lit_search rx) "42" "main" 1
                    [Demo.blob "dir/b.py"] [] w0)).
  set (w2 := snd (get_file (L := Extra.lib) Demo.client "42" (PStr "dir/c.txt") "main" w1)).
  set (w3 := snd (search_loop (L := Extra.lib) Demo.client (Demo.lit_search rx) "42" "main" 1
                    [Demo.blob "lib/d.py"] []
                    (logged w2 (SearchFailed (PStr "dir/c.txt") failure)))).
  destruct (@C6_fetch_failure_is_skipped Extra.lib Demo.client "42" "y = (" None "main" false
              1 50 Extra.library_tree
              [Demo.blob "dir/b.py"; Demo.blob "dir/c.txt"; Demo.blob "lib/d.py"]
              [Demo.blob "dir/b.py"] [Demo.blob "lib/d.py"]
              (Demo.blob "dir/c.txt") (PStr "dir/c.txt") failure rx
              Extra.library w0 w1 w2 w3 (Demo.found "dir/b.py") (Demo.found "lib/d.py"))
    as [Hall _].
  - apply fst_pair. reflexivity.
  - reflexivity.
  - reflexivity.
  - reflexivity.
  - apply fst_pair. reflexivity.
  - reflexivity.
  - apply fst_pair. reflexivity.
  - apply fst_pair. reflexivity.
  - exact (f_equal fst Hall).
Defined.

Lemma grep_scans_first_candidates_witness :
  grep_repository_content (L := Extra.lib) Demo.client "42" "thr" None "main" false 1 50
    Extra.assets
  = search_loop (L := Extra.lib) Demo.client (Demo.lit_search (false, "thr")) "42" "main" 1
      [Demo.blob "notes.py"] []
      (snd (get_repository_tree (L := Extra.lib) Demo.client "42" "" "main" true 1000
              Extra.assets)).
Proof.
  apply (@grep_scans_first_candidates Extra.lib Demo.client "42" "thr" None "main" false 1 50
           [Demo.blob "logo.png"; Demo.blob "notes.py"; Demo.directory "img";
            Demo.blob "img/Photo.JPG"]
           (false, "thr") Extra.assets).
  - apply fst_pair. reflexivity.
  - repeat constructor; eexists; reflexivity.
  - repeat constructor; intros _; eexists; reflexivity.
  - reflexivity.
Defined.

Lemma grep_fetches_only_candidates_witness :
  let tree := [Demo.blob "logo.png"; Demo.blob "notes.py"; Demo.directory "img";
               Demo.blob "img/Photo.JPG"] in
  exists evs,
    trace (snd (grep_repository_content (L := Extra.lib) Demo.client "42" "thr" None "main"
                  false 1 50 Extra.assets))
    = (trace (snd (get_repository_tree (L := Extra.lib) Demo.client "42" "" "main" true 1000
                     Extra.assets)) ++ evs)%list
    /\ fetches_only (L := Extra.lib) Demo.client "42" "main"
         (fun f => In f tree /\ candidate (L := Extra.lib) None f = true) evs.
Proof.
  intros tree.
  apply (@grep_fetches_only_candidates Extra.lib Demo.client "42" "thr" None "main" false 1 50
           tree Extra.assets).
  - apply fst_pair. reflexivity.
  - repeat constructor; eexists; reflexivity.
  - repeat constructor; intros _; eexists; reflexivity.
Defined.

(* ================================================================= *)
(** ** Content grep: the lines of one file *)

Section GrepLines.

Context {L : PyLib}.
Variable self : GitLabClient.

Lemma scan_lines_ascending (search : str -> option str) (path : pyval) (c : Z)
    (lines : list str) :
  forall (todo : list str) (k : Z),
    ascending (map line_number (scan_lines search path c lines todo k)).
Proof.
  induction todo as [|l todo IH]; intros k; [exact I|].
  cbn [scan_lines]. destruct (search l) as [g|]; [|apply IH].
  cbn [map ascending line_number]. split; [|apply IH].
  destruct (scan_lines search path c lines todo (k + 1)) as [|m ms] eqn:E; [exact I|].
  cbn [map].
  assert (Hin : In m (scan_lines search path c lines todo (k + 1))) by (rewrite E; now left).
  apply scan_lines_in in Hin. lia.
Qed.

(** X9: the matches of one file are one record for each line the
    pattern is found in, and no other: the line numbers count from 1
    and go up, the record carries the line without the white space at
    its ends and the text found, and a context only when
    [context_lines] is positive. *)
Theorem scan_reports_each_matching_line (search : str -> option str) (path : pyval)
    (c : Z) (lines : list str) :
  let ms := scan_lines search path c lines lines 1 in
  ascending (map line_number ms)
  /\ (forall m, In m ms ->
        exists l, nth_error lines (Z.to_nat (line_number m - 1)) = Some l
                  /\ 1 <= line_number m
                  /\ search l = Some (matched m) /\ line m = strip l /\ file m = path
                  /\ (c <= 0 -> context m = None))
  /\ (forall (i : nat) (l g : str),
        nth_error lines i = Some l -> search l = Some g ->
        exists m, In m ms /\ line_number m = Z.of_nat i + 1 /\ matched m = g).
Proof.
  intros ms. split; [apply scan_lines_ascending|]. split.
  - intros m Hin. apply scan_lines_in in Hin.
    destruct Hin as (Hk & Hf & Hctx & l & Hn & Hs & Hl).
    exists l. repeat split; try assumption; try lia.
    intros Hc. rewrite Hctx. destruct (Z.gtb_spec c 0); [lia|reflexivity].
  - intros i l g Hn Hs.
    eexists. split; [exact (scan_lines_complete search path c lines lines 1 i Hn Hs)|].
    cbn [line_number matched]. split; [lia|reflexivity].
Qed.

(** X10: a reply to the file request that is an object without
    [content] (the host's error message, say) is no failure for the
    grep: the file is scanned as one empty line, and gives a match when
    the pattern is found in the empty text. *)
Theorem file_without_content_is_one_empty_line (search : str -> option str)
    (project_id ref path : str) (f : pyval) (context_lines : Z)
    (d : list (str * pyval)) (w w' : World) :
  py_getitem f "path" = Ok (PStr path) ->
  request self (file_endpoint project_id path ref) w = (Ok (PDict d), w') ->
  lookup "content" d = None ->
  search_in_file self search project_id f ref context_lines w
  = (Ok (match search EmptyString with
         | Some g => [mkMatch (PStr path) 1 EmptyString g
                        (if context_lines >? 0 then Some [EmptyString] else None)]
         | None => []
         end), w').
Proof.
  intros Hp Hr Hc. unfold search_in_file, get_file, bind, lift. rewrite Hp.
  cbn [py_quote]. fold (file_endpoint project_id path ref). rewrite Hr, Hc.
  unfold ret. cbn [py_get]. rewrite Hc. cbn [py_split_lines split_lines scan_lines].
  destruct (search EmptyString) as [g|]; [|reflexivity].
  destruct (Z.gtb_spec context_lines 0) as [Hpos|Hneg]; [|reflexivity].
  assert (Hw : context_window [EmptyString] 1 context_lines = [EmptyString]).
  { unfold context_window, py_slice, clamp_index.
    change (Z.of_nat (List.length [EmptyString])) with 1.
    replace (Z.max 0 (1 - context_lines - 1)) with 0 by lia.
    replace (Z.min 1 (1 + context_lines)) with 1 by lia.
    reflexivity. }
  rewrite Hw. reflexivity.
Qed.

End GrepLines.

Lemma scan_reports_each_matching_line_witness :
  let ms := scan_lines (literal_search false "o") (PStr "notes.py") 0
              ["one"; "two"; "three"; "four"; "five"]
              ["one"; "two"; "three"; "four"; "five"] 1 in
  ascending (map line_number ms)
  /\ (forall m, In m ms ->
        exists l, nth_error ["one"; "two"; "three"; "four"; "five"]
                    (Z.to_nat (line_number m - 1)) = Some l
                  /\ 1 <= line_number m
                  /\ literal_search false "o" l = Some (matched m) /\ line m = strip l
                  /\ file m = PStr "notes.py"
                  /\ (0 <= 0 -> context m = None))
  /\ (forall (i : nat) (l g : str),
        nth_error ["one"; "two"; "three"; "four"; "five"] i = Some l ->
        literal_search false "o" l = Some g ->
        exists m, In m ms /\ line_number m = Z.of_nat i + 1 /\ matched m = g).
Proof.
  exact (@scan_reports_each_matching_line (literal_search false "o") (PStr "notes.py") 0
           ["one"; "two"; "three"; "four"; "five"]).
Defined.

Lemma file_without_content_is_one_empty_line_witness :
  search_in_file (L := Extra.lib) Demo.client (literal_search false EmptyString) "42"
    (Demo.blob "gone.py") "main" 1 Extra.assets
  = (Ok [mkMatch (PStr "gone.py") 1 EmptyString EmptyString (Some [EmptyString])],
     snd (request (L := Extra.lib) Demo.client (file_endpoint "42" "gone.py" "main")
            Extra.assets)).
Proof.
  apply (@file_without_content_is_one_empty_line Extra.lib Demo.client
           (literal_search false EmptyString) "42" "main" "gone.py" (Demo.blob "gone.py") 1
           [("message", PStr "404 File Not Found")] Extra.assets).
  - reflexivity.
  - apply fst_pair. reflexivity.
  - reflexivity.
Defined.

(* ================================================================= *)
(** ** Files: what [get_file] returns, and the upload read back *)

Section Files.

Context {L : PyLib}.
Variable self : GitLabClient.

Lemma lookup_dict_set_same (k : str) (v : pyval) (d : list (str * pyval)) :
  lookup k (dict_set k v d) = Some v.
Proof.
  induction d as [|[k' v'] d IH]; cbn.
  - now rewrite String.eqb_refl.
  - destruct (String.eqb k k') eqn:E; cbn; rewrite E; [reflexivity|exact IH].
Qed.

Lemma lookup_dict_set_other (k k' : str) (v : pyval) (d : list (str * pyval)) :
  k' <> k -> lookup k' (dict_set k v d) = lookup k' d.
Proof.
  intros Hk. induction d as [|[k0 v0] d IH]; cbn.
  - destruct (String.eqb_spec k' k); [contradiction|reflexivity].
  - destruct (String.eqb_spec k k0) as [->|Hne]; cbn.
    + destruct (String.eqb_spec k' k0); [contradiction|reflexivity].
    + destruct (String.eqb k' k0); [reflexivity|exact IH].
Qed.

Lemma dict_set_keys (k : str) (v : pyval) (d : list (str * pyval)) :
  lookup k d <> None -> map fst (dict_set k v d) = map fst d.
Proof.
  induction d as [|[k0 v0] d IH]; cbn; [congruence|].
  destruct (String.eqb k k0); cbn; [reflexivity|].
  intros H. now rewrite IH.
Qed.

(** X11: when the host answers the file request with an object that
    has a [content] that is base64 of UTF-8 text, [get_file] returns
    the object with the text in place of the base64 and nothing else
    changed: the same keys in the same order, the same other values. *)
Theorem get_file_decodes_content_only (project_id path ref : str)
    (d : list (str * pyval)) (c : pyval) (text : str) (w w' : World) :
  request self (file_endpoint project_id path ref) w = (Ok (PDict d), w') ->
  lookup "content" d = Some c ->
  decode_content c = Ok text ->
  exists d',
    get_file self project_id (PStr path) ref w = (Ok (PDict d'), w')
    /\ lookup "content" d' = Some (PStr text)
    /\ (forall k, k <> "content" -> lookup k d' = lookup k d)
    /\ map fst d' = map fst d.
Proof.
  intros Hr Hc Hd. exists (dict_set "content" (PStr text) d).
  split; [|split; [|split]].
  - unfold get_file, bind, lift. cbn [py_quote].
    fold (file_endpoint project_id path ref). rewrite Hr, Hc, Hd. reflexivity.
  - apply lookup_dict_set_same.
  - intros k Hk. now apply lookup_dict_set_other.
  - apply dict_set_keys. congruence.
Qed.


End Files.

Lemma get_file_decodes_content_only_witness :
  exists d',
    get_file (L := Demo.lib) Demo.client "42" (PStr "dir/b.py") "main" Demo.repository
    = (Ok (PDict d'),
       snd (request (L := Demo.lib) Demo.client (file_endpoint "42" "dir/b.py" "main")
              Demo.repository))
    /\ lookup "content" d' = Some (PStr Demo.five_lines)
    /\ (forall k, k <> "content" ->
          lookup k d'
          = lookup k [("file_name", PStr "b.py");
                      ("content", PStr "eCA9IDEKeSA9ICgyCnogPSAzCnkgPSAoNAp3ID0gNQ==");
                      ("encoding", PStr "base64")])
    /\ map fst d' = ["file_name"; "content"; "encoding"].
Proof.
  apply (@get_file_decodes_content_only Demo.lib Demo.client "42" "dir/b.py" "main"
           [("file_name", PStr "b.py");
            ("content", PStr "eCA9IDEKeSA9ICgyCnogPSAzCnkgPSAoNAp3ID0gNQ==");
            ("encoding", PStr "base64")]
           (PStr "eCA9IDEKeSA9ICgyCnogPSAzCnkgPSAoNAp3ID0gNQ==") Demo.five_lines
           Demo.repository).
  - apply fst_pair. reflexivity.
  - reflexivity.
  - reflexivity.
Defined.


(* ================================================================= *)
(** ** Commit filtering: no filter, and what any filter guarantees *)

Section CommitBounds.

Context {L : PyLib}.
Variable self : GitLabClient.

Lemma no_filter_grep_passes (grep : option str) (c : pyval) :
  no_filter grep -> grep_passes grep c = Ok true.
Proof. destruct grep as [[|? ?]|]; [reflexivity|contradiction|reflexivity]. Qed.

Lemma no_filter_author_passes (author : option str) (c : pyval) :
  no_filter author -> author_passes author c = Ok true.
Proof. destruct author as [[|? ?]|]; [reflexivity|contradiction|reflexivity]. Qed.

Lemma filter_commits_all (grep author : option str) (limit : Z) :
  no_filter grep -> no_filter author ->
  forall (commits acc : list pyval),
    filter_commits grep author limit commits acc
    = Ok (acc ++ firstn (Z.to_nat (Z.max 1 (limit - Z.of_nat (List.length acc)))) commits)%list.
Proof.
  intros Hg Ha. induction commits as [|c commits IH]; intros acc.
  - cbn. now rewrite firstn_nil, app_nil_r.
  - cbn [filter_commits]. rewrite (@no_filter_grep_passes grep c Hg), (@no_filter_author_passes author c Ha).
    cbn [rbind negb].
    destruct (Z.geb_spec (Z.of_nat (List.length (acc ++ [c])%list)) limit)
      as [Hge|Hlt]; rewrite length_app in *; cbn [List.length] in *.
    + replace (Z.to_nat (Z.max 1 (limit - Z.of_nat (List.length acc)))) with 1%nat by lia.
      reflexivity.
    + rewrite IH. rewrite length_app. cbn [List.length].
      replace (Z.to_nat (Z.max 1 (limit - Z.of_nat (List.length acc))))
        with (S (Z.to_nat (Z.max 1 (limit - Z.of_nat (List.length acc + 1))))) by lia.
      cbn [firstn]. rewrite <- app_assoc. reflexivity.
Qed.

(** X13: with no message filter and no author filter (left out or
    empty), [search_commits_enhanced] returns the first [limit] commits
    of the host's list as they are, whatever the commits look like. *)
Theorem search_commits_without_filters (project_id : str)
    (grep author file_path since until : option str) (limit : Z)
    (commits : list pyval) (w w' : World) :
  no_filter grep -> no_filter author ->
  0 < limit ->
  list_commits self project_id None since until w = (Ok (PList commits), w') ->
  search_commits_enhanced self project_id grep author file_path since until limit w
  = (Ok (firstn (Z.to_nat limit) commits), w').
Proof.
  intros Hg Ha Hl Hlist. unfold search_commits_enhanced, bind, lift. rewrite Hlist.
  rewrite take_list by lia. rewrite (@filter_commits_all grep author limit Hg Ha).
  cbn [List.length app]. rewrite firstn_firstn. do 2 f_equal. f_equal. lia.
Qed.

Lemma subsequence_nil_l {A} (l : list A) : subsequence [] l.
Proof. induction l; constructor; assumption. Qed.

(** What the loop adds to its list: commits of the window, in order,
    that passed both filters, and no more than the limit leaves room
    for. *)
Lemma filter_commits_sound (grep author : option str) (limit : Z) :
  forall (commits acc r : list pyval),
    filter_commits grep author limit commits acc = Ok r ->
    exists l,
      r = (acc ++ l)%list
      /\ subsequence l commits
      /\ Forall (fun c => grep_passes grep c = Ok true /\ author_passes author c = Ok true) l
      /\ (List.length l <= Z.to_nat (Z.max 1 (limit - Z.of_nat (List.length acc))))%nat.
Proof.
  induction commits as [|c commits IH]; intros acc r H; cbn [filter_commits] in H.
  - injection H as <-. exists []. rewrite app_nil_r.
    split; [reflexivity|]. split; [constructor|]. split; [constructor|]. cbn. lia.
  - assert (Hskip : filter_commits grep author limit commits acc = Ok r ->
              exists l,
                r = (acc ++ l)%list
                /\ subsequence l (c :: commits)
                /\ Forall (fun c => grep_passes grep c = Ok true
                                    /\ author_passes author c = Ok true) l
                /\ (List.length l
                    <= Z.to_nat (Z.max 1 (limit - Z.of_nat (List.length acc))))%nat).
    { intros H'. destruct (IH _ _ H') as (l & -> & Hs & Hf & Hn).
      exists l. split; [reflexivity|]. split; [now constructor|]. split; assumption. }
    destruct (grep_passes grep c) as [[|]|e] eqn:Hg; cbn [rbind negb] in H;
      [|auto|discriminate].
    destruct (author_passes author c) as [[|]|e] eqn:Ha; cbn [rbind negb] in H;
      [|auto|discriminate].
    destruct (Z.geb_spec (Z.of_nat (List.length (acc ++ [c])%list)) limit) as [Hge|Hlt];
      rewrite length_app in *; cbn [List.length] in *.
    + injection H as <-. exists [c]. split; [reflexivity|].
      split; [constructor; apply subsequence_nil_l|].
      split; [repeat constructor; assumption|]. cbn. lia.
    + destruct (IH _ _ H) as (l & -> & Hs & Hf & Hn). exists (c :: l).
      split; [now rewrite <- app_assoc|]. split; [now constructor|].
      split; [constructor; auto|].
      rewrite length_app in Hn. cbn [List.length] in *. lia.
Qed.

(** X14: whatever the filters and the commits, the commits that
    [search_commits_enhanced] returns are commits of the window (the
    first [3 * limit] of the host's list), in the host's order, each of
    which passed the message filter and the author filter; there are
    at most [limit] of them (one, when [limit] is below 1). *)
Theorem search_commits_returns_passing_commits (project_id : str)
    (grep author file_path since until : option str) (limit : Z)
    (commits r : list pyval) (w w1 w' : World) :
  list_commits self project_id None since until w = (Ok (PList commits), w1) ->
  search_commits_enhanced self project_id grep author file_path since until limit w
  = (Ok r, w') ->
  subsequence r (py_slice commits 0 (limit * 3))
  /\ Forall (fun c => grep_passes grep c = Ok true /\ author_passes author c = Ok true) r
  /\ (List.length r <= cap limit)%nat
  /\ w' = w1.
Proof.
  intros Hlist H. unfold search_commits_enhanced, bind, lift in H. rewrite Hlist in H.
  cbn [py_take] in H.
  destruct (filter_commits grep author limit (py_slice commits 0 (limit * 3)) [])
    as [r'|e] eqn:E; [|discriminate].
  injection H as <- <-.
  destruct (filter_commits_sound _ _ _ _ _ E) as (l & -> & Hs & Hf & Hn).
  cbn [app List.length] in *. rewrite Z.sub_0_r in Hn.
  split; [exact Hs|]. split; [exact Hf|]. split; [exact Hn|reflexivity].
Qed.

End CommitBounds.

Lemma search_commits_without_filters_witness :
  search_commits_enhanced (L := Demo.lib) Demo.client "42" (Some EmptyString) None
    (Some "README.md") None None 2 Demo.repository
  = (Ok [Demo.commit "c0" "Bob" "bob@example.org";
         Demo.commit "c1" "Alice Liddell" "al@example.org"],
     snd (list_commits (L := Demo.lib) Demo.client "42" None None None Demo.repository)).
Proof.
  apply (@search_commits_without_filters Demo.lib Demo.client "42" (Some EmptyString) None
           (Some "README.md") None None 2 Demo.early_commits Demo.repository).
  - exact I.
  - exact I.
  - lia.
  - apply fst_pair. reflexivity.
Defined.

Lemma search_commits_returns_passing_commits_witness :
  let r := [Demo.commit "c1" "Alice Liddell" "al@example.org";
            Demo.commit "c3" "Carol" "ALICE@example.org"] in
  let w1 := snd (list_commits (L := Demo.lib) Demo.client "42" None None None
                   Demo.repository) in
  subsequence r (py_slice Demo.early_commits 0 (2 * 3))
  /\ Forall (fun c => grep_passes (L := Demo.lib) None c = Ok true
                      /\ author_passes (L := Demo.lib) (Some "alice") c = Ok true) r
  /\ (List.length r <= cap 2)%nat
  /\ w1 = w1.
Proof.
  intros r w1.
  apply (@search_commits_returns_passing_commits Demo.lib Demo.client "42" None
           (Some "alice") None None None 2 Demo.early_commits r Demo.repository w1 w1).
  - apply fst_pair. reflexivity.
  - apply fst_pair. reflexivity.
Defined.

(* ================================================================= *)
(** ** Configuration: what a readable file gives *)

Section Configuration.

Lemma contains_equals_cons (c : ascii) (r : str) :
  contains "=" (String c r) = Ascii.eqb c "=" || contains "=" r.
Proof.
  cbn [contains String.prefix].
  destruct (ascii_dec "=" c) as [<-|Hne].
  - destruct r; reflexivity.
  - destruct (Ascii.eqb_spec c "="); [congruence|reflexivity].
Qed.

Lemma space_is_no_equals (c : ascii) : is_space c = true -> Ascii.eqb c "=" = false.
Proof.
  intros H. destruct (Ascii.eqb_spec c "=") as [->|]; [discriminate H|reflexivity].
Qed.

Lemma high_is_no_equals (c : ascii) :
  (128 <= nat_of_ascii c)%nat -> Ascii.eqb c "=" = false.
Proof.
  intros H. destruct (Ascii.eqb_spec c "=") as [->|]; [cbn in H; lia|reflexivity].
Qed.

Lemma space2_high (c c1 : ascii) :
  is_space2 c c1 = true -> (128 <= nat_of_ascii c)%nat /\ (128 <= nat_of_ascii c1)%nat.
Proof.
  unfold is_space2. intros H.
  apply andb_prop in H. destruct H as [H0 H1]. apply Nat.eqb_eq in H0.
  apply orb_prop in H1. destruct H1 as [H1|H1]; apply Nat.eqb_eq in H1; lia.
Qed.

Lemma space3_high (c c1 c2 : ascii) :
  is_space3 c c1 c2 = true ->
  (128 <= nat_of_ascii c)%nat /\ (128 <= nat_of_ascii c1)%nat /\ (128 <= nat_of_ascii c2)%nat.
Proof.
  unfold is_space3. cbv zeta. intros H.
  repeat match goal with
         | H : (_ || _)%bool = true |- _ => apply orb_prop in H; destruct H as [H|H]
         | H : (_ && _)%bool = true |- _ =>
             apply andb_prop in H; let H' := fresh "H" in destruct H as [H H']
         | H : (_ =? _)%nat = true |- _ => apply Nat.eqb_eq in H
         | H : (_ <=? _)%nat = true |- _ => apply Nat.leb_le in H
         end; lia.
Qed.

Lemma contains_equals_lstrip_le (n : nat) :
  forall s, (String.length s <= n)%nat -> contains "=" (lstrip s) = contains "=" s.
Proof.
  induction n as [|n IH]; intros s Hlen.
  - destruct s; [reflexivity|cbn in Hlen; lia].
  - destruct s as [|c r]; [reflexivity|]. cbn [String.length] in Hlen.
    cbn [lstrip]. destruct (is_space c) eqn:E.
    { rewrite contains_equals_cons, (space_is_no_equals _ E). apply IH. lia. }
    destruct r as [|c1 r1]; [reflexivity|]. cbn [String.length] in Hlen.
    destruct (is_space2 c c1) eqn:E2.
    { destruct (space2_high _ _ E2) as [H0 H1].
      rewrite (contains_equals_cons c), (contains_equals_cons c1).
      rewrite (high_is_no_equals _ H0), (high_is_no_equals _ H1). apply IH. lia. }
    destruct r1 as [|c2 r2]; [reflexivity|]. cbn [String.length] in Hlen.
    destruct (is_space3 c c1 c2) eqn:E3; [|reflexivity].
    destruct (space3_high _ _ _ E3) as (H0 & H1 & H2).
    rewrite (contains_equals_cons c), (contains_equals_cons c1), (contains_equals_cons c2).
    rewrite (high_is_no_equals _ H0), (high_is_no_equals _ H1), (high_is_no_equals _ H2).
    apply IH. lia.
Qed.

Lemma contains_equals_lstrip (s : str) : contains "=" (lstrip s) = contains "=" s.
Proof. exact (@contains_equals_lstrip_le (String.length s) s (le_n _)). Qed.

Lemma blank_no_equals (s : str) : blank s = true -> contains "=" s = false.
Proof.
  unfold blank. intros H. rewrite <- contains_equals_lstrip.
  destruct (lstrip s); [reflexivity|discriminate].
Qed.

Lemma contains_equals_rstrip (s : str) : contains "=" (rstrip s) = contains "=" s.
Proof.
  induction s as [|c r IH]; [reflexivity|].
  cbn [rstrip]. destruct (blank (String c r)) eqn:B.
  - now rewrite (blank_no_equals _ B).
  - now rewrite !contains_equals_cons, IH.
Qed.

Lemma split_equals_some (s : str) :
  contains "=" s = true -> exists k v, split_equals s = Some (k, v).
Proof.
  induction s as [|c r IH]; [discriminate|].
  rewrite contains_equals_cons. cbn [split_equals].
  destruct (Ascii.eqb c "="); [eauto|].
  intros H. destruct (IH H) as (k & v & ->). eauto.
Qed.

Lemma read_config_total (lines : list str) :
  forall config, exists config', read_config lines config = Some config'.
Proof.
  induction lines as [|l lines IH]; intros config; [eexists; reflexivity|].
  cbn [read_config].
  destruct (contains "=" l) eqn:E; cbn [andb]; [|apply IH].
  destruct (negb (String.prefix "#" l)); [|apply IH].
  destruct (@split_equals_some (strip l)) as (k & v & ->); [|apply IH].
  unfold strip. now rewrite contains_equals_rstrip, contains_equals_lstrip.
Qed.

(** X15: a configuration file that can be read never gives the
    defaults: every line with an equals sign splits in two at line 35,
    so the unpacking does not raise, and the configuration holds what
    the lines of the file define and nothing else. *)
Theorem readable_config_never_falls_back (text : str) :
  exists config,
    read_config (file_lines text) [] = Some config
    /\ _load_config (Some text) = config.
Proof.
  destruct (read_config_total (file_lines text) []) as [config H].
  exists config. split; [exact H|]. unfold _load_config. now rewrite H.
Qed.

Lemma read_config_app (lines1 lines2 : list str) :
  forall config,
    read_config (lines1 ++ lines2)%list config
    = match read_config lines1 config with
      | Some config' => read_config lines2 config'
      | None => None
      end.
Proof.
  induction lines1 as [|l lines1 IH]; intros config; [reflexivity|].
  cbn [app read_config].
  destruct (contains "=" l && negb (String.prefix "#" l)); [|apply IH].
  destruct (split_equals (strip l)) as [[k v]|]; [apply IH|reflexivity].
Qed.

Lemma tight_app (s t : str) : tight (s ++ t) = tight s && tight t.
Proof.
  induction s as [|c r IH]; [reflexivity|].
  cbn [String.append tight]. rewrite IH. now rewrite !andb_assoc.
Qed.

(** An ASCII character that is no white space starts no white space. *)
Lemma lstrip_ascii_head (c : ascii) (r : str) :
  is_space c = false -> (nat_of_ascii c < 128)%nat -> lstrip (String c r) = String c r.
Proof.
  intros Hs Hc. cbn [lstrip]. rewrite Hs.
  destruct r as [|c1 r1]; [reflexivity|].
  assert (E2 : is_space2 c c1 = false).
  { unfold is_space2. replace (nat_of_ascii c =? 194)%nat with false; [reflexivity|].
    symmetry. apply Nat.eqb_neq. lia. }
  rewrite E2. destruct r1 as [|c2 r2]; [reflexivity|].
  assert (E3 : is_space3 c c1 c2 = false).
  { unfold is_space3. cbv zeta.
    replace (nat_of_ascii c =? 225)%nat with false by (symmetry; apply Nat.eqb_neq; lia).
    replace (nat_of_ascii c =? 226)%nat with false by (symmetry; apply Nat.eqb_neq; lia).
    replace (nat_of_ascii c =? 227)%nat with false by (symmetry; apply Nat.eqb_neq; lia).
    reflexivity. }
  now rewrite E3.
Qed.

Lemma tight_head (c : ascii) (r : str) :
  tight (String c r) = true ->
  is_space c = false /\ (nat_of_ascii c < 128)%nat /\ tight r = true.
Proof.
  cbn [tight]. intros H. apply andb_prop in H. destruct H as [H Hr].
  apply andb_prop in H. destruct H as [Hs Hc].
  split; [now destruct (is_space c)|]. split; [|exact Hr].
  unfold byte_val in Hc. now apply Nat.ltb_lt in Hc.
Qed.

Lemma rstrip_tight_newline (s : str) :
  tight s = true -> rstrip (s ++ String newline EmptyString) = s.
Proof.
  induction s as [|c r IH]; intros H; [reflexivity|].
  destruct (tight_head _ _ H) as (Hs & Hc & Hr).
  cbn [String.append rstrip]. unfold blank. rewrite (@lstrip_ascii_head c (r ++ String newline EmptyString) Hs Hc).
  now rewrite (IH Hr).
Qed.

Lemma split_equals_app (k v : str) :
  contains "=" k = false -> split_equals (k ++ String "=" v) = Some (k, v).
Proof.
  induction k as [|c r IH]; [reflexivity|].
  rewrite contains_equals_cons. cbn [String.append split_equals].
  destruct (Ascii.eqb c "="); [discriminate|].
  cbn [orb]. intros H. now rewrite (IH H).
Qed.

Lemma contains_equals_app (k v : str) : contains "=" (k ++ String "=" v) = true.
Proof.
  induction k as [|c r IH]; [cbn [String.append]; now rewrite contains_equals_cons|].
  cbn [String.append]. rewrite contains_equals_cons, IH. apply orb_true_r.
Qed.

(** X16: the last assignment of a file wins.  After any lines, a line
    [key=value] (key and value ASCII without white space, the key
    without an equals sign and not starting a comment) leaves the key
    bound to the value, whatever the lines before bound it to, and
    leaves every other key as the lines before left it; the value may
    itself hold equals signs. *)
Theorem last_assignment_wins (lines : list str) (key value : str) :
  tight key = true ->
  tight value = true ->
  contains "=" key = false ->
  String.prefix "#" key = false ->
  exists before config,
    read_config lines [] = Some before
    /\ read_config
         (lines ++ [(key ++ "=" ++ value ++ String newline EmptyString)%string])%list []
       = Some config
    /\ config_get config key "default" = value
    /\ forall k, k <> key -> lookup k config = lookup k before.
Proof.
  intros Hk Hv Hne Hc.
  destruct (read_config_total lines []) as [before Hb].
  exists before, (dict_set key (PStr value) before).
  split; [exact Hb|].
  assert (Hline : read_config [key ++ "=" ++ value ++ String newline EmptyString] before
                  = Some (dict_set key (PStr value) before)).
  { cbn [read_config].
    change ("=" ++ value ++ String newline EmptyString)
      with (String "=" (value ++ String newline EmptyString)).
    rewrite contains_equals_app.
    assert (Hp : String.prefix "#" (key ++ String "=" (value ++ String newline EmptyString))
                 = false).
    { destruct key as [|c r]; [reflexivity|].
      cbn [String.append String.prefix] in Hc |- *.
      destruct (ascii_dec "#" c); [destruct r; discriminate Hc|reflexivity]. }
    rewrite Hp. cbn [negb andb].
    assert (Hs : strip (key ++ String "=" (value ++ String newline EmptyString))
                 = key ++ String "=" value).
    { unfold strip.
      assert (Hl : lstrip (key ++ String "=" (value ++ String newline EmptyString))
                   = key ++ String "=" (value ++ String newline EmptyString)).
      { destruct key as [|c r].
        - cbn [String.append]. apply lstrip_ascii_head; [reflexivity|cbn; lia].
        - destruct (tight_head _ _ Hk) as (Hsp & Hc0 & _).
          cbn [String.append]. now apply lstrip_ascii_head. }
      rewrite Hl.
      replace (key ++ String "=" (value ++ String newline EmptyString))
        with ((key ++ String "=" value) ++ String newline EmptyString).
      - apply rstrip_tight_newline.
        rewrite tight_app, Hk. cbn [tight andb]. rewrite Hv. reflexivity.
      - clear. induction key as [|c r IH]; cbn [String.append]; [reflexivity|].
        now rewrite <- IH. }
    rewrite Hs, (@split_equals_app key value Hne). reflexivity. }
  split; [rewrite read_config_app, Hb; exact Hline|].
  split.
  - unfold config_get. now rewrite lookup_dict_set_same.
  - intros k Hkk. now apply lookup_dict_set_other.
Qed.

End Configuration.

Lemma last_assignment_wins_witness :
  exists before config,
    read_config ["# token"; "GITLAB_TOKEN=old"; "PROJECT_ID=42"] [] = Some before
    /\ read_config (["# token"; "GITLAB_TOKEN=old"; "PROJECT_ID=42"]
                    ++ [("GITLAB_TOKEN" ++ "=" ++ "a=b" ++ String newline EmptyString)%string])%list
         []
       = Some config
    /\ config_get config "GITLAB_TOKEN" "default" = "a=b"
    /\ forall k, k <> "GITLAB_TOKEN" -> lookup k config = lookup k before.
Proof.
  apply (@last_assignment_wins ["# token"; "GITLAB_TOKEN=old"; "PROJECT_ID=42"]
           "GITLAB_TOKEN" "a=b"); reflexivity.
Defined.

(* ================================================================= *)
(** ** Transport: bodies that are no JSON *)

Section TransportBodies.

Context {L : PyLib}.
Variable self : GitLabClient.

Lemma translate_newlines_nonempty (c : ascii) (r : str) :
  exists c' r', translate_newlines (String c r) = String c' r'.
Proof.
  cbn [translate_newlines]. destruct (Ascii.eqb c carriage_return); [|eauto].
  destruct r as [|c1 r1]; [eauto|]. destruct (Ascii.eqb c1 newline); eauto.
Qed.

Lemma observe_text (h : nat -> list str -> run_outcome) (cmd : list str) (i : nat)
    (out err : bytes) :
  h i cmd = Completed 0 out err ->
  utf8_valid out = true -> utf8_valid err = true ->
  out <> EmptyString ->
  observe h cmd i = (Some (translate_newlines out), S i).
Proof.
  intros H Ho He Hne. unfold observe. rewrite H.
  unfold decode_text, utf8_decode. rewrite Ho, He. cbn [option_map].
  destruct out as [|c r]; [contradiction|].
  destruct (translate_newlines_nonempty c r) as (c' & r' & ->). reflexivity.
Qed.

(** X17: a body that is UTF-8 and that [json.loads] rejects with
    [JSONDecodeError] is returned as text by the first attempt, after
    one process: the text of the body with its line ends translated
    to newlines, as the text mode of [subprocess.run] reads it. *)
Theorem make_request_returns_text_that_is_no_json (endpoint method : str)
    (data : option (list (str * pyval))) (retries : Z) (w : World) (out err : bytes) :
  let cmd := curl_command self endpoint method data in
  host w (runs w) cmd = Completed 0 out err ->
  utf8_valid out = true -> utf8_valid err = true ->
  out <> EmptyString ->
  json_loads (translate_newlines out) = Err JSONDecodeError ->
  0 < retries ->
  exists w',
    _make_request self endpoint method data retries w
      = (Ok (PStr (translate_newlines out)), w')
    /\ runs w' = S (runs w)
    /\ attempts_made (trace w') = (attempts_made (trace w) + 1)%nat.
Proof.
  intros cmd H Ho He Hne Hjson Hr.
  assert (Hval : attempt_value (host w) cmd (runs w)
                 = (Some (PStr (translate_newlines out)), S (runs w))).
  { unfold attempt_value. rewrite (observe_text _ _ _ H Ho He Hne).
    unfold parse_text. rewrite Hjson. reflexivity. }
  destruct (@request_loop_accepts L cmd endpoint retries 0 (Z.to_nat retries) 1 w
              (runs w) _ _ eq_refl Hval ltac:(lia)) as (w' & E & _ & Hruns & Hatt & _).
  exists w'. unfold _make_request. fold cmd. rewrite E.
  split; [reflexivity|]. split; assumption.
Qed.

Lemma failures_unparsed (h : nat -> list str -> run_outcome) (cmd : list str) (i0 : nat) :
  (forall i, (i0 <= i)%nat -> attempt_value h cmd i = (None, S i)) ->
  forall n i, (i0 <= i)%nat -> failures h cmd n i = Some (i + n)%nat.
Proof.
  intros H. induction n as [|n IH]; intros i Hi; cbn [failures].
  - f_equal. lia.
  - rewrite (H i Hi). rewrite IH by lia. f_equal. lia.
Qed.

(** X18: a body on which [json.loads] raises another error than
    [JSONDecodeError] (deeply nested brackets give [RecursionError]) is
    no answer: the attempt counts as failed, and a host that keeps
    sending such a body makes the request end with the exhaustion
    error after [retries] attempts of one process each. *)
Theorem make_request_retries_unparsed_body (endpoint method : str)
    (data : option (list (str * pyval))) (retries : Z) (w : World) :
  (forall i, (runs w <= i)%nat ->
     exists out err e,
       host w i (curl_command self endpoint method data) = Completed 0 out err
       /\ utf8_valid out = true /\ utf8_valid err = true /\ out <> EmptyString
       /\ json_loads (translate_newlines out) = Err e /\ e <> JSONDecodeError) ->
  exists w',
    _make_request self endpoint method data retries w
      = (Err (PyException ("API request failed after " ++ str_of_int retries
                           ++ " attempts: " ++ endpoint)), w')
    /\ runs w' = (runs w + Z.to_nat retries)%nat
    /\ attempts_made (trace w') = (attempts_made (trace w) + Z.to_nat retries)%nat.
Proof.
  intros H. set (cmd := curl_command self endpoint method data) in *.
  assert (Hval : forall i, (runs w <= i)%nat ->
                   attempt_value (host w) cmd i = (None, S i)).
  { intros i Hi. destruct (H i Hi) as (out & err & e & Hh & Ho & He & Hne & Hj & Hx).
    unfold attempt_value. rewrite (observe_text _ _ _ Hh Ho He Hne).
    unfold parse_text. rewrite Hj. destruct e; try reflexivity. contradiction. }
  destruct (@request_loop_exhausted L cmd endpoint retries (Z.to_nat retries) 1 w
              (runs w + Z.to_nat retries)%nat
              (failures_unparsed _ _ Hval (Z.to_nat retries) (le_n _)))
    as (w' & E & _ & Hruns & Hatt).
  exists w'. unfold _make_request. fold cmd. rewrite E.
  split; [reflexivity|]. split; assumption.
Qed.

End TransportBodies.

Lemma make_request_returns_text_that_is_no_json_witness :
  exists w',
    _make_request (L := Extra.lib) Demo.client "/api/v4/projects/42/jobs/7/trace" "GET" None 3
      Extra.job_log
      = (Ok (PStr ("build ok" ++ String newline "done")), w')
    /\ runs w' = 1%nat
    /\ attempts_made (trace w') = 1%nat.
Proof.
  apply (@make_request_returns_text_that_is_no_json Extra.lib Demo.client
           "/api/v4/projects/42/jobs/7/trace" "GET" None 3 Extra.job_log
           ("build ok" ++ String carriage_return (String newline "done")) EmptyString).
  - reflexivity.
  - reflexivity.
  - reflexivity.
  - discriminate.
  - reflexivity.
  - lia.
Defined.

Lemma make_request_retries_unparsed_body_witness :
  exists w',
    _make_request (L := Extra.lib) Demo.client "/api/v4/projects/42" "GET" None 3 Extra.nested
      = (Err (PyException "API request failed after 3 attempts: /api/v4/projects/42"), w')
    /\ runs w' = 3%nat
    /\ attempts_made (trace w') = 3%nat.
Proof.
  apply (@make_request_retries_unparsed_body Extra.lib Demo.client "/api/v4/projects/42"
           "GET" None 3 Extra.nested).
  intros i _. exists "[[[[0]]]]", EmptyString, RecursionError.
  split; [reflexivity|]. split; [reflexivity|]. split; [reflexivity|].
  split; [discriminate|]. split; [reflexivity|discriminate].
Defined.

(* ================================================================= *)
(** ** File discovery: a star in front of a suffix *)

Section StarSuffix.

Context {L : PyLib}.
Variable self : GitLabClient.

Lemma glob_tokens_plain (s : str) :
  plain s = true ->
  forall fuel, (String.length s <= fuel)%nat ->
    glob_tokens fuel s = map GLit (list_ascii_of_string s).
Proof.
  induction s as [|c r IH]; intros Hp fuel Hf.
  - destruct fuel; reflexivity.
  - cbn [plain] in Hp. cbn [String.length] in Hf.
    destruct fuel as [|fuel]; [lia|].
    cbn [glob_tokens list_ascii_of_string map].
    destruct (Ascii.eqb c "*"); [discriminate|].
    destruct (Ascii.eqb c "?"); [discriminate|].
    destruct (Ascii.eqb c "["); [discriminate|].
    cbn [negb andb] in Hp. rewrite (IH Hp fuel) by lia. reflexivity.
Qed.

Lemma glob_match_literal (s : str) :
  forall name, glob_match (map GLit (list_ascii_of_string s)) name = String.eqb s name.
Proof.
  induction s as [|c r IH]; intros [|c' name]; cbn [list_ascii_of_string map glob_match];
    try reflexivity.
  rewrite IH. reflexivity.
Qed.

Lemma substring_whole (s : str) : substring 0 (String.length s) s = s.
Proof. induction s as [|c r IH]; cbn; [reflexivity|now rewrite IH]. Qed.

Lemma eqb_length (s t : str) : String.length s <> String.length t -> String.eqb s t = false.
Proof.
  intros H. destruct (String.eqb_spec s t) as [->|]; [contradiction|reflexivity].
Qed.

Lemma endswith_cons (c : ascii) (r s : str) :
  endswith (String c r) s = String.eqb s (String c r) || endswith r s.
Proof.
  unfold endswith. cbn [String.length].
  set (m := String.length s). set (n := String.length r).
  destruct (Nat.leb_spec m n) as [Hle|Hgt].
  - replace (m <=? S n)%nat with true by (symmetry; apply Nat.leb_le; lia).
    replace (S n - m)%nat with (S (n - m)) by lia.
    cbn [andb substring].
    rewrite (@eqb_length s (String c r)) by (subst m n; cbn [String.length]; lia).
    reflexivity.
  - cbn [andb]. rewrite orb_false_r.
    destruct (Nat.eq_dec m (S n)) as [E|E].
    + rewrite E, Nat.leb_refl, Nat.sub_diag. cbn [andb].
      change (S n) with (String.length (String c r)). rewrite substring_whole.
      apply String.eqb_sym.
    + replace (m <=? S n)%nat with false by (symmetry; apply Nat.leb_gt; lia).
      cbn [andb]. symmetry. apply eqb_length. subst m n. cbn [String.length]. lia.
Qed.

(** A star in front of a plain suffix matches the names that end with
    the suffix. *)
Lemma fnmatchcase_star_suffix (suffix name : str) :
  plain suffix = true ->
  fnmatchcase name (String "*" suffix) = endswith name suffix.
Proof.
  intros Hp. unfold fnmatchcase, translate. cbn [String.length glob_tokens].
  change (Ascii.eqb "*" "*") with true. cbv iota.
  rewrite (glob_tokens_plain suffix Hp) by lia.
  induction name as [|c r IH].
  - cbn [glob_match]. rewrite glob_match_literal, orb_false_r.
    unfold endswith. cbn [String.length]. destruct suffix; reflexivity.
  - rewrite endswith_cons, <- IH. cbn [glob_match].
    rewrite glob_match_literal. reflexivity.
Qed.

(** X19: with a pattern that is a star and a suffix without pattern
    characters, [search_files] finds the files whose path ends with the
    suffix, in whatever directory they are: the star runs across the
    slashes of the path. *)
Theorem star_suffix_finds_files_by_ending (project_id suffix ref : str) (max_results : Z)
    (tree : list pyval) (w w' : World) :
  plain suffix = true ->
  get_repository_tree self project_id "" ref true 1000 w = (Ok (PList tree), w') ->
  Forall is_dict tree ->
  Forall text_path tree ->
  search_files self project_id (String "*" suffix) ref max_results w
  = (Ok (firstn (cap max_results)
           (filter (fun item => is_blob item && path_ends suffix (path_of item)) tree)), w').
Proof.
  intros Hp Htree Hd Ht. unfold search_files, bind, lift. rewrite Htree. cbn [py_iter].
  rewrite search_files_loop_cap by assumption.
  cbn [List.length app]. unfold cap. rewrite Z.sub_0_r. do 3 f_equal.
  apply filter_ext. intros item. unfold glob_hit. f_equal.
  destruct (path_of item); try reflexivity.
  cbn [path_matches path_ends]. now apply fnmatchcase_star_suffix.
Qed.

End StarSuffix.

Lemma star_suffix_finds_files_by_ending_witness :
  search_files (L := Demo.lib) Demo.client "42" "*.py" "main" 100 Demo.repository
  = (Ok [Demo.blob "a.py"; Demo.blob "dir/b.py"],
     snd (get_repository_tree (L := Demo.lib) Demo.client "42" "" "main" true 1000
            Demo.repository)).
Proof.
  apply (@star_suffix_finds_files_by_ending Demo.lib Demo.client "42" ".py" "main" 100
           [Demo.blob "a.py"; Demo.directory "dir"; Demo.blob "dir/b.py"; Demo.blob "dir/c.txt"]
           Demo.repository).
  - reflexivity.
  - apply fst_pair. reflexivity.
  - repeat constructor; eexists; reflexivity.
  - repeat constructor; intros _; eexists; reflexivity.
Defined.

(* ================================================================= *)
(** ** The requests the searches make *)

Section SearchRequests.

Context {L : PyLib}.
Variable self : GitLabClient.

Lemma append_assoc' (a b c : str) : ((a ++ b) ++ c = a ++ (b ++ c))%string.
Proof. induction a as [|x a IH]; cbn; [reflexivity|now rewrite IH]. Qed.

Lemma tree_request (project_id ref : str) :
  get_repository_tree self project_id "" ref true 1000
  = request self (tree_endpoint project_id ref).
Proof.
  unfold get_repository_tree, tree_endpoint. f_equal.
  change (str_of_int 1000) with "1000".
  cbn [List.app String.concat]. rewrite !append_assoc'. reflexivity.
Qed.

(** X20: [search_files] makes one request, whatever the pattern and the
    bound: at most three attempts, every process of which asks for the
    same page of the recursive listing, 1000 entries long.  No second
    page is ever asked for. *)
Theorem search_files_asks_for_one_page (project_id pattern ref : str) (max_results : Z)
    (w : World) :
  exists evs,
    trace (snd (search_files self project_id pattern ref max_results w))
    = (trace w ++ evs)%list
    /\ runs_only (curl_command self (tree_endpoint project_id ref) "GET" None) evs
    /\ (attempts_made evs <= 3)%nat.
Proof.
  unfold search_files, bind, lift. rewrite tree_request. unfold request, _make_request.
  destruct (@request_loop_events L (curl_command self (tree_endpoint project_id ref) "GET" None)
              (tree_endpoint project_id ref) 3 (Z.to_nat 3) 1 w)
    as (r & w1 & evs & E & Ht & _ & _ & Ho & Ha & _).
  rewrite E. exists evs. split; [|split; [exact Ho|exact Ha]].
  destruct r as [v|e]; [|exact Ht].
  destruct (py_iter v) as [items|e]; [|exact Ht].
  destruct (search_files_loop pattern max_results items []); exact Ht.
Qed.

(** X21: the request of [search_commits_enhanced] does not depend on
    the limit or on the filters: it is the request of [list_commits]
    with the two dates, which names no page size, so the window of
    [3 * limit] commits is cut from whatever one page of the host
    holds. *)
Theorem search_commits_request_ignores_limit (project_id : str)
    (grep author file_path since until : option str) (limit : Z) (w : World) :
  snd (search_commits_enhanced self project_id grep author file_path since until limit w)
  = snd (list_commits self project_id None since until w).
Proof.
  unfold search_commits_enhanced, bind, lift.
  destruct (list_commits self project_id None since until w) as [[commits|e] w1];
    [|reflexivity].
  destruct (py_take commits (limit * 3)) as [window|e]; [|reflexivity].
  destruct (filter_commits grep author limit window []); reflexivity.
Qed.

End SearchRequests.

(* ================================================================= *)
(** ** Content grep: the order of the matches *)

Section GrepOrder.

Context {L : PyLib}.
Variable self : GitLabClient.
Variable search : str -> option str.
Variables project_id ref : str.
Variable context_lines : Z.

(** The matches of one file: they name the path of the file, and their
    line numbers go up. *)
Let block_of (f : pyval) (b : list SearchMatch) : Prop :=
  (forall m, In m b -> py_getitem f "path" = Ok (file m))
  /\ ascending (map line_number b).

Lemma search_round_block (f : pyval) (acc ms : list SearchMatch) (w w' : World) :
  try_except
    (found <- search_in_file self search project_id f ref context_lines ;;
     ret (acc ++ found)%list)
    (fun e =>
       path <- lift (py_getitem f "path") ;;
       log (SearchFailed path e) ;;;
       ret acc) w = (Ok ms, w') ->
  exists b, ms = (acc ++ b)%list /\ block_of f b.
Proof.
  assert (Hnone : exists b, acc = (acc ++ b)%list /\ block_of f b).
  { exists []. rewrite app_nil_r. split; [reflexivity|]. split; [intros m []|exact I]. }
  unfold try_except, search_in_file, bind, lift, log, emit, ret.
  destruct (py_getitem f "path") as [p|e] eqn:Hp; [|discriminate].
  destruct (get_file self project_id p ref w) as [[v|e] w1];
    [|intros H; injection H as <- _; exact Hnone].
  destruct (py_get v "content" (PStr "")) as [c|e];
    [|intros H; injection H as <- _; exact Hnone].
  destruct (py_split_lines c) as [lines|e];
    [|intros H; injection H as <- _; exact Hnone].
  intros H. injection H as <- _.
  exists (scan_lines search p context_lines lines lines 1). split; [reflexivity|]. split.
  - intros m Hin. apply scan_lines_in in Hin. destruct Hin as (_ & -> & _). exact Hp.
  - apply scan_lines_ascending.
Qed.

Lemma search_loop_blocks :
  forall (files : list pyval) (acc ms : list SearchMatch) (w w' : World),
    search_loop self search project_id ref context_lines files acc w = (Ok ms, w') ->
    exists blocks, ms = (acc ++ List.concat blocks)%list /\ Forall2 block_of files blocks.
Proof.
  induction files as [|f files IH]; intros acc ms w w' H.
  - cbn in H. unfold ret in H. injection H as <- _.
    exists []. cbn. rewrite app_nil_r. split; [reflexivity|constructor].
  - rewrite (@search_loop_cons L self search project_id ref context_lines f files acc w) in H.
    destruct (try_except _ _ w) as [[ms1|e] w1] eqn:E; [|discriminate].
    destruct (search_round_block _ _ _ E) as (b & -> & Hb).
    destruct (IH _ _ _ _ H) as (blocks & -> & Hbs).
    exists (b :: blocks). cbn [List.concat]. rewrite app_assoc.
    split; [reflexivity|]. constructor; assumption.
Qed.

(** X22: the matches of a grep come file by file, in the order the
    files are scanned, and line by line inside a file: the result is
    one block of matches for each file scanned, empty for a file
    without a match or whose fetch failed, each block naming the path
    of its file with line numbers that go up. *)
Theorem grep_matches_in_file_then_line_order (files : list pyval) (ms : list SearchMatch)
    (w w' : World) :
  search_loop self search project_id ref context_lines files [] w = (Ok ms, w') ->
  exists blocks,
    ms = List.concat blocks
    /\ Forall2 (fun f b =>
                  (forall m, In m b -> py_getitem f "path" = Ok (file m))
                  /\ ascending (map line_number b)) files blocks.
Proof.
  intros H. destruct (search_loop_blocks _ _ _ H) as (blocks & -> & Hb).
  exists blocks. split; [reflexivity|exact Hb].
Qed.

End GrepOrder.

Lemma grep_matches_in_file_then_line_order_witness :
  let files := [Demo.blob "dir/b.py"; Demo.blob "dir/c.txt"; Demo.blob "lib/d.py"] in
  exists blocks,
    (Demo.found "dir/b.py" ++ Demo.found "lib/d.py")%list = List.concat blocks
    /\ Forall2 (fun f b =>
                  (forall m, In m b -> py_getitem f "path" = Ok (file m))
                  /\ ascending (map line_number b)) files blocks.
Proof.
  intros files.
  apply (@grep_matches_in_file_then_line_order Demo.lib Demo.client
           (literal_search false "y = (") "42" "main" 1 files
           (Demo.found "dir/b.py" ++ Demo.found "lib/d.py")%list Demo.repository
           (snd (search_loop (L := Demo.lib) Demo.client (literal_search false "y = (")
                   "42" "main" 1 files [] Demo.repository))).
  apply fst_pair. reflexivity.
Defined.
